(** * Placement reminder bot

    A shallow embedding of [placement_reminder_bot.py]: the four MongoDB
    collections, the in-process APScheduler job store, the rate limiter's
    request history and the thirteen command handlers, followed by the
    properties of the reminder life cycle, the deletion workflow and the
    abuse guard.

    Conventions.
    - A MongoDB collection is the list of its documents in insertion order;
      [find_one] returns the first match, [delete_one] removes the first
      match, [update_one(..., upsert=True)] rewrites the first match or
      appends a new document.
    - The scheduler's job store is a finite map from job ids to jobs.
    - [time.time()] readings are rationals (every float is one; the rounding
      of float subtraction is not modelled).  A [datetime] is a position on
      the time line in microseconds together with the flag that tells naive
      and timezone-aware values apart, because Python refuses to compare the
      two kinds.
    - Handlers run in a state-and-exception monad over the [world].  Every
      call that leaves the handler (store, scheduler, transport) is recorded
      in the world's [trace] and is a point where the run may be cut short
      ([halt_after]). *)

From Stdlib Require Import ZArith QArith String Ascii List Bool Lia.
From stdpp Require Import gmap strings list pretty sorting.

Open Scope string_scope.
Open Scope list_scope.
Open Scope Z_scope.

(** ** Data model *)

(** A document of [db["admins"]]. *)
Record admin_doc := AdminDoc { a_user_id : Z; a_role : string }.

(** [datetime]: [micros] is the wall-clock reading of a naive value and the
    UTC instant of an aware one. *)
Record datetime := DateTime { micros : Z; tz_aware : bool }.

(** [bson.ObjectId]: twelve bytes, kept as the 24 lowercase hexadecimal
    digits that [str(oid)] prints. *)
Definition oid := string.

(** A document of [db["reminders"]].  BSON stores a datetime as a UTC
    instant, so [r_time] and [r_created_at] are plain instants. *)
Record reminder_doc := ReminderDoc {
  r_id : oid;
  r_time : Z;
  r_message : string;
  r_created_by : Z;
  r_creator_name : string;
  r_created_at : Z }.

(** A document of [db["blocked_users"]]. *)
Record blocked_doc := BlockedDoc {
  b_user_id : Z; b_reason : string; b_blocked_at : Q }.

(** A document of [db["pending_deletes"]]. *)
Record pending_doc := PendingDoc {
  p_rid : string; p_requested_by : Z; p_requested_at : Q }.

(** A scheduled job: a one-shot ["date"] job that calls [send_reminder] with
    a text, or the ["interval"] job that pings the deployment URL. *)
Inductive job :=
| DateJob (run_date : datetime) (text : string)
| IntervalJob (minutes : Z).

Inductive coll := Admins | Reminders | Blocked | PendingDeletes.

(** Destination of [context.bot.send_message]. *)
Inductive chat := Channel | Chat (user_id : Z).

(** What a handler does outside its own frame, in program order. *)
Inductive event :=
| EvFind (c : coll)
| EvInsert (c : coll)
| EvUpdate (c : coll)
| EvDelete (c : coll)
| EvGetJobs
| EvAddJob (job_id : string)
| EvRemoveJob (job_id : string)
| EvReply (text : string) (parse_mode : option string)
| EvSend (to : chat) (text : string) (parse_mode : option string).

(** The readings the process obtains from outside: the [n]-th reading of
    [time.time()], of [datetime.now()] and [datetime.utcnow()], and the
    [n]-th ObjectId the driver generates. *)
Record oracle := Oracle {
  o_time : nat -> Q;
  o_now : nat -> Z;
  o_utcnow : nat -> Z;
  o_oid : nat -> oid }.

Record world := World {
  admins : list admin_doc;
  reminders : list reminder_doc;
  blocked : list blocked_doc;
  pending_deletes : list pending_doc;
  scheduler : gmap string job;
  user_requests : gmap Z (list Q);
  trace : list event;
  clock : oracle;
  reads : nat;
  halt_after : option nat }.

Definition set_admins (v : list admin_doc) (w : world) : world :=
  World v (reminders w) (blocked w) (pending_deletes w) (scheduler w)
        (user_requests w) (trace w) (clock w) (reads w) (halt_after w).
Definition set_reminders (v : list reminder_doc) (w : world) : world :=
  World (admins w) v (blocked w) (pending_deletes w) (scheduler w)
        (user_requests w) (trace w) (clock w) (reads w) (halt_after w).
Definition set_blocked (v : list blocked_doc) (w : world) : world :=
  World (admins w) (reminders w) v (pending_deletes w) (scheduler w)
        (user_requests w) (trace w) (clock w) (reads w) (halt_after w).
Definition set_pending_deletes (v : list pending_doc) (w : world) : world :=
  World (admins w) (reminders w) (blocked w) v (scheduler w)
        (user_requests w) (trace w) (clock w) (reads w) (halt_after w).
Definition set_scheduler (v : gmap string job) (w : world) : world :=
  World (admins w) (reminders w) (blocked w) (pending_deletes w) v
        (user_requests w) (trace w) (clock w) (reads w) (halt_after w).
Definition set_user_requests (v : gmap Z (list Q)) (w : world) : world :=
  World (admins w) (reminders w) (blocked w) (pending_deletes w) (scheduler w)
        v (trace w) (clock w) (reads w) (halt_after w).
Definition set_trace (v : list event) (w : world) : world :=
  World (admins w) (reminders w) (blocked w) (pending_deletes w) (scheduler w)
        (user_requests w) v (clock w) (reads w) (halt_after w).
Definition set_reads (v : nat) (w : world) : world :=
  World (admins w) (reminders w) (blocked w) (pending_deletes w) (scheduler w)
        (user_requests w) (trace w) (clock w) v (halt_after w).
Definition set_halt_after (v : option nat) (w : world) : world :=
  World (admins w) (reminders w) (blocked w) (pending_deletes w) (scheduler w)
        (user_requests w) (trace w) (clock w) (reads w) v.

(** ** The handler monad *)

Inductive exn :=
| IndexError
| ValueError (datum : string)
| TypeError
| OverflowError
| InvalidId (datum : string)
| JobLookupError (job_id : string)
| ConflictingIdError (job_id : string).

Inductive outcome (A : Type) :=
| Ok (a : A)
| Raise (e : exn)
| Halted.
Arguments Ok {A} a.
Arguments Raise {A} e.
Arguments Halted {A}.

Definition M (A : Type) : Type := world -> outcome A * world.

Definition ret {A} (a : A) : M A := fun w => (Ok a, w).

Definition bind {A B} (m : M A) (k : A -> M B) : M B :=
  fun w =>
    match m w with
    | (Ok a, w') => k a w'
    | (Raise e, w') => (Raise e, w')
    | (Halted, w') => (Halted, w')
    end.

Definition raise {A} (e : exn) : M A := fun w => (Raise e, w).

(** [try: m except Exception as e: h e].  A run that was cut short is not an
    exception and is not caught. *)
Definition try_except {A} (m : M A) (h : exn -> M A) : M A :=
  fun w =>
    match m w with
    | (Raise e, w') => h e w'
    | r => r
    end.

Notation "'let!' x ':=' m 'in' k" := (bind m (fun x => k))
  (at level 10, x name, m at level 100, k at level 200).
Notation "m '>>' k" := (bind m (fun _ => k))
  (at level 90, right associativity).

Definition gets {A} (f : world -> A) : M A := fun w => (Ok (f w), w).
Definition modify (f : world -> world) : M unit := fun w => (Ok tt, f w).

(** One outside call: cut the run here when the budget is used up, else
    record the call. *)
Definition io (e : event) : M unit :=
  fun w =>
    match halt_after w with
    | Some O => (Halted, w)
    | Some (S n) => (Ok tt, set_halt_after (Some n) (set_trace (trace w ++ [e]) w))
    | None => (Ok tt, set_trace (trace w ++ [e]) w)
    end.

Fixpoint for_each {A} (f : A -> M unit) (l : list A) : M unit :=
  match l with
  | [] => ret tt
  | x :: l' => f x >> for_each f l'
  end.

(** Clock readings and ObjectId generation. *)
Definition time_time : M Q :=
  fun w => (Ok (o_time (clock w) (reads w)), set_reads (S (reads w)) w).
Definition datetime_now : M datetime :=
  fun w => (Ok (DateTime (o_now (clock w) (reads w)) false),
            set_reads (S (reads w)) w).
Definition datetime_utcnow : M datetime :=
  fun w => (Ok (DateTime (o_utcnow (clock w) (reads w)) false),
            set_reads (S (reads w)) w).
Definition new_ObjectId : M oid :=
  fun w => (Ok (o_oid (clock w) (reads w)), set_reads (S (reads w)) w).

(** ** Collections *)

Fixpoint delete_first {D} (f : D -> bool) (l : list D) : list D :=
  match l with
  | [] => []
  | d :: l' => if f d then l' else d :: delete_first f l'
  end.

Fixpoint update_first {D} (f : D -> bool) (g : D -> D) (l : list D) : list D :=
  match l with
  | [] => []
  | d :: l' => if f d then g d :: l' else d :: update_first f g l'
  end.

Definition is_some {A} (o : option A) : bool :=
  match o with Some _ => true | None => false end.

Section Collection.
Context {D : Type} (c : coll) (get : world -> list D)
        (set : list D -> world -> world).

Definition find_one (f : D -> bool) : M (option D) :=
  io (EvFind c) >> gets (fun w => List.find f (get w)).

Definition find_all : M (list D) :=
  io (EvFind c) >> gets get.

Definition insert_one (d : D) : M unit :=
  io (EvInsert c) >> modify (fun w => set (get w ++ [d]) w).

(** Returns [result.deleted_count]. *)
Definition delete_one (f : D -> bool) : M nat :=
  io (EvDelete c) >>
  let! found := gets (fun w => is_some (List.find f (get w))) in
  modify (fun w => set (delete_first f (get w)) w) >>
  ret (if found then 1%nat else 0%nat).

(** [update_one(filter, {"$set": ...}, upsert=True)]: [g] applies the
    [$set] to the first match; [fresh] is the document inserted when
    nothing matches. *)
Definition update_one_upsert (f : D -> bool) (g : D -> D) (fresh : D) : M unit :=
  io (EvUpdate c) >>
  modify (fun w =>
    match List.find f (get w) with
    | Some _ => set (update_first f g (get w)) w
    | None => set (get w ++ [fresh]) w
    end).
End Collection.

(** Query filters. *)
Definition by_user (user_id : Z) (d : admin_doc) : bool :=
  a_user_id d =? user_id.
Definition by_role (r : string) (d : admin_doc) : bool :=
  String.eqb (a_role d) r.
Definition by_user_role (user_id : Z) (r : string) (d : admin_doc) : bool :=
  (a_user_id d =? user_id) && String.eqb (a_role d) r.
Definition blocked_by_user (user_id : Z) (d : blocked_doc) : bool :=
  b_user_id d =? user_id.
Definition by_rid (rid : string) (d : pending_doc) : bool :=
  String.eqb (p_rid d) rid.
Definition by_id (o : oid) (d : reminder_doc) : bool :=
  String.eqb (r_id d) o.

(** ** Transport *)

Definition reply_text (text : string) (parse_mode : option string) : M unit :=
  io (EvReply text parse_mode).
Definition send_message (to : chat) (text : string) (parse_mode : option string)
  : M unit :=
  io (EvSend to text parse_mode).

(** ** Helpers *)

Definition is_superadmin (user_id : Z) : M bool :=
  let! d := find_one Admins admins (by_user_role user_id "superadmin") in
  ret (is_some d).

Definition is_admin_or_superadmin (user_id : Z) : M bool :=
  let! d := find_one Admins admins (by_user user_id) in
  ret (is_some d).

(** ** Spam protection *)

Definition REQUEST_LIMIT : nat := 5.
Definition TIME_WINDOW : Q := 10.

Definition is_blocked (user_id : Z) : M bool :=
  let! d := find_one Blocked blocked (blocked_by_user user_id) in
  ret (is_some d).

Definition block_user (user_id : Z) (reason : string) : M unit :=
  let! t := time_time in
  update_one_upsert Blocked blocked set_blocked
    (blocked_by_user user_id)
    (fun d => BlockedDoc (b_user_id d) reason t)
    (BlockedDoc user_id reason t).

(** The default of [block_user]'s [reason] parameter. *)
Definition default_reason : string := "Spam detected".

Definition unblock_user (user_id : Z) : M nat :=
  delete_one Blocked blocked set_blocked (blocked_by_user user_id).

(** [now - t < TIME_WINDOW]. *)
Definition in_window (now t : Q) : bool :=
  negb (Qle_bool TIME_WINDOW (now - t)).

(** [user_requests] is a [defaultdict(list)]: a missing key reads as []. *)
Definition requests_of (user_id : Z) (m : gmap Z (list Q)) : list Q :=
  default [] (m !! user_id).

Definition rate_limit (user_id : Z) : M bool :=
  let! now := time_time in
  modify (fun w => set_user_requests
    (<[user_id := List.filter (in_window now) (requests_of user_id (user_requests w))]>
       (user_requests w)) w) >>
  modify (fun w => set_user_requests
    (<[user_id := requests_of user_id (user_requests w) ++ [now]]>
       (user_requests w)) w) >>
  let! n := gets (fun w => length (requests_of user_id (user_requests w))) in
  if (REQUEST_LIMIT <? n)%nat then
    block_user user_id default_reason >> ret false
  else ret true.

Record user := User { id : Z; username : option string }.
Record update := Update { effective_user : user; args : list string }.

Definition check_spam (u : update) : M bool :=
  let user_id := id (effective_user u) in
  let! op := is_admin_or_superadmin user_id in
  if op then ret true else
  let! bl := is_blocked user_id in
  if bl then
    reply_text "⛔ You are blocked. Contact the superadmin to be unblocked." None
    >> ret false
  else
  let! ok := rate_limit user_id in
  if negb ok then
    reply_text "⛔ You have been blocked for spamming. Contact the superadmin." None
    >> ret false
  else ret true.

(** ** Reminder helpers *)

Definition hours (n : Z) : Z := n * 3600 * 1000000.
Definition minutes (n : Z) : Z := n * 60 * 1000000.

(** [d - timedelta]: the result is aware exactly when [d] is. *)
Definition dt_sub (d : datetime) (delta : Z) : datetime :=
  DateTime (micros d - delta) (tz_aware d).

(** [a > b] on datetimes raises [TypeError] when one side is naive and the
    other aware. *)
Definition dt_gt (a b : datetime) : M bool :=
  if Bool.eqb (tz_aware a) (tz_aware b) then ret (micros b <? micros a)
  else raise TypeError.

Definition _get_intervals : list (Z * string) :=
  [ (hours 2, "⏰ Reminder in 2 hours:");
    (hours 1, "⏰ Reminder in 1 hour:");
    (minutes 30, "⏰ Reminder in 30 minutes:");
    (minutes 15, "⏰ Reminder in 15 minutes:");
    (0, "🔔 It's time!") ].

Definition enumerate {A} (l : list A) : list (nat * A) :=
  combine (seq 0 (length l)) l.

(** [scheduler.remove_job(job_id)]. *)
Definition remove_job (job_id : string) : M unit :=
  io (EvRemoveJob job_id) >>
  let! js := gets scheduler in
  match js !! job_id with
  | Some _ => modify (fun w => set_scheduler (delete job_id (scheduler w)) w)
  | None => raise (JobLookupError job_id)
  end.

(** [scheduler.add_job(..., id=job_id)]; an id already in the job store is
    refused. *)
Definition add_job (job_id : string) (j : job) : M unit :=
  io (EvAddJob job_id) >>
  let! js := gets scheduler in
  match js !! job_id with
  | Some _ => raise (ConflictingIdError job_id)
  | None => modify (fun w => set_scheduler (<[job_id := j]> (scheduler w)) w)
  end.

Definition get_jobs : M (list (string * job)) :=
  io EvGetJobs >> gets (fun w => map_to_list (scheduler w)).

(** [f"{reminder_id}_{i}"]. *)
Definition job_id_of (reminder_id : string) (i : nat) : string :=
  reminder_id +:+ "_" +:+ pretty i.

Definition schedule_reminder_jobs (reminder_id : string) (reminder_time : datetime)
    (message : string) : M unit :=
  let! now := datetime_now in
  for_each (fun '(i, (offset, prefix)) =>
    let run_time := dt_sub reminder_time offset in
    let! later := dt_gt run_time now in
    if later then
      let job_id := job_id_of reminder_id i in
      try_except (remove_job job_id) (fun _ => ret tt) >>
      add_job job_id (DateJob run_time (prefix +:+ " " +:+ message))
    else ret tt)
  (enumerate _get_intervals).

Definition remove_reminder_jobs (reminder_id : string) : M unit :=
  let! jobs := get_jobs in
  for_each (fun '(job_id, _) =>
    if String.prefix (reminder_id +:+ "_") job_id then
      try_except (remove_job job_id) (fun _ => ret tt)
    else ret tt)
  jobs.

(** ** ObjectId *)

Definition is_hex (c : ascii) : bool :=
  let n := nat_of_ascii c in
  ((48 <=? n) && (n <=? 57) || (97 <=? n) && (n <=? 102)
   || (65 <=? n) && (n <=? 70))%nat.

Definition lower (c : ascii) : ascii :=
  let n := nat_of_ascii c in
  if ((65 <=? n) && (n <=? 90))%nat then ascii_of_nat (n + 32) else c.

Fixpoint map_string (f : ascii -> ascii) (s : string) : string :=
  match s with
  | EmptyString => EmptyString
  | String c s' => String (f c) (map_string f s')
  end.

Fixpoint all_string (f : ascii -> bool) (s : string) : bool :=
  match s with
  | EmptyString => true
  | String c s' => f c && all_string f s'
  end.

(** The bytes of a 24-digit hexadecimal string of either case. *)
Definition oid_of_string (s : string) : option oid :=
  if (String.length s =? 24)%nat && all_string is_hex s
  then Some (map_string lower s)
  else None.

(** [ObjectId(s)] for a string; anything but 24 hexadecimal digits raises
    [InvalidId]. *)
Definition ObjectId (s : string) : M oid :=
  match oid_of_string s with
  | Some o => ret o
  | None => raise (InvalidId s)
  end.

(** An id in the form the bot prints it. *)
Definition printed_oid (s : string) : bool :=
  match oid_of_string s with
  | Some o => String.eqb o s
  | None => false
  end.

(** ** Library functions taken as given *)

Record pylib := PyLib {
  (** [int(s)]; [None] when it raises [ValueError]. *)
  py_int : string -> option Z;
  (** [datetime.strptime(s, "%Y-%m-%d %H:%M")] as a wall-clock reading;
      [None] when it raises [ValueError]. *)
  strptime : string -> option Z;
  (** [t.replace(tzinfo=ZoneInfo("Asia/Kolkata")).astimezone()] of a
      wall-clock reading [t]: the instant it denotes, with the offset the
      zone database gives for that date, or the exception raised when the
      conversion leaves the range of [datetime]. *)
  ist_to_server : Z -> exn + Z;
  (** [d.strftime('%Y-%m-%d %H:%M IST')] of an aware datetime in IST. *)
  strftime_ist : datetime -> string;
  (** A stored instant read back and rendered by
      [.astimezone(ZoneInfo('Asia/Kolkata')).strftime(...)], or the
      exception raised when the conversion leaves the range of
      [datetime]. *)
  strftime_stored : Z -> exn + string;
  (** [datetime.fromtimestamp(t).strftime("%Y-%m-%d %H:%M:%S")]. *)
  strftime_stamp : Q -> string;
  (** [str(e)] of an exception. *)
  exn_str : exn -> string;
  (** [s[:n]], counted in code points. *)
  py_take : nat -> string -> string }.

Definition nl : string := String "010"%char EmptyString.

(** [sep.join(l)]. *)
Definition join (sep : string) (l : list string) : string := String.concat sep l.

(** BSON integers have at most eight bytes; the driver raises
    [OverflowError] while encoding a query that holds a larger one. *)
Definition bson_int (n : Z) : M unit :=
  if (- 2 ^ 63 <=? n) && (n <? 2 ^ 63) then ret tt else raise OverflowError.

(** BSON datetimes have millisecond resolution. *)
Definition bson_ms (t : Z) : Z := 1000 * (t / 1000).

(** The offset of Asia/Kolkata since 1945, UTC+05:30; the examples convert
    with it. *)
Definition IST_OFFSET : Z := hours 5 + minutes 30.

Definition format_user (x : user) : string :=
  match username x with
  | Some s => if String.eqb s "" then pretty (id x) else "@" +:+ s
  | None => pretty (id x)
  end.

(** [context.args[n]]. *)
Definition arg (n : nat) (u : update) : M string :=
  match nth_error (args u) n with
  | Some s => ret s
  | None => raise IndexError
  end.

(** ** Bot commands *)

Section Handlers.
Variable SUPERADMIN_ID : Z.
Variable lib : pylib.

(** [int(context.args[0])]. *)
Definition int_arg0 (u : update) : M Z :=
  let! s := arg 0 u in
  match py_int lib s with
  | Some n => ret n
  | None => raise (ValueError s)
  end.

Definition start (u : update) : M unit :=
  let! ok := check_spam u in
  if negb ok then ret tt else
  reply_text ("👋 Hi! I'm your reminder bot." +:+ nl +:+
              "Use /remind to set reminders." +:+ nl +:+
              "Ping me with /ping to test uptime.") None.

Definition ping (u : update) : M unit :=
  reply_text "pong" None.

(** *** Admin management *)

Definition add_admin (u : update) : M unit :=
  let! ok := check_spam u in
  if negb ok then ret tt else
  let! sa := is_superadmin (id (effective_user u)) in
  if negb sa then reply_text "❌ Only superadmin can add admins." None else
  try_except
    (let! user_id := int_arg0 u in
     bson_int user_id >>
     let! d := find_one Admins admins (by_user user_id) in
     if negb (is_some d) then
       insert_one Admins admins set_admins (AdminDoc user_id "admin") >>
       reply_text ("✅ Added " +:+ pretty user_id +:+ " as admin.") None
     else
       reply_text "⚠️ That user is already an admin." None)
    (fun e => reply_text ("Usage: /addadmin <user_id>" +:+ nl +:+
                          "Error: " +:+ exn_str lib e) None).

Definition remove_admin (u : update) : M unit :=
  let! ok := check_spam u in
  if negb ok then ret tt else
  let! sa := is_superadmin (id (effective_user u)) in
  if negb sa then reply_text "❌ Only superadmin can remove admins." None else
  try_except
    (let! user_id := int_arg0 u in
     bson_int user_id >>
     let! deleted_count :=
       delete_one Admins admins set_admins (by_user_role user_id "admin") in
     if (0 <? deleted_count)%nat then
       reply_text ("✅ Removed " +:+ pretty user_id +:+ " from admins.") None
     else
       reply_text "⚠️ User is not an admin." None)
    (fun e => reply_text ("Usage: /removeadmin <user_id>" +:+ nl +:+
                          "Error: " +:+ exn_str lib e) None).

Definition list_admins (u : update) : M unit :=
  let! ok := check_spam u in
  if negb ok then ret tt else
  let! sa := is_superadmin (id (effective_user u)) in
  if negb sa then reply_text "❌ Only superadmin can list admins." None else
  let! docs := find_all Admins admins in
  let all_admins :=
    List.map (fun a => pretty (a_user_id a) +:+ " (" +:+ a_role a +:+ ")") docs in
  reply_text ("👮 Admins:" +:+ nl +:+ join nl all_admins) None.

(** *** Blocking *)

Definition unblock_cmd (u : update) : M unit :=
  let! ok := check_spam u in
  if negb ok then ret tt else
  let! sa := is_superadmin (id (effective_user u)) in
  if negb sa then reply_text "❌ Only superadmin can unblock users." None else
  try_except
    (let! user_id := int_arg0 u in
     bson_int user_id >>
     let! bl := is_blocked user_id in
     if bl then
       unblock_user user_id >>
       reply_text ("✅ User " +:+ pretty user_id +:+ " has been unblocked.") None
     else
       reply_text "⚠️ That user is not blocked." None)
    (fun e => reply_text ("Usage: /unblock <user_id>" +:+ nl +:+
                          "Error: " +:+ exn_str lib e) None).

(** [users.count()] is the cursor method of the 3.x driver. *)
Definition list_blocked (u : update) : M unit :=
  let! ok := check_spam u in
  if negb ok then ret tt else
  let! sa := is_superadmin (id (effective_user u)) in
  if negb sa then
    reply_text "❌ Only superadmin can list blocked users." None else
  let! counted := find_all Blocked blocked in
  if (length counted =? 0)%nat then
    reply_text "✅ No users are currently blocked." None
  else
  let! users := find_all Blocked blocked in
  let lines :=
    List.map (fun d => "🚫 " +:+ pretty (b_user_id d) +:+ " | Reason: " +:+
                       b_reason d +:+ " | Blocked at: " +:+
                       strftime_stamp lib (b_blocked_at d)) users in
  reply_text ("🔒 Blocked Users:" +:+ nl +:+ join nl lines) None.

(** *** Broadcasting *)

Definition broadcast (u : update) : M unit :=
  let! ok := check_spam u in
  if negb ok then ret tt else
  let! sa := is_superadmin (id (effective_user u)) in
  if negb sa then
    reply_text "❌ Only superadmin can broadcast messages." None else
  let message := join " " (args u) in
  if String.eqb message "" then
    reply_text "⚠️ Usage: /broadcast <message>" None
  else
  send_message Channel ("📢 " +:+ message) None >>
  reply_text "✅ Message broadcasted to the channel." None.

(** *** Reminder management *)

Definition remind (u : update) : M unit :=
  let! ok := check_spam u in
  if negb ok then ret tt else
  let! op := is_admin_or_superadmin (id (effective_user u)) in
  if negb op then reply_text "❌ You are not an admin." None else
  try_except
    (let! a0 := arg 0 u in
     let! a1 := arg 1 u in
     let dt_str := a0 +:+ " " +:+ a1 in
     let! naive_time :=
       match strptime lib dt_str with
       | Some t => ret t
       | None => raise (ValueError dt_str)
       end in
     let! instant :=
       match ist_to_server lib naive_time with
       | inr t => ret t
       | inl e => raise e
       end in
     let reminder_time := DateTime instant true in
     let server_time := reminder_time in
     let message := join " " (skipn 2 (args u)) in
     if String.eqb message "" then
       reply_text "⚠️ Reminder message cannot be empty." None
     else
     let user_fmt := format_user (effective_user u) in
     let! created_at := datetime_utcnow in
     let! inserted_id := new_ObjectId in
     insert_one Reminders reminders set_reminders
       (ReminderDoc inserted_id (bson_ms (micros server_time)) message
                    (id (effective_user u)) user_fmt
                    (bson_ms (micros created_at))) >>
     let rid := inserted_id in
     schedule_reminder_jobs rid server_time message >>
     let ist_str := strftime_ist lib reminder_time in
     reply_text ("✅ Reminder set (ID: `" +:+ rid +:+ "`)" +:+ nl +:+
                 "⏰ " +:+ ist_str +:+ nl +:+ "📌 " +:+ message +:+ nl +:+
                 "👤 Created by " +:+ user_fmt) (Some "Markdown") >>
     send_message Channel
                ("📌 New reminder!" +:+ nl +:+ "🆔 `" +:+ rid +:+ "`" +:+ nl +:+
                 "⏰ " +:+ ist_str +:+ nl +:+ "📌 " +:+ message +:+ nl +:+
                 "👤 " +:+ user_fmt) (Some "Markdown"))
    (fun e => reply_text ("Usage: /remind YYYY-MM-DD HH:MM message" +:+ nl +:+
                          "Error: " +:+ exn_str lib e) None).

Definition by_time (a b : reminder_doc) : Prop := r_time a <= r_time b.

#[local] Instance by_time_dec : RelDecision by_time :=
  fun a b => Z_le_dec (r_time a) (r_time b).

(** The loop of [list_reminders]: one entry per document, in order; the
    first time that cannot be rendered raises. *)
Fixpoint reminder_lines (docs : list reminder_doc) : exn + list string :=
  match docs with
  | [] => inr []
  | r :: rest =>
      match strftime_stored lib (r_time r) with
      | inl e => inl e
      | inr ist_time_str =>
          match reminder_lines rest with
          | inl e => inl e
          | inr lines =>
              inr (("🆔 `" +:+ r_id r +:+ "`" +:+ nl +:+
                    "⏰ " +:+ ist_time_str +:+ nl +:+
                    "📌 " +:+ r_message r +:+ nl +:+
                    "👤 " +:+ r_creator_name r +:+ nl +:+ "---") :: lines)
          end
      end
  end.

Definition list_reminders (u : update) : M unit :=
  let! ok := check_spam u in
  if negb ok then ret tt else
  let! found := find_all Reminders reminders in
  let docs := merge_sort by_time found in
  match reminder_lines docs with
  | inl e => raise e
  | inr lines =>
      reply_text (py_take lib 3900 (join nl lines))
                 (Some (match lines with
                        | [] => "📭 No reminders set."
                        | _ => "Markdown"
                        end))
  end.

(** *** Delete, approve, reject *)

Definition delete_reminder (u : update) : M unit :=
  let! ok := check_spam u in
  if negb ok then ret tt else
  try_except
    (let! rid := arg 0 u in
     let! o := ObjectId rid in
     let! reminder := find_one Reminders reminders (by_id o) in
     if negb (is_some reminder) then
       reply_text "❌ Reminder not found." None
     else
     let user_id := id (effective_user u) in
     let! sa := is_superadmin user_id in
     if sa then
       delete_one Reminders reminders set_reminders (by_id o) >>
       remove_reminder_jobs rid >>
       reply_text ("✅ Reminder " +:+ rid +:+ " deleted.") None
     else
     let! op := is_admin_or_superadmin user_id in
     if op then
       let! t := time_time in
       update_one_upsert PendingDeletes pending_deletes set_pending_deletes
         (by_rid rid)
         (fun d => PendingDoc (p_rid d) user_id t)
         (PendingDoc rid user_id t) >>
       reply_text "⌛ Deletion request sent to superadmin." None >>
       send_message (Chat SUPERADMIN_ID)
         ("⚠️ Admin " +:+ pretty user_id +:+ " requested deletion of reminder `"
          +:+ rid +:+ "`." +:+ nl +:+ "Use /approve " +:+ rid +:+
          " or /reject " +:+ rid +:+ ".") (Some "Markdown")
     else ret tt)
    (fun e => reply_text ("Usage: /deletereminder <id>" +:+ nl +:+
                          "Error: " +:+ exn_str lib e) None).

Definition approve_delete (u : update) : M unit :=
  let! ok := check_spam u in
  if negb ok then ret tt else
  let! sa := is_superadmin (id (effective_user u)) in
  if negb sa then ret tt else
  let! rid := arg 0 u in
  let! req := find_one PendingDeletes pending_deletes (by_rid rid) in
  match req with
  | None => reply_text "❌ No pending request." None
  | Some req =>
    let! o := ObjectId rid in
    delete_one Reminders reminders set_reminders (by_id o) >>
    remove_reminder_jobs rid >>
    let requester := p_requested_by req in
    delete_one PendingDeletes pending_deletes set_pending_deletes (by_rid rid) >>
    reply_text ("✅ Reminder " +:+ rid +:+ " deleted after approval.") None >>
    send_message (Chat requester)
      ("✅ Your deletion request for " +:+ rid +:+ " was approved.") None
  end.

Definition reject_delete (u : update) : M unit :=
  let! ok := check_spam u in
  if negb ok then ret tt else
  let! sa := is_superadmin (id (effective_user u)) in
  if negb sa then ret tt else
  let! rid := arg 0 u in
  let! req := find_one PendingDeletes pending_deletes (by_rid rid) in
  match req with
  | None => reply_text "❌ No pending request." None
  | Some req =>
    let requester := p_requested_by req in
    delete_one PendingDeletes pending_deletes set_pending_deletes (by_rid rid) >>
    reply_text ("🚫 Deletion of " +:+ rid +:+ " rejected.") None >>
    send_message (Chat requester)
      ("🚫 Your deletion request for " +:+ rid +:+ " was rejected.") None
  end.

(** *** Start of the process *)

(** Lines 46-48: seed the superadmin when no entry has that role. *)
Definition ensure_superadmin : M unit :=
  let! d := find_one Admins admins (by_role "superadmin") in
  if negb (is_some d) then
    insert_one Admins admins set_admins (AdminDoc SUPERADMIN_ID "superadmin")
  else ret tt.

(** [reminders.find({"time": {"$gte": now}})]: the naive [now] is encoded
    as if it were UTC; stored times come back as naive datetimes. *)
Definition reload_reminders : M unit :=
  let! now := datetime_now in
  let! found := find_all Reminders reminders in
  for_each (fun r =>
    schedule_reminder_jobs (r_id r) (DateTime (r_time r) false) (r_message r))
  (List.filter (fun r => bson_ms (micros now) <=? r_time r) found).

(** A new process: empty job store and request history, then the module
    body and [main] up to the first poll. *)
Definition startup : M unit :=
  modify (set_scheduler ∅) >>
  ensure_superadmin >>
  modify (set_user_requests ∅) >>
  add_job "ping_self_job" (IntervalJob 2) >>
  reload_reminders.

(** The handler table of [main]. *)
Inductive command :=
| CmdStart | CmdPing | CmdRemind | CmdListReminders | CmdDeleteReminder
| CmdApprove | CmdReject | CmdAddAdmin | CmdRemoveAdmin | CmdListAdmins
| CmdBroadcast | CmdUnblock | CmdListBlocked.

Definition dispatch (c : command) : update -> M unit :=
  match c with
  | CmdStart => start
  | CmdPing => ping
  | CmdRemind => remind
  | CmdListReminders => list_reminders
  | CmdDeleteReminder => delete_reminder
  | CmdApprove => approve_delete
  | CmdReject => reject_delete
  | CmdAddAdmin => add_admin
  | CmdRemoveAdmin => remove_admin
  | CmdListAdmins => list_admins
  | CmdBroadcast => broadcast
  | CmdUnblock => unblock_cmd
  | CmdListBlocked => list_blocked
  end.
End Handlers.

(** * Vocabulary of the statements *)

(** The job ids handed to [scheduler.add_job], in program order. *)
Definition added_jobs (t : list event) : list string :=
  omap (fun e => match e with EvAddJob j => Some j | _ => None end) t.

(** The texts sent with [reply_text], in program order. *)
Definition replies (t : list event) : list string :=
  omap (fun e => match e with EvReply s _ => Some s | _ => None end) t.

(** The messages sent with [send_message], in program order. *)
Definition sends (t : list event) : list (chat * string) :=
  omap (fun e => match e with EvSend c s _ => Some (c, s) | _ => None end) t.

(** The effect of one ladder entry that is still due: [remove_job] (whose
    failure is swallowed) and [add_job] under the same id. *)
Definition register (reminder_id : string) (reminder_time : datetime)
    (message : string) (w : world) (e : nat * (Z * string)) : world :=
  let job_id := job_id_of reminder_id (fst e) in
  set_scheduler
    (<[job_id := DateJob (dt_sub reminder_time (fst (snd e)))
                         (snd (snd e) +:+ " " +:+ message)]> (scheduler w))
    (set_trace (trace w ++ [EvRemoveJob job_id; EvAddJob job_id]) w).

(** [run_time > now] for a ladder entry, both sides naive. *)
Definition due_later (now t : Z) (e : nat * (Z * string)) : bool :=
  now <? t - fst (snd e).

(** Role and block entries of a caller, as the helpers look them up. *)
Definition has_entry (user_id : Z) (l : list admin_doc) : bool :=
  existsb (by_user user_id) l.
Definition has_superadmin_entry (user_id : Z) (l : list admin_doc) : bool :=
  existsb (by_user_role user_id "superadmin") l.
Definition blocked_entry (user_id : Z) (l : list blocked_doc) : bool :=
  existsb (blocked_by_user user_id) l.

(** [n] calls of the same handler in a row, with their results. *)
Fixpoint repeat_call {A} (n : nat) (m : M A) : M (list A) :=
  match n with
  | O => ret []
  | S n' => let! a := m in let! l := repeat_call n' m in ret (a :: l)
  end.

(** The caller's history after [rate_limit] has pruned it and appended
    [now]. *)
Definition window_history (now : Q) (h : list Q) : list Q :=
  List.filter (in_window now) h ++ [now].

(** The block list after [block_user user_id reason] at time [t]. *)
Definition upsert_block (user_id : Z) (reason : string) (t : Q)
    (l : list blocked_doc) : list blocked_doc :=
  match List.find (blocked_by_user user_id) l with
  | Some _ =>
      update_first (blocked_by_user user_id)
                   (fun d => BlockedDoc (b_user_id d) reason t) l
  | None => l ++ [BlockedDoc user_id reason t]
  end.

(** The two refusals of [check_spam]. *)
Definition blocked_text : string :=
  "⛔ You are blocked. Contact the superadmin to be unblocked.".
Definition spam_text : string :=
  "⛔ You have been blocked for spamming. Contact the superadmin.".

(** Partial-correctness triples for handlers: from a world in [P], a run
    that returns [a] ends in a world in [Q a]; a run that raises or is cut
    short ends in a world in [I]. *)
Definition hoare {A} (P : world -> Prop) (m : M A) (Q : A -> world -> Prop)
    (I : world -> Prop) : Prop :=
  forall w, P w ->
    match m w with
    | (Ok a, w') => Q a w'
    | (Raise _, w') => I w'
    | (Halted, w') => I w'
    end.

(** [I] holds at every exit of [m] when it holds at its start. *)
Definition preserves {A} (I : world -> Prop) (m : M A) : Prop :=
  hoare I m (fun _ => I) I.

(** Invariants that no outside call and no clock reading disturbs. *)
Record stable (I : world -> Prop) : Prop := Stable {
  stable_io : forall w e h,
    I w -> I (set_halt_after h (set_trace (trace w ++ [e]) w));
  stable_reads : forall w n, I w -> I (set_reads n w) }.

(** The superadmin entries of the role collection. *)
Definition superadmins (w : world) : list admin_doc :=
  List.filter (by_role "superadmin") (admins w).

(** The worlds the bot can be in: a process started on a store with at most
    one superadmin entry has come up, and then any commands have run, from
    any caller, with any arguments, each possibly cut short ([h]).  A restart
    is a start on the store the bot left behind. *)
Inductive reachable (SUPERADMIN_ID : Z) (lib : pylib) : world -> Prop :=
| reach_start w h :
    (length (superadmins w) <= 1)%nat ->
    fst (startup SUPERADMIN_ID (set_halt_after h w)) = Ok tt ->
    reachable SUPERADMIN_ID lib (snd (startup SUPERADMIN_ID (set_halt_after h w)))
| reach_command w c u h :
    reachable SUPERADMIN_ID lib w ->
    reachable SUPERADMIN_ID lib
      (snd (dispatch SUPERADMIN_ID lib c u (set_halt_after h w))).

(** The world after [remove_reminder_jobs reminder_id] has run through: the
    job list was read and every job whose id starts with the reminder id and
    an underscore was removed, in the order of the list. *)
Definition unschedule (w : world) (job_id : string) : world :=
  set_scheduler (delete job_id (scheduler w))
                (set_trace (trace w ++ [EvRemoveJob job_id]) w).

Definition jobs_of (reminder_id : string) (js : gmap string job) : list string :=
  List.filter (String.prefix (reminder_id +:+ "_")) (List.map fst (map_to_list js)).

Definition cancelled (reminder_id : string) (w : world) : world :=
  fold_left unschedule (jobs_of reminder_id (scheduler w))
            (set_trace (trace w ++ [EvGetJobs]) w).

(** At most one pending request per reminder id. *)
Definition one_request_per_reminder (w : world) : Prop :=
  NoDup (List.map p_rid (pending_deletes w)).

(** A run that returned and left the role, reminder and request collections,
    the job store and the transport as they were in [w]. *)
Definition leaves_stores (w : world) (r : outcome unit * world) : Prop :=
  fst r = Ok tt
  /\ admins (snd r) = admins w
  /\ reminders (snd r) = reminders w
  /\ pending_deletes (snd r) = pending_deletes w
  /\ scheduler (snd r) = scheduler w
  /\ added_jobs (trace (snd r)) = added_jobs (trace w)
  /\ sends (trace (snd r)) = sends (trace w).

(** The state of a deletion that may have been cut short: either no job has
    been touched yet, or the record with the id given as first argument has
    already been deleted from the reminder collection. *)
Definition record_first (u : update) (w w' : world) : Prop :=
  scheduler w' = scheduler w
  \/ exists rid o,
       nth_error (args u) 0 = Some rid
       /\ oid_of_string rid = Some o
       /\ reminders w' = delete_first (by_id o) (reminders w).

(** Nothing has happened to jobs or records since [w0]. *)
Definition untouched (w0 w : world) : Prop :=
  scheduler w = scheduler w0 /\ reminders w = reminders w0.

(** The record with id [o] is gone from the reminder collection of [w0]. *)
Definition record_deleted (w0 : world) (o : oid) (w : world) : Prop :=
  reminders w = delete_first (by_id o) (reminders w0).

(** The refusal of a command that only the superadmin may use. *)
Definition superadmin_only (c : command) : option string :=
  match c with
  | CmdAddAdmin => Some "❌ Only superadmin can add admins."
  | CmdRemoveAdmin => Some "❌ Only superadmin can remove admins."
  | CmdListAdmins => Some "❌ Only superadmin can list admins."
  | CmdUnblock => Some "❌ Only superadmin can unblock users."
  | CmdListBlocked => Some "❌ Only superadmin can list blocked users."
  | CmdBroadcast => Some "❌ Only superadmin can broadcast messages."
  | _ => None
  end.

(** The commands that only read and talk. *)
Definition read_only (c : command) : bool :=
  match c with
  | CmdStart | CmdPing | CmdListReminders | CmdListAdmins | CmdListBlocked
  | CmdBroadcast => true
  | _ => false
  end.

(** The calls of the guard for a blocked caller. *)
Definition blocked_calls : list event :=
  [EvFind Admins; EvFind Blocked; EvReply blocked_text None].

(** What [int(context.args[0])] followed by the first query with the number
    yields: the number, or the exception that sends the handler to its
    [except] branch. *)
Definition parsed_int_arg (lib : pylib) (u : update) : exn + Z :=
  match args u with
  | [] => inl IndexError
  | s :: _ =>
      match py_int lib s with
      | None => inl (ValueError s)
      | Some n =>
          if (- 2 ^ 63 <=? n) && (n <? 2 ^ 63) then inr n else inl OverflowError
      end
  end.

(** The usage line of the three commands that take a user id. *)
Definition int_usage (c : command) : option string :=
  match c with
  | CmdAddAdmin => Some "Usage: /addadmin <user_id>"
  | CmdRemoveAdmin => Some "Usage: /removeadmin <user_id>"
  | CmdUnblock => Some "Usage: /unblock <user_id>"
  | _ => None
  end.

(** No two documents of the keyed collections share their key. *)
Definition keys_unique (w : world) : Prop :=
  NoDup (List.map a_user_id (admins w))
  /\ NoDup (List.map b_user_id (blocked w))
  /\ NoDup (List.map p_rid (pending_deletes w)).

(** The request collection after an upsert for [rid] by [user_id] at [t]. *)
Definition upsert_request (rid : string) (user_id : Z) (t : Q)
    (l : list pending_doc) : list pending_doc :=
  match List.find (by_rid rid) l with
  | Some _ => update_first (by_rid rid) (fun d => PendingDoc (p_rid d) user_id t) l
  | None => l ++ [PendingDoc rid user_id t]
  end.

(** The text that tells the superadmin about a deletion request. *)
Definition request_notice (user_id : Z) (rid : string) : string :=
  "⚠️ Admin " +:+ pretty user_id +:+ " requested deletion of reminder `"
  +:+ rid +:+ "`." +:+ nl +:+ "Use /approve " +:+ rid +:+
  " or /reject " +:+ rid +:+ ".".

(** The usage line of remind with the text of the error. *)
Definition remind_usage (lib : pylib) (e : exn) : string :=
  "Usage: /remind YYYY-MM-DD HH:MM message" +:+ nl +:+ "Error: " +:+ exn_str lib e.

(** The world after the timers of one stored reminder were scheduled. *)
Definition rescheduled (w : world) (r : reminder_doc) : world :=
  snd (schedule_reminder_jobs (r_id r) (DateTime (r_time r) false) (r_message r) w).

(** The stored reminders that [reload_reminders] finds: those whose time is
    not before the current time, cut to milliseconds. *)
Definition reloaded (w : world) : list reminder_doc :=
  List.filter (fun r => bson_ms (o_now (clock w) (reads w)) <=? r_time r)
              (reminders w).

(** The timer [i] of the ladder for a reminder at [t] with text [msg]. *)
Definition ladder_job (t : Z) (msg : string) (e : Z * string) : job :=
  DateJob (DateTime (t - fst e) false) (snd e +:+ " " +:+ msg).

(** [k] is no timer id of the reminder id [rid]. *)
Definition foreign (rid k : string) : Prop := String.prefix (rid +:+ "_") k = false.

(** One entry of the reply of list_reminders, for a reminder whose time
    was rendered as [stamp]. *)
Definition reminder_line (stamp : string) (r : reminder_doc) : string :=
  "🆔 `" +:+ r_id r +:+ "`" +:+ nl +:+
  "⏰ " +:+ stamp +:+ nl +:+
  "📌 " +:+ r_message r +:+ nl +:+
  "👤 " +:+ r_creator_name r +:+ nl +:+ "---".

(** The texts posted to the channel, in program order. *)
Definition channel_posts (t : list event) : list string :=
  omap (fun e => match e with EvSend Channel s _ => Some s | _ => None end) t.

(** Outside calls other than a post to the channel. *)
Definition quiet (e : event) : bool :=
  match e with EvSend Channel _ _ => false | _ => true end.

(** ** Sample data *)

Definition sample_clock : oracle :=
  Oracle (fun n => inject_Z (Z.of_nat n)) (fun _ => 1000) (fun _ => 0)
         (fun _ => "65a1b2c3d4e5f60718293a4c").

Definition sample_rid : string := "65a1b2c3d4e5f60718293a4b".

Definition empty_world : world :=
  World [] [] [] [] ∅ ∅ [] sample_clock 0 None.

(** A store with the superadmin 500, the admin 501 (who also sits in the block
    list and has a long request history), one reminder with its five timers
    and a pending deletion request for it. *)
Definition busy_world : world :=
  World [AdminDoc 500 "superadmin"; AdminDoc 501 "admin"]
        [ReminderDoc sample_rid 9000000000 "Infosys drive" 501 "@priya" 0]
        [BlockedDoc 501 "Spam detected" 0; BlockedDoc 777 "Spam detected" 1]
        [PendingDoc sample_rid 501 2]
        (list_to_map
           [(job_id_of sample_rid 0, DateJob (DateTime 1800000000 false) "⏰ Reminder in 2 hours: Infosys drive");
            (job_id_of sample_rid 1, DateJob (DateTime 5400000000 false) "⏰ Reminder in 1 hour: Infosys drive");
            (job_id_of sample_rid 2, DateJob (DateTime 7200000000 false) "⏰ Reminder in 30 minutes: Infosys drive");
            (job_id_of sample_rid 3, DateJob (DateTime 8100000000 false) "⏰ Reminder in 15 minutes: Infosys drive");
            (job_id_of sample_rid 4, DateJob (DateTime 9000000000 false) "🔔 It's time! Infosys drive");
            ("ping_self_job", IntervalJob 2)])
        (<[501 := [0; 0; 0; 0; 0; 0; 0; 0]%Q]> ∅)
        [] sample_clock 0 None.

(** The guest 900 has sent five requests in the last few seconds. *)
Definition flooded_world : world :=
  World [AdminDoc 500 "superadmin"] [] [] [] ∅
        (<[900 := [0; 0; 0; 0; 0]%Q]> ∅) [] sample_clock 0 None.

(** Library functions for the examples: decimal [int], a fixed parse of the
    date, and placeholders for the renderings. *)
Fixpoint digits_value (s : string) (acc : Z) : option Z :=
  match s with
  | EmptyString => Some acc
  | String c s' =>
      let n := Z.of_nat (nat_of_ascii c) in
      if (48 <=? n) && (n <=? 57) then digits_value s' (10 * acc + (n - 48))
      else None
  end.

Definition sample_lib : pylib :=
  PyLib (fun s => if String.eqb s "" then None else digits_value s 0)
        (fun s => if String.eqb s "2025-01-10 14:00" then Some 9000000000 else None)
        (fun t => inr (t - IST_OFFSET))
        (fun _ => "2025-01-10 14:00 IST")
        (fun _ => inr "2025-01-10 14:00 IST")
        (fun _ => "2025-01-01 00:00:00")
        (fun _ => "error")
        (fun _ s => s).

(** A fresh deployment comes up, the superadmin 500 makes 501 an admin and
    then tries to remove itself. *)
Definition started_world : world :=
  snd (startup 500 (set_halt_after None empty_world)).
Definition staffed_world : world :=
  snd (dispatch 500 sample_lib CmdAddAdmin (Update (User 500 None) ["501"])
         (set_halt_after None started_world)).
Definition after_self_removal : world :=
  snd (dispatch 500 sample_lib CmdRemoveAdmin (Update (User 500 None) ["500"])
         (set_halt_after None staffed_world)).

(** The guest 900 was blocked a moment ago after six requests. *)
Definition blocked_guest_world : world :=
  World [AdminDoc 500 "superadmin"] [] [BlockedDoc 900 "Spam detected" 0] [] ∅
        (<[900 := [0; 0; 0; 0; 0; 0]%Q]> ∅) [] sample_clock 0 None.

(** * Properties *)

(** ** Running the monad *)

Lemma bind_ok {A B} (m : M A) (k : A -> M B) w a w' :
  m w = (Ok a, w') -> bind m k w = k a w'.
Proof. intros H. unfold bind. rewrite H. reflexivity. Qed.

Lemma bind_raise {A B} (m : M A) (k : A -> M B) w e w' :
  m w = (Raise e, w') -> bind m k w = (Raise e, w').
Proof. intros H. unfold bind. rewrite H. reflexivity. Qed.

Lemma bind_halted {A B} (m : M A) (k : A -> M B) w w' :
  m w = (Halted, w') -> bind m k w = (Halted, w').
Proof. intros H. unfold bind. rewrite H. reflexivity. Qed.

Lemma io_run e w :
  halt_after w = None -> io e w = (Ok tt, set_trace (trace w ++ [e]) w).
Proof. intros H. unfold io. rewrite H. reflexivity. Qed.

(** ** The lead-time ladder *)

Lemma replace_job_run job_id j w :
  halt_after w = None ->
  (try_except (remove_job job_id) (fun _ => ret tt) >> add_job job_id j) w
  = (Ok tt, set_scheduler (<[job_id := j]> (scheduler w))
              (set_trace (trace w ++ [EvRemoveJob job_id; EvAddJob job_id]) w)).
Proof.
  intros H. destruct w as [ad rm bl pd js ur tr ck rd ha]. cbn in H. subst ha.
  unfold bind, try_except, remove_job, add_job, bind, io, gets, modify, raise, ret.
  cbn. destruct (js !! job_id) eqn:E; cbn.
  - rewrite lookup_delete_eq. cbn. rewrite insert_delete_eq, <- app_assoc.
    reflexivity.
  - rewrite E. cbn. rewrite <- app_assoc. reflexivity.
Qed.

Lemma register_halt rid d msg w e :
  halt_after (register rid d msg w e) = halt_after w.
Proof. reflexivity. Qed.

(** With a naive reminder time the loop registers, in ladder order, exactly
    the entries whose run time is later than [now]. *)
Lemma schedule_reminder_jobs_run rid t msg w :
  halt_after w = None ->
  schedule_reminder_jobs rid (DateTime t false) msg w
  = (Ok tt,
     fold_left (register rid (DateTime t false) msg)
       (List.filter (due_later (o_now (clock w) (reads w)) t)
                    (enumerate _get_intervals))
       (set_reads (S (reads w)) w)).
Proof.
  intros H. unfold schedule_reminder_jobs.
  rewrite (bind_ok _ _ w (DateTime (o_now (clock w) (reads w)) false)
             (set_reads (S (reads w)) w)) by reflexivity.
  assert (Hw : halt_after (set_reads (S (reads w)) w) = None) by exact H.
  generalize dependent (set_reads (S (reads w)) w).
  generalize (o_now (clock w) (reads w)) as now.
  generalize (enumerate _get_intervals) as l.
  induction l as [|[i [offset prefix]] l IH]; intros now w1 Hw1.
  - reflexivity.
  - cbn [for_each List.filter]. unfold due_later at 1. cbn [fst snd].
    unfold bind at 1. unfold bind at 1. unfold dt_gt, dt_sub. cbn [tz_aware micros Bool.eqb].
    unfold ret at 1.
    destruct (now <? t - offset) eqn:E.
    + fold (@bind unit unit). rewrite replace_job_run by exact Hw1.
      cbn [fold_left]. apply IH. exact Hw1.
    + unfold ret at 1. apply IH. exact Hw1.
Qed.

Lemma job_id_of_inj rid i j :
  (i < 5)%nat -> (j < 5)%nat -> job_id_of rid i = job_id_of rid j -> i = j.
Proof.
  intros Hi Hj H. unfold job_id_of in H.
  apply (inj (String.app rid)) in H.
  do 5 (destruct i as [|i]; [do 5 (destruct j as [|j]; [vm_compute in H; congruence|]); lia|]).
  lia.
Qed.

Lemma job_ids_distinct rid : NoDup (List.map (job_id_of rid) [0; 1; 2; 3; 4]%nat).
Proof.
  cbn [List.map]. repeat constructor;
  rewrite ?elem_of_cons; intros H;
  repeat (destruct H as [H|H]; [apply job_id_of_inj in H; lia|]);
  by apply elem_of_nil in H.
Qed.

(** C1 (amended).  For a reminder time that can be compared with
    [datetime.now()] (a naive datetime): when it lies more than two hours
    ahead, [schedule_reminder_jobs] registers exactly the five ladder timers;
    when it lies more than 15 and at most 30 minutes ahead, exactly the two
    timers of the 15-minute and the zero offset; when it is not in the future,
    no timer, and neither the job store nor the outside world is touched.
    The five job ids are pairwise distinct. *)
Theorem schedule_reminder_jobs_ladder rid t msg w :
  halt_after w = None ->
  let now := o_now (clock w) (reads w) in
  let r := schedule_reminder_jobs rid (DateTime t false) msg w in
  let job off prefix :=
    DateJob (DateTime (t - off) false) (prefix +:+ " " +:+ msg) in
  fst r = Ok tt
  /\ NoDup (List.map (job_id_of rid) [0; 1; 2; 3; 4]%nat)
  /\ (now + hours 2 < t ->
      added_jobs (trace (snd r))
      = added_jobs (trace w) ++ List.map (job_id_of rid) [0; 1; 2; 3; 4]%nat
      /\ scheduler (snd r)
         = <[job_id_of rid 4 := job 0 "🔔 It's time!"]>
           (<[job_id_of rid 3 := job (minutes 15) "⏰ Reminder in 15 minutes:"]>
           (<[job_id_of rid 2 := job (minutes 30) "⏰ Reminder in 30 minutes:"]>
           (<[job_id_of rid 1 := job (hours 1) "⏰ Reminder in 1 hour:"]>
           (<[job_id_of rid 0 := job (hours 2) "⏰ Reminder in 2 hours:"]>
              (scheduler w))))))
  /\ (now + minutes 15 < t <= now + minutes 30 ->
      added_jobs (trace (snd r))
      = added_jobs (trace w) ++ List.map (job_id_of rid) [3; 4]%nat
      /\ scheduler (snd r)
         = <[job_id_of rid 4 := job 0 "🔔 It's time!"]>
           (<[job_id_of rid 3 := job (minutes 15) "⏰ Reminder in 15 minutes:"]>
              (scheduler w)))
  /\ (t <= now ->
      scheduler (snd r) = scheduler w /\ trace (snd r) = trace w).
Proof.
  intros H now r job. subst r. rewrite schedule_reminder_jobs_run by exact H.
  fold now. split; [reflexivity|]. split; [apply job_ids_distinct|].
  unfold enumerate, _get_intervals, due_later. cbn [length seq combine List.filter fst snd].
  unfold hours, minutes in *.
  assert (Hadd : forall w0 l, added_jobs (trace w0 ++ l)
                               = added_jobs (trace w0) ++ added_jobs l)
    by (intros; apply omap_app).
  split; [|split].
  - intros Hlt.
    rewrite !(proj2 (Z.ltb_lt _ _)) by lia. cbn [fold_left].
    unfold register. cbn [trace scheduler set_scheduler set_trace set_reads fst snd].
    split; [|reflexivity].
    rewrite <- !app_assoc, Hadd. reflexivity.
  - intros [Hlo Hhi].
    rewrite !(proj2 (Z.ltb_ge _ _)) by lia.
    rewrite !(proj2 (Z.ltb_lt _ _)) by lia. cbn [fold_left].
    unfold register. cbn [trace scheduler set_scheduler set_trace set_reads fst snd].
    split; [|reflexivity].
    rewrite <- !app_assoc, Hadd. reflexivity.
  - intros Hle. rewrite !(proj2 (Z.ltb_ge _ _)) by lia. split; reflexivity.
Qed.

Lemma schedule_reminder_jobs_ladder_witness :
  halt_after empty_world = None
  /\ (let r := schedule_reminder_jobs sample_rid (DateTime (1000 + hours 3) false)
                 "Infosys drive" empty_world in
      added_jobs (trace (snd r)) = List.map (job_id_of sample_rid) [0; 1; 2; 3; 4]%nat)
  /\ (let r := schedule_reminder_jobs sample_rid (DateTime (1000 + minutes 20) false)
                 "Infosys drive" empty_world in
      added_jobs (trace (snd r)) = List.map (job_id_of sample_rid) [3; 4]%nat)
  /\ (let r := schedule_reminder_jobs sample_rid (DateTime 1000 false)
                 "Infosys drive" empty_world in
      scheduler (snd r) = ∅ /\ trace (snd r) = []).
Proof.
  split; [reflexivity|].
  split; [|split].
  - destruct (schedule_reminder_jobs_ladder sample_rid (1000 + hours 3)
                "Infosys drive" empty_world eq_refl) as (_ & _ & H & _ & _).
    apply H. vm_compute. reflexivity.
  - destruct (schedule_reminder_jobs_ladder sample_rid (1000 + minutes 20)
                "Infosys drive" empty_world eq_refl) as (_ & _ & _ & H & _).
    apply H. vm_compute. split; [reflexivity|discriminate].
  - destruct (schedule_reminder_jobs_ladder sample_rid 1000
                "Infosys drive" empty_world eq_refl) as (_ & _ & _ & _ & H).
    apply H. vm_compute. discriminate.
Defined.

(** C1, as stated, fails on the boundary: a reminder exactly two hours ahead
    gets four timers, the two-hour one being due at [now] and so not later
    than [now].  It also fails for an aware reminder time, which the
    comparison with the naive [datetime.now()] rejects before any timer is
    registered. *)
Lemma schedule_two_hours_ahead_registers_four :
  let now := o_now (clock empty_world) (reads empty_world) in
  let r := schedule_reminder_jobs sample_rid (DateTime (now + hours 2) false)
             "Infosys drive" empty_world in
  let r' := schedule_reminder_jobs sample_rid (DateTime (now + hours 3) true)
              "Infosys drive" empty_world in
  now + hours 2 <= now + hours 2
  /\ fst r = Ok tt
  /\ added_jobs (trace (snd r)) = List.map (job_id_of sample_rid) [1; 2; 3; 4]%nat
  /\ size (scheduler (snd r)) = 4%nat
  /\ fst r' = Raise TypeError
  /\ added_jobs (trace (snd r')) = []
  /\ size (scheduler (snd r')) = 0%nat.
Proof. vm_compute. repeat split; discriminate. Qed.

(** ** The abuse guard *)

Lemma find_existsb {D} (f : D -> bool) (l : list D) :
  is_some (List.find f l) = existsb f l.
Proof. induction l as [|d l IH]; cbn; [reflexivity|]. destruct (f d); auto. Qed.

Lemma find_one_run {D} c (get : world -> list D) f w :
  halt_after w = None ->
  find_one c get f w
  = (Ok (List.find f (get (set_trace (trace w ++ [EvFind c]) w))),
     set_trace (trace w ++ [EvFind c]) w).
Proof.
  intros H. unfold find_one. rewrite (bind_ok _ _ _ _ _ (io_run _ _ H)).
  reflexivity.
Qed.

Lemma is_admin_or_superadmin_run user_id w :
  halt_after w = None ->
  is_admin_or_superadmin user_id w
  = (Ok (has_entry user_id (admins w)), set_trace (trace w ++ [EvFind Admins]) w).
Proof.
  intros H. unfold is_admin_or_superadmin.
  rewrite (bind_ok _ _ _ _ _ (find_one_run _ _ _ _ H)).
  unfold ret, has_entry. rewrite find_existsb. reflexivity.
Qed.

Lemma is_superadmin_run user_id w :
  halt_after w = None ->
  is_superadmin user_id w
  = (Ok (has_superadmin_entry user_id (admins w)),
     set_trace (trace w ++ [EvFind Admins]) w).
Proof.
  intros H. unfold is_superadmin.
  rewrite (bind_ok _ _ _ _ _ (find_one_run _ _ _ _ H)).
  unfold ret, has_superadmin_entry. rewrite find_existsb. reflexivity.
Qed.

Lemma is_blocked_run user_id w :
  halt_after w = None ->
  is_blocked user_id w
  = (Ok (blocked_entry user_id (blocked w)),
     set_trace (trace w ++ [EvFind Blocked]) w).
Proof.
  intros H. unfold is_blocked.
  rewrite (bind_ok _ _ _ _ _ (find_one_run _ _ _ _ H)).
  unfold ret, blocked_entry. rewrite find_existsb. reflexivity.
Qed.

(** An operator passes the guard after the role lookup alone. *)
Lemma check_spam_operator u w :
  halt_after w = None ->
  has_entry (id (effective_user u)) (admins w) = true ->
  check_spam u w = (Ok true, set_trace (trace w ++ [EvFind Admins]) w).
Proof.
  intros H Hop. unfold check_spam.
  rewrite (bind_ok _ _ _ _ _ (is_admin_or_superadmin_run _ _ H)).
  rewrite Hop. reflexivity.
Qed.

(** C3.  A caller with a role entry is always let through by [check_spam],
    however many requests it issues in a row: each call returns [True] after
    the role lookup alone, so the block list is never read (the only store
    access is to the role collection) and neither the request history nor the
    block list changes.  Nothing is assumed about the caller's history or
    about the block list, which may even hold an entry for the caller. *)
Theorem check_spam_never_blocks_operator u w n :
  halt_after w = None ->
  has_entry (id (effective_user u)) (admins w) = true ->
  let r := repeat_call n (check_spam u) w in
  fst r = Ok (List.repeat true n)
  /\ trace (snd r) = trace w ++ List.repeat (EvFind Admins) n
  /\ replies (trace (snd r)) = replies (trace w)
  /\ user_requests (snd r) = user_requests w
  /\ blocked (snd r) = blocked w
  /\ admins (snd r) = admins w.
Proof.
  revert w. induction n as [|n IH]; intros w H Hop r; subst r.
  - cbn. rewrite app_nil_r. repeat split; reflexivity.
  - cbn [repeat_call].
    rewrite (bind_ok _ _ _ _ _ (check_spam_operator _ _ H Hop)).
    specialize (IH (set_trace (trace w ++ [EvFind Admins]) w) H Hop).
    cbn zeta in IH. destruct IH as (Hr & Ht & Hrep & Hur & Hbl & Had).
    destruct (repeat_call n (check_spam u) _) as [o w'] eqn:E.
    cbn [fst snd] in *. subst o. rewrite !(bind_ok _ _ _ _ _ E).
    unfold ret. cbn [fst snd].
    rewrite Hrep, Ht, Hur, Hbl, Had. cbn [trace set_trace List.repeat].
    rewrite <- app_assoc. repeat split; try reflexivity.
    unfold replies. rewrite omap_app. cbn. apply app_nil_r.
Qed.

Lemma check_spam_never_blocks_operator_witness :
  halt_after busy_world = None
  /\ has_entry 501 (admins busy_world) = true
  /\ fst (repeat_call 100 (check_spam (Update (User 501 None) [])) busy_world)
     = Ok (List.repeat true 100).
Proof.
  split; [reflexivity|]. split; [reflexivity|].
  apply (check_spam_never_blocks_operator (Update (User 501 None) []) busy_world 100);
    reflexivity.
Defined.

Lemma time_time_run w :
  time_time w = (Ok (o_time (clock w) (reads w)), set_reads (S (reads w)) w).
Proof. reflexivity. Qed.

Lemma modify_run f w : modify f w = (Ok tt, f w).
Proof. reflexivity. Qed.

Lemma gets_run {A} (f : world -> A) w : gets f w = (Ok (f w), w).
Proof. reflexivity. Qed.

Lemma ret_run {A} (a : A) w : ret a w = (Ok a, w).
Proof. reflexivity. Qed.

(** One step of a run without interruption. *)
Ltac step :=
  first
    [ rewrite (bind_ok _ _ _ _ _ (time_time_run _))
    | rewrite (bind_ok _ _ _ _ _ (modify_run _ _))
    | rewrite (bind_ok _ _ _ _ _ (gets_run _ _))
    | rewrite (bind_ok _ _ _ _ _ (ret_run _ _))
    | rewrite (bind_ok _ _ _ _ _ (io_run _ _ ltac:(eassumption))) ].

Ltac fields :=
  cbn [admins reminders blocked pending_deletes scheduler user_requests trace
       clock reads halt_after set_admins set_reminders set_blocked
       set_pending_deletes set_scheduler set_user_requests set_trace set_reads
       set_halt_after fst snd] in *.

Lemma block_user_run user_id reason w :
  halt_after w = None ->
  block_user user_id reason w
  = (Ok tt,
     set_blocked (upsert_block user_id reason (o_time (clock w) (reads w))
                               (blocked w))
       (set_trace (trace w ++ [EvUpdate Blocked]) (set_reads (S (reads w)) w))).
Proof.
  intros H. unfold block_user, update_one_upsert. step.
  assert (H1 : halt_after (set_reads (S (reads w)) w) = None) by exact H.
  step. rewrite modify_run. fields. unfold upsert_block.
  destruct (List.find _ (blocked w)); reflexivity.
Qed.

Lemma requests_of_insert user_id l (m : gmap Z (list Q)) :
  requests_of user_id (<[user_id := l]> m) = l.
Proof. unfold requests_of. rewrite lookup_insert_eq. reflexivity. Qed.

Lemma rate_limit_run user_id w :
  halt_after w = None ->
  let now := o_time (clock w) (reads w) in
  let h := window_history now (requests_of user_id (user_requests w)) in
  let w1 := set_reads (S (reads w))
              (set_user_requests (<[user_id := h]> (user_requests w)) w) in
  rate_limit user_id w
  = (Ok (negb (REQUEST_LIMIT <? length h)%nat),
     if (REQUEST_LIMIT <? length h)%nat then
       set_blocked (upsert_block user_id default_reason
                      (o_time (clock w) (S (reads w))) (blocked w))
         (set_trace (trace w ++ [EvUpdate Blocked])
            (set_reads (S (S (reads w))) w1))
     else w1).
Proof.
  intros H now h w1. unfold rate_limit. do 4 step. fields.
  rewrite !requests_of_insert, insert_insert_eq.
  fold now. fold (window_history now (requests_of user_id (user_requests w))).
  fold h.
  destruct (REQUEST_LIMIT <? length h)%nat; [|reflexivity].
  erewrite bind_ok by (apply block_user_run; exact H). reflexivity.
Qed.

(** A blocked caller without a role entry is refused after the two lookups;
    the request history is not consulted. *)
Lemma check_spam_blocked u w :
  halt_after w = None ->
  has_entry (id (effective_user u)) (admins w) = false ->
  blocked_entry (id (effective_user u)) (blocked w) = true ->
  check_spam u w
  = (Ok false,
     set_trace (trace w ++ [EvFind Admins; EvFind Blocked; EvReply blocked_text None]) w).
Proof.
  intros H Hop Hbl. unfold check_spam.
  rewrite (bind_ok _ _ _ _ _ (is_admin_or_superadmin_run _ _ H)), Hop.
  erewrite bind_ok by (apply is_blocked_run; exact H). fields. rewrite Hbl.
  unfold reply_text. erewrite bind_ok by (apply io_run; exact H).
  unfold ret. fields. rewrite <- !app_assoc. reflexivity.
Qed.

(** A caller without role or block entry goes through [rate_limit]. *)
Lemma check_spam_guest u w :
  halt_after w = None ->
  has_entry (id (effective_user u)) (admins w) = false ->
  blocked_entry (id (effective_user u)) (blocked w) = false ->
  let user_id := id (effective_user u) in
  let h := window_history (o_time (clock w) (reads w))
             (requests_of user_id (user_requests w)) in
  let ur := <[user_id := h]> (user_requests w) in
  check_spam u w
  = (Ok (negb (REQUEST_LIMIT <? length h)%nat),
     if (REQUEST_LIMIT <? length h)%nat then
       set_blocked (upsert_block user_id default_reason
                      (o_time (clock w) (S (reads w))) (blocked w))
         (set_trace (trace w ++ [EvFind Admins; EvFind Blocked; EvUpdate Blocked;
                                 EvReply spam_text None])
            (set_reads (S (S (reads w))) (set_user_requests ur w)))
     else
       set_trace (trace w ++ [EvFind Admins; EvFind Blocked])
         (set_reads (S (reads w)) (set_user_requests ur w))).
Proof.
  intros H Hop Hbl user_id h ur. subst ur h user_id. unfold check_spam.
  rewrite (bind_ok _ _ _ _ _ (is_admin_or_superadmin_run _ _ H)), Hop.
  erewrite bind_ok by (apply is_blocked_run; exact H). fields. rewrite Hbl.
  erewrite bind_ok by (apply rate_limit_run; exact H). fields.
  destruct (REQUEST_LIMIT <? length _)%nat; cbn [negb].
  - unfold reply_text. erewrite bind_ok by (apply io_run; exact H).
    unfold ret. fields. rewrite <- !app_assoc. reflexivity.
  - unfold ret. fields. rewrite <- !app_assoc. reflexivity.
Qed.

Lemma in_window_spec now t :
  in_window now t = true <-> (now - t < TIME_WINDOW)%Q.
Proof.
  unfold in_window. rewrite negb_true_iff. split.
  - intros H. apply Qnot_le_lt. intros Hle. apply Qle_bool_iff in Hle. congruence.
  - intros H. destruct (Qle_bool TIME_WINDOW (now - t)) eqn:E; [|reflexivity].
    apply Qle_bool_iff in E. exfalso. exact (Qlt_not_le _ _ H E).
Qed.

Lemma find_none_existsb {D} (f : D -> bool) (l : list D) :
  existsb f l = false -> List.find f l = None.
Proof.
  intros H. rewrite <- find_existsb in H. destruct (List.find f l); [discriminate|reflexivity].
Qed.

Lemma upsert_block_fresh user_id reason t l :
  blocked_entry user_id l = false ->
  upsert_block user_id reason t l = l ++ [BlockedDoc user_id reason t].
Proof.
  intros H. unfold upsert_block. rewrite (find_none_existsb _ _ H). reflexivity.
Qed.

Lemma blocked_entry_app user_id l d :
  b_user_id d = user_id -> blocked_entry user_id (l ++ [d]) = true.
Proof.
  intros H. unfold blocked_entry. rewrite existsb_app. cbn.
  unfold blocked_by_user. rewrite H, Z.eqb_refl. apply orb_true_iff. right. reflexivity.
Qed.

Lemma bind_assoc {A B C} (m : M A) (k : A -> M B) (k' : B -> M C) w :
  bind (bind m k) k' w = bind m (fun a => bind (k a) k') w.
Proof. unfold bind. destruct (m w) as [[a|e|] w']; reflexivity. Qed.

(** Six requests of a guest whose clock readings all fall within one window:
    five are let through, the sixth is refused and leaves a block entry. *)
Lemma six_requests_blocked u w :
  halt_after w = None ->
  has_entry (id (effective_user u)) (admins w) = false ->
  blocked_entry (id (effective_user u)) (blocked w) = false ->
  List.filter (in_window (o_time (clock w) (reads w)))
              (requests_of (id (effective_user u)) (user_requests w)) = [] ->
  (forall i j, (i < j <= 5)%nat ->
     in_window (o_time (clock w) (j + reads w)) (o_time (clock w) (i + reads w))
     = true) ->
  let r := repeat_call 6 (check_spam u) w in
  fst r = Ok [true; true; true; true; true; false]
  /\ blocked (snd r)
     = blocked w ++ [BlockedDoc (id (effective_user u)) "Spam detected"
                                (o_time (clock w) (6 + reads w))]
  /\ replies (trace (snd r)) = replies (trace w) ++ [spam_text].
Proof.
  intros H Hop Hbl Hold Hwin r. subst r.
  pose proof (Hwin 0 1 ltac:(lia))%nat as H01.
  pose proof (Hwin 0 2 ltac:(lia))%nat as H02.
  pose proof (Hwin 0 3 ltac:(lia))%nat as H03.
  pose proof (Hwin 0 4 ltac:(lia))%nat as H04.
  pose proof (Hwin 0 5 ltac:(lia))%nat as H05.
  pose proof (Hwin 1 2 ltac:(lia))%nat as H12.
  pose proof (Hwin 1 3 ltac:(lia))%nat as H13.
  pose proof (Hwin 1 4 ltac:(lia))%nat as H14.
  pose proof (Hwin 1 5 ltac:(lia))%nat as H15.
  pose proof (Hwin 2 3 ltac:(lia))%nat as H23.
  pose proof (Hwin 2 4 ltac:(lia))%nat as H24.
  pose proof (Hwin 2 5 ltac:(lia))%nat as H25.
  pose proof (Hwin 3 4 ltac:(lia))%nat as H34.
  pose proof (Hwin 3 5 ltac:(lia))%nat as H35.
  pose proof (Hwin 4 5 ltac:(lia))%nat as H45.
  clear Hwin. cbn [Nat.add] in *.
  cbn [repeat_call].
  do 6 (rewrite ?bind_assoc; erewrite bind_ok by (apply check_spam_guest; [exact H|exact Hop|exact Hbl]);
        fields; rewrite ?requests_of_insert; unfold window_history;
        rewrite ?Hold; cbn [List.filter];
        rewrite ?H01, ?H02, ?H03, ?H04, ?H05, ?H12, ?H13, ?H14, ?H15, ?H23, ?H24,
                ?H25, ?H34, ?H35, ?H45;
        cbn [app length Nat.ltb Nat.leb REQUEST_LIMIT negb]).
  cbv [bind ret]. fields.
  fields. rewrite (upsert_block_fresh _ _ _ _ Hbl).
  split; [reflexivity|]. split; [reflexivity|].
  unfold replies. rewrite !omap_app. cbn. rewrite !app_nil_r. reflexivity.
Qed.

(** C4 (amended).  For a caller with neither a role entry nor a block entry,
    [check_spam] keeps of the caller's history exactly the timestamps [t] with
    [now - t < 10], appends [now], and compares the length with 5.  Above 5 it
    writes a block entry for the caller whose reason is the default of
    [block_user], "Spam detected", and refuses the request with the spam
    reply; otherwise it lets the request through and leaves the block list
    alone.  Hence six requests inside one window, starting from no recent
    history, are answered five times with [True] and the sixth time with the
    refusal and the block entry. *)
Theorem rate_limit_guard u w :
  halt_after w = None ->
  has_entry (id (effective_user u)) (admins w) = false ->
  blocked_entry (id (effective_user u)) (blocked w) = false ->
  let user_id := id (effective_user u) in
  let now := o_time (clock w) (reads w) in
  let old := requests_of user_id (user_requests w) in
  let h := List.filter (in_window now) old ++ [now] in
  let r := check_spam u w in
  (forall t, in_window now t = true <-> (now - t < 10)%Q)
  /\ requests_of user_id (user_requests (snd r)) = h
  /\ ((5 < length h)%nat ->
      fst r = Ok false
      /\ blocked (snd r)
         = blocked w ++ [BlockedDoc user_id "Spam detected"
                                    (o_time (clock w) (S (reads w)))]
      /\ blocked_entry user_id (blocked (snd r)) = true
      /\ replies (trace (snd r)) = replies (trace w) ++ [spam_text])
  /\ ((length h <= 5)%nat ->
      fst r = Ok true
      /\ blocked (snd r) = blocked w
      /\ replies (trace (snd r)) = replies (trace w))
  /\ (List.filter (in_window now) old = [] ->
      (forall i j, (i < j <= 5)%nat ->
         in_window (o_time (clock w) (j + reads w)) (o_time (clock w) (i + reads w))
         = true) ->
      let r6 := repeat_call 6 (check_spam u) w in
      fst r6 = Ok [true; true; true; true; true; false]
      /\ blocked (snd r6)
         = blocked w ++ [BlockedDoc user_id "Spam detected"
                                    (o_time (clock w) (6 + reads w))]
      /\ replies (trace (snd r6)) = replies (trace w) ++ [spam_text]).
Proof.
  intros H Hop Hbl user_id now old h r.
  split; [intros t; apply in_window_spec|].
  assert (Hrep : forall l, replies (trace w ++ l) = replies (trace w) ++ replies l)
    by (intros; apply omap_app).
  subst r. rewrite (check_spam_guest u w H Hop Hbl). cbn [fst snd].
  fold user_id now old. unfold window_history. fold h.
  split; [|split; [|split]].
  - destruct (REQUEST_LIMIT <? length h)%nat; fields; apply requests_of_insert.
  - intros Hlen. apply Nat.ltb_lt in Hlen. unfold REQUEST_LIMIT. rewrite Hlen.
    fields. rewrite (upsert_block_fresh _ _ _ _ Hbl). cbn [negb].
    split; [reflexivity|]. split; [reflexivity|].
    split; [apply blocked_entry_app; reflexivity|].
    rewrite Hrep. reflexivity.
  - intros Hlen. apply Nat.ltb_ge in Hlen. unfold REQUEST_LIMIT. rewrite Hlen.
    fields. cbn [negb]. split; [reflexivity|]. split; [reflexivity|].
    rewrite Hrep. cbn. apply app_nil_r.
  - intros Hold Hwin. apply (six_requests_blocked u w H Hop Hbl Hold Hwin).
Qed.

Lemma rate_limit_guard_witness :
  halt_after flooded_world = None
  /\ has_entry 900 (admins flooded_world) = false
  /\ blocked_entry 900 (blocked flooded_world) = false
  /\ (let r := check_spam (Update (User 900 None) []) flooded_world in
      fst r = Ok false
      /\ blocked (snd r) = [BlockedDoc 900 "Spam detected" 1%Q])
  /\ (let r := check_spam (Update (User 900 None) []) busy_world in
      fst r = Ok true /\ blocked (snd r) = blocked busy_world)
  /\ (let r6 := repeat_call 6 (check_spam (Update (User 900 None) [])) busy_world in
      fst r6 = Ok [true; true; true; true; true; false]).
Proof.
  split; [reflexivity|]. split; [reflexivity|]. split; [reflexivity|].
  pose proof (rate_limit_guard (Update (User 900 None) []) flooded_world
                eq_refl eq_refl eq_refl) as Hf.
  pose proof (rate_limit_guard (Update (User 900 None) []) busy_world
                eq_refl eq_refl eq_refl) as Hb.
  cbn zeta in Hf, Hb.
  destruct Hf as (_ & _ & Hf & _).
  destruct Hb as (_ & _ & _ & Hb & Hb6).
  split; [|split].
  - destruct Hf as (Hr & Hbl & _); [vm_compute; lia|]. split; [exact Hr|exact Hbl].
  - destruct Hb as (Hr & Hbl & _); [vm_compute; lia|]. split; [exact Hr|exact Hbl].
  - destruct Hb6 as (Hr & _); [reflexivity| |exact Hr].
    intros i j Hij.
    do 6 (destruct j as [|j];
          [do 6 (destruct i as [|i]; [first [lia|reflexivity]|]); lia|]).
    lia.
Defined.

(** C4, as stated, fails on the reason: the block entry written by the guard
    reads "Spam detected", not "rate limit exceeded". *)
Lemma rate_limit_block_reason_is_spam_detected :
  let r := check_spam (Update (User 900 None) []) flooded_world in
  has_entry 900 (admins flooded_world) = false
  /\ blocked_entry 900 (blocked flooded_world) = false
  /\ fst r = Ok false
  /\ List.map b_reason (blocked (snd r)) = ["Spam detected"]
  /\ List.map b_reason (blocked (snd r)) <> ["rate limit exceeded"].
Proof. vm_compute. repeat split; discriminate. Qed.

(** ** Triples *)

Section Triples.
Context {A B : Type}.
Variables (P : world -> Prop) (I : world -> Prop).

Lemma hoare_ret (a : A) (Q : A -> world -> Prop) :
  (forall w, P w -> Q a w) -> hoare P (ret a) Q I.
Proof. intros H w Hw. cbn. auto. Qed.

Lemma hoare_raise (e : exn) (Q : A -> world -> Prop) :
  (forall w, P w -> I w) -> hoare P (@raise A e) Q I.
Proof. intros H w Hw. cbn. auto. Qed.

Lemma hoare_bind (m : M A) (k : A -> M B) Q1 (Q : B -> world -> Prop) :
  hoare P m Q1 I -> (forall a, hoare (Q1 a) (k a) Q I) -> hoare P (bind m k) Q I.
Proof.
  intros Hm Hk w Hw. specialize (Hm w Hw). unfold bind.
  destruct (m w) as [[a|e|] w']; auto. apply Hk. exact Hm.
Qed.

Lemma hoare_try (m : M A) (h : exn -> M A) (Q : A -> world -> Prop) :
  hoare P m Q I -> (forall e, hoare I (h e) Q I) -> hoare P (try_except m h) Q I.
Proof.
  intros Hm Hh w Hw. specialize (Hm w Hw). unfold try_except.
  destruct (m w) as [[a|e|] w']; auto. apply Hh. exact Hm.
Qed.

Lemma hoare_gets (f : world -> A) (Q : A -> world -> Prop) :
  (forall w, P w -> Q (f w) w) -> hoare P (gets f) Q I.
Proof. intros H w Hw. cbn. auto. Qed.

Lemma hoare_conseq (m : M A) (P' : world -> Prop) (Q Q' : A -> world -> Prop)
    (I' : world -> Prop) :
  hoare P' m Q' I' ->
  (forall w, P w -> P' w) -> (forall a w, Q' a w -> Q a w) ->
  (forall w, I' w -> I w) ->
  hoare P m Q I.
Proof.
  intros Hm HP HQ HI w Hw. specialize (Hm w (HP w Hw)).
  destruct (m w) as [[a|e|] w']; auto.
Qed.
End Triples.

Lemma hoare_modify (P I : world -> Prop) (f : world -> world)
    (Q : unit -> world -> Prop) :
  (forall w, P w -> Q tt (f w)) -> hoare P (modify f) Q I.
Proof. intros H w Hw. cbn. auto. Qed.

Lemma hoare_io (P I : world -> Prop) (e : event) (Q : unit -> world -> Prop) :
  (forall w, P w -> I w) ->
  (forall w h, P w -> Q tt (set_halt_after h (set_trace (trace w ++ [e]) w))) ->
  hoare P (io e) Q I.
Proof.
  intros HI HQ w Hw. unfold io. destruct (halt_after w) as [[|n]|] eqn:E.
  - auto.
  - auto.
  - specialize (HQ w None Hw). revert HQ E. clear. destruct w. cbn.
    intros HQ E. rewrite E. exact HQ.
Qed.

Lemma hoare_reads {A} (P I : world -> Prop) (f : world -> A)
    (Q : A -> world -> Prop) :
  (forall w, P w -> Q (f w) (set_reads (S (reads w)) w)) ->
  hoare P (fun w => (Ok (f w), set_reads (S (reads w)) w)) Q I.
Proof. intros H w Hw. auto. Qed.

Lemma preserves_for_each {A} (I : world -> Prop) (f : A -> M unit) l :
  (forall x, preserves I (f x)) -> preserves I (for_each f l).
Proof.
  intros Hf. induction l as [|x l IH].
  - apply hoare_ret. auto.
  - cbn [for_each]. eapply hoare_bind; [apply Hf|]. intros []. exact IH.
Qed.

(** ** Invariants of whole handlers *)

Section Preservation.
Variable I : world -> Prop.
Hypothesis HI : stable I.

Lemma preserves_ret {A} (a : A) : preserves I (ret a).
Proof. apply hoare_ret. auto. Qed.

Lemma preserves_raise {A} (e : exn) : preserves I (@raise A e).
Proof. apply hoare_raise. auto. Qed.

Lemma preserves_bind {A B} (m : M A) (k : A -> M B) :
  preserves I m -> (forall a, preserves I (k a)) -> preserves I (bind m k).
Proof. intros Hm Hk. eapply hoare_bind; [exact Hm|exact Hk]. Qed.

Lemma preserves_try {A} (m : M A) (h : exn -> M A) :
  preserves I m -> (forall e, preserves I (h e)) -> preserves I (try_except m h).
Proof. intros Hm Hh. apply hoare_try; [exact Hm|exact Hh]. Qed.

Lemma preserves_gets {A} (f : world -> A) : preserves I (gets f).
Proof. apply hoare_gets. auto. Qed.

Lemma preserves_modify (f : world -> world) :
  (forall w, I w -> I (f w)) -> preserves I (modify f).
Proof. intros H. apply hoare_modify. exact H. Qed.

Lemma preserves_io (e : event) : preserves I (io e).
Proof. apply hoare_io; [auto|]. intros w h Hw. apply (stable_io I HI). exact Hw. Qed.

Lemma preserves_time_time : preserves I time_time.
Proof. intros w Hw. cbn. apply (stable_reads I HI). exact Hw. Qed.

Lemma preserves_datetime_now : preserves I datetime_now.
Proof. intros w Hw. cbn. apply (stable_reads I HI). exact Hw. Qed.

Lemma preserves_datetime_utcnow : preserves I datetime_utcnow.
Proof. intros w Hw. cbn. apply (stable_reads I HI). exact Hw. Qed.

Lemma preserves_new_ObjectId : preserves I new_ObjectId.
Proof. intros w Hw. cbn. apply (stable_reads I HI). exact Hw. Qed.
End Preservation.

(** Take a handler apart down to its outside calls and state updates; what
    is left are the updates, one goal each. *)
Ltac open_bot :=
  unfold dispatch, start, ping, add_admin, remove_admin, list_admins,
    unblock_cmd, list_blocked, broadcast, remind, list_reminders,
    delete_reminder, approve_delete, reject_delete, ensure_superadmin,
    reload_reminders, startup, check_spam, rate_limit, block_user,
    unblock_user, is_blocked, is_superadmin, is_admin_or_superadmin,
    schedule_reminder_jobs, remove_reminder_jobs, remove_job, add_job,
    get_jobs, find_one, find_all, insert_one, delete_one, update_one_upsert,
    reply_text, send_message, int_arg0, arg, ObjectId, bson_int, dt_gt.

Ltac frame_step HI :=
  lazymatch goal with
  | |- preserves _ (bind _ _) => apply preserves_bind; [|intros ?]
  | |- preserves _ (ret _) => apply preserves_ret
  | |- preserves _ (raise _) => apply preserves_raise
  | |- preserves _ (try_except _ _) => apply preserves_try; [|intros ?]
  | |- preserves _ (gets _) => apply preserves_gets
  | |- preserves _ (io _) => apply (preserves_io _ HI)
  | |- preserves _ time_time => apply (preserves_time_time _ HI)
  | |- preserves _ datetime_now => apply (preserves_datetime_now _ HI)
  | |- preserves _ datetime_utcnow => apply (preserves_datetime_utcnow _ HI)
  | |- preserves _ new_ObjectId => apply (preserves_new_ObjectId _ HI)
  | |- preserves _ (for_each _ _) => apply preserves_for_each; intros ?
  | |- preserves _ (modify _) => apply preserves_modify
  | |- preserves _ (if ?b then _ else _) => destruct b
  | |- preserves _ (match ?x with _ => _ end) => destruct x
  end.

Ltac frame HI := open_bot; repeat frame_step HI.

(** ** Role entries *)

Lemma stable_superadmins L :
  stable (fun w => List.filter (by_role "superadmin") (admins w) = L).
Proof. split; intros; assumption. Qed.

Lemma filter_delete_first {D} (f g : D -> bool) (l : list D) :
  (forall d, f d = true -> g d = false) ->
  List.filter g (delete_first f l) = List.filter g l.
Proof.
  intros H. induction l as [|d l IH]; [reflexivity|]. cbn.
  destruct (f d) eqn:E.
  - rewrite (H d E). reflexivity.
  - cbn. rewrite IH. reflexivity.
Qed.

(** No command changes the superadmin entries, whoever calls it, with
    whatever arguments, and wherever its run is cut short. *)
Lemma dispatch_keeps_superadmins SUPERADMIN_ID lib c u L :
  preserves (fun w => List.filter (by_role "superadmin") (admins w) = L)
            (dispatch SUPERADMIN_ID lib c u).
Proof.
  pose proof (stable_superadmins L) as HI.
  destruct c; frame HI.
  all: try (intros w Hw; fields; try destruct (List.find _ _); exact Hw).
  - intros w Hw. fields. rewrite List.filter_app. cbn. rewrite app_nil_r. exact Hw.
  - intros w Hw. fields. rewrite filter_delete_first; [exact Hw|].
    intros d Hd. unfold by_user_role in Hd. apply andb_true_iff in Hd.
    destruct Hd as [_ Hd]. apply String.eqb_eq in Hd. unfold by_role.
    rewrite Hd. reflexivity.
Qed.

Lemma find_filter_nil {D} (f : D -> bool) (l : list D) :
  List.find f l = None -> List.filter f l = [].
Proof.
  induction l as [|d l IH]; [reflexivity|]. cbn.
  destruct (f d); [discriminate|exact IH].
Qed.

Lemma find_filter_cons {D} (f : D -> bool) (l : list D) d :
  List.find f l = Some d -> (1 <= length (List.filter f l))%nat.
Proof.
  induction l as [|x l IH]; [discriminate|]. cbn.
  destruct (f x); cbn; [lia|exact IH].
Qed.

(** Lines 46-48 leave exactly one superadmin entry on a store that had at
    most one: the seeded one when there was none. *)
Lemma ensure_superadmin_seeds SUPERADMIN_ID :
  hoare (fun w => (length (superadmins w) <= 1)%nat)
        (ensure_superadmin SUPERADMIN_ID)
        (fun _ w => length (superadmins w) = 1%nat)
        (fun _ => True).
Proof.
  unfold ensure_superadmin, find_one, insert_one.
  eapply hoare_bind with
    (Q1 := fun d w => d = List.find (by_role "superadmin") (admins w)
                      /\ (length (superadmins w) <= 1)%nat).
  { eapply hoare_bind with (Q1 := fun _ w => (length (superadmins w) <= 1)%nat).
    - apply hoare_io; [auto|]. intros w h Hw. exact Hw.
    - intros _. apply hoare_gets. auto. }
  intros d. destruct d as [d|]; cbn [is_some negb].
  - apply hoare_ret. intros w [Hd Hw]. symmetry in Hd.
    apply find_filter_cons in Hd. unfold superadmins in *. lia.
  - eapply hoare_bind with
      (Q1 := fun _ w => List.find (by_role "superadmin") (admins w) = None).
    + apply hoare_io; [auto|]. intros w h [Hd _]. fields. auto.
    + intros _. apply hoare_modify. intros w Hd. unfold superadmins. fields.
      rewrite List.filter_app, (find_filter_nil _ _ Hd). reflexivity.
Qed.

Lemma startup_one_superadmin SUPERADMIN_ID :
  hoare (fun w => (length (superadmins w) <= 1)%nat)
        (startup SUPERADMIN_ID)
        (fun _ w => length (superadmins w) = 1%nat)
        (fun _ => True).
Proof.
  unfold startup.
  eapply hoare_bind with (Q1 := fun _ w => (length (superadmins w) <= 1)%nat).
  { apply hoare_modify. intros w Hw. exact Hw. }
  intros _. eapply hoare_bind; [apply ensure_superadmin_seeds|].
  intros _ w Hw.
  assert (Hp : preserves (fun w' => List.filter (by_role "superadmin") (admins w')
                                    = superadmins w)
                 (modify (set_user_requests ∅) >>
                  add_job "ping_self_job" (IntervalJob 2) >> reload_reminders)).
  { pose proof (stable_superadmins (superadmins w)) as HI. frame HI.
    all: intros w' Hw'; fields; exact Hw'. }
  specialize (Hp w eq_refl).
  destruct ((modify (set_user_requests ∅) >> _) w) as [[[]|e|] w']; [|exact I..].
  unfold superadmins at 1. rewrite Hp. exact Hw.
Qed.

(** C7.  In every world the bot can reach there is exactly one superadmin
    entry, and every command leaves the superadmin entries as they are, so
    that no sequence of addadmin and removeadmin (or any other command)
    removes or demotes it: [add_admin] only appends entries with role
    "admin", [remove_admin] only deletes an entry whose role is "admin". *)
Theorem exactly_one_superadmin SUPERADMIN_ID lib w :
  reachable SUPERADMIN_ID lib w ->
  length (superadmins w) = 1%nat
  /\ forall c u h,
       superadmins (snd (dispatch SUPERADMIN_ID lib c u (set_halt_after h w)))
       = superadmins w.
Proof.
  assert (Hkeep : forall w c u h,
            superadmins (snd (dispatch SUPERADMIN_ID lib c u (set_halt_after h w)))
            = superadmins w).
  { intros w0 c u h.
    pose proof (dispatch_keeps_superadmins SUPERADMIN_ID lib c u (superadmins w0)
                  (set_halt_after h w0) eq_refl) as H.
    destruct (dispatch _ _ _ _ _) as [[[]|e|] w']; exact H. }
  intros Hr. split; [|intros; apply Hkeep].
  induction Hr as [w h Hw Hok|w c u h Hr IH].
  - pose proof (startup_one_superadmin SUPERADMIN_ID (set_halt_after h w) Hw) as H.
    destruct (startup _ _) as [[[]|e|] w']; cbn in Hok; try discriminate.
    exact H.
  - rewrite Hkeep. exact IH.
Qed.

Lemma exactly_one_superadmin_witness :
  reachable 500 sample_lib after_self_removal
  /\ admins after_self_removal = [AdminDoc 500 "superadmin"; AdminDoc 501 "admin"]
  /\ length (superadmins after_self_removal) = 1%nat.
Proof.
  assert (Hr : reachable 500 sample_lib after_self_removal).
  { unfold after_self_removal, staffed_world.
    apply reach_command. apply reach_command.
    apply (reach_start 500 sample_lib empty_world None); vm_compute;
      [lia|reflexivity]. }
  split; [exact Hr|]. split; [reflexivity|].
  exact (proj1 (exactly_one_superadmin 500 sample_lib after_self_removal Hr)).
Defined.

(** ** The guard comes first *)

Lemma stable_trace_extends t0 :
  stable (fun w => exists l, trace w = t0 ++ l).
Proof.
  split.
  - intros w e h [l Hl]. exists (l ++ [e]). fields. rewrite Hl. apply eq_sym, app_assoc.
  - intros w n H. exact H.
Qed.

(** A handler that starts with [if not await check_spam(update): return]:
    its outside calls begin with those of the guard, and when the guard does
    not return [True] nothing follows. *)
Lemma guard_first (body : M unit) u w :
  (forall t0, preserves (fun w' => exists l, trace w' = t0 ++ l) body) ->
  let g := check_spam u w in
  let r := (let! ok := check_spam u in if negb ok then ret tt else body) w in
  (exists l, trace (snd r) = trace (snd g) ++ l)
  /\ (fst g <> Ok true ->
      r = (match fst g with
           | Ok _ => Ok tt
           | Raise e => Raise e
           | Halted => Halted
           end, snd g)).
Proof.
  intros Hbody g r. subst g r. unfold bind.
  destruct (check_spam u w) as [[[|]|e|] wg]; cbn [fst snd negb].
  - split; [|congruence].
    specialize (Hbody (trace wg) wg (ex_intro _ [] (eq_sym (app_nil_r _)))).
    destruct (body wg) as [[[]|e|] w']; exact Hbody.
  - split; [exists []; cbn; apply eq_sym, app_nil_r|reflexivity].
  - split; [exists []; apply eq_sym, app_nil_r|reflexivity].
  - split; [exists []; apply eq_sym, app_nil_r|reflexivity].
Qed.

(** C8 (amended).  For every command other than ping, every caller and every
    world, wherever the run is cut short: the outside calls of the command
    (store reads and writes, scheduler calls, replies) begin with those of
    [check_spam], and when [check_spam] does not return [True] the command
    ends there, in the world the guard left. *)
Theorem guard_runs_first SUPERADMIN_ID lib c u w :
  c <> CmdPing ->
  let g := check_spam u w in
  let r := dispatch SUPERADMIN_ID lib c u w in
  (exists l, trace (snd r) = trace (snd g) ++ l)
  /\ (fst g <> Ok true ->
      r = (match fst g with
           | Ok _ => Ok tt
           | Raise e => Raise e
           | Halted => Halted
           end, snd g)).
Proof.
  intros Hc.
  destruct c; try contradiction; cbn [dispatch];
    unfold start, add_admin, remove_admin, list_admins, unblock_cmd,
      list_blocked, broadcast, remind, list_reminders, delete_reminder,
      approve_delete, reject_delete;
    apply guard_first; intros t0;
    pose proof (stable_trace_extends t0) as HI; frame HI;
    intros w' Hw'; fields; try destruct (List.find _ _); exact Hw'.
Qed.

Lemma guard_runs_first_witness :
  CmdApprove <> CmdPing
  /\ (let u := Update (User 777 None) [sample_rid] in
      dispatch 500 sample_lib CmdApprove u busy_world
      = (Ok tt, snd (check_spam u busy_world))).
Proof.
  assert (Hc : CmdApprove <> CmdPing) by discriminate.
  split; [exact Hc|].
  destruct (guard_runs_first 500 sample_lib CmdApprove
              (Update (User 777 None) [sample_rid]) busy_world Hc) as [_ H].
  apply H. vm_compute. discriminate.
Defined.

(** C8, as stated, fails for ping: the handler replies without calling the
    guard, also to a caller the guard refuses. *)
Lemma ping_skips_the_guard :
  let u := Update (User 777 None) [] in
  let g := check_spam u busy_world in
  let r := dispatch 500 sample_lib CmdPing u busy_world in
  has_entry 777 (admins busy_world) = false
  /\ fst g = Ok false
  /\ trace (snd g) = [EvFind Admins; EvFind Blocked; EvReply blocked_text None]
  /\ fst r = Ok tt
  /\ trace (snd r) = [EvReply "pong" None].
Proof. vm_compute. repeat split. Qed.

(** ** Cancelling the timers of a reminder *)

Lemma try_remove_job_run job_id w :
  halt_after w = None ->
  try_except (remove_job job_id) (fun _ => ret tt) w = (Ok tt, unschedule w job_id).
Proof.
  intros H. unfold try_except, remove_job.
  rewrite (bind_ok _ _ _ _ _ (io_run _ _ H)).
  rewrite (bind_ok _ _ _ _ _ (gets_run _ _)). fields.
  destruct (scheduler w !! job_id) eqn:E.
  - reflexivity.
  - unfold raise, ret, unschedule. rewrite delete_id by exact E.
    destruct w; reflexivity.
Qed.

Lemma unschedule_frame w job_id :
  halt_after (unschedule w job_id) = halt_after w
  /\ admins (unschedule w job_id) = admins w
  /\ reminders (unschedule w job_id) = reminders w
  /\ blocked (unschedule w job_id) = blocked w
  /\ pending_deletes (unschedule w job_id) = pending_deletes w
  /\ user_requests (unschedule w job_id) = user_requests w.
Proof. repeat split. Qed.

Lemma fold_unschedule_frame l w :
  let w' := fold_left unschedule l w in
  halt_after w' = halt_after w
  /\ admins w' = admins w
  /\ reminders w' = reminders w
  /\ blocked w' = blocked w
  /\ pending_deletes w' = pending_deletes w
  /\ user_requests w' = user_requests w
  /\ trace w' = trace w ++ List.map EvRemoveJob l
  /\ forall k, scheduler w' !! k
               = if bool_decide (k ∈ l) then None else scheduler w !! k.
Proof.
  revert w. induction l as [|j l IH]; intros w; cbn [fold_left List.map].
  - rewrite app_nil_r. repeat split.
  - specialize (IH (unschedule w j)). cbn zeta in IH.
    destruct IH as (H1 & H2 & H3 & H4 & H5 & H6 & H7 & H8).
    rewrite H1, H2, H3, H4, H5, H6, H7. unfold unschedule at 7. fields.
    rewrite <- app_assoc. repeat split. intros k. rewrite H8.
    unfold unschedule. fields.
    destruct (decide (k = j)) as [->|Hne].
    + rewrite lookup_delete_eq.
      rewrite (bool_decide_eq_true_2 (j ∈ j :: l)) by (apply elem_of_cons; auto).
      destruct (bool_decide (j ∈ l)); reflexivity.
    + rewrite lookup_delete_ne by congruence.
      destruct (bool_decide (k ∈ l)) eqn:E.
      * apply bool_decide_eq_true_1 in E.
        rewrite bool_decide_eq_true_2; [reflexivity|].
        apply elem_of_cons. right. exact E.
      * apply bool_decide_eq_false_1 in E.
        rewrite bool_decide_eq_false_2; [reflexivity|].
        intros Hin. apply elem_of_cons in Hin. destruct Hin; [congruence|auto].
Qed.

Lemma remove_reminder_jobs_run reminder_id w :
  halt_after w = None ->
  remove_reminder_jobs reminder_id w = (Ok tt, cancelled reminder_id w).
Proof.
  intros H. unfold remove_reminder_jobs, get_jobs.
  rewrite bind_assoc. rewrite (bind_ok _ _ _ _ _ (io_run _ _ H)).
  rewrite (bind_ok _ _ _ _ _ (gets_run _ _)). fields.
  unfold cancelled, jobs_of.
  assert (Hw : halt_after (set_trace (trace w ++ [EvGetJobs]) w) = None) by exact H.
  generalize dependent (set_trace (trace w ++ [EvGetJobs]) w).
  generalize (map_to_list (scheduler w)) as l.
  induction l as [|[k j] l IH]; intros w1 Hw1; [reflexivity|].
  cbn [for_each List.map List.filter fst].
  destruct (String.prefix (reminder_id +:+ "_") k).
  - rewrite (bind_ok _ _ _ _ _ (try_remove_job_run _ _ Hw1)).
    cbn [fold_left]. apply IH. exact Hw1.
  - rewrite (bind_ok _ _ _ _ _ (ret_run _ _)). apply IH. exact Hw1.
Qed.

(** After the cancellation no job of the reminder is left and every other
    job is as before. *)
Lemma cancelled_scheduler reminder_id w k :
  scheduler (cancelled reminder_id w) !! k
  = if String.prefix (reminder_id +:+ "_") k then None else scheduler w !! k.
Proof.
  unfold cancelled.
  destruct (fold_unschedule_frame (jobs_of reminder_id (scheduler w))
              (set_trace (trace w ++ [EvGetJobs]) w)) as (_ & _ & _ & _ & _ & _ & _ & H).
  rewrite H. fields. unfold jobs_of.
  destruct (String.prefix (reminder_id +:+ "_") k) eqn:E.
  - destruct (scheduler w !! k) as [j|] eqn:Ek.
    + rewrite bool_decide_eq_true_2; [reflexivity|].
      apply list_elem_of_In, filter_In. split; [|exact E].
      apply in_map_iff. exists (k, j). split; [reflexivity|].
      apply list_elem_of_In, elem_of_map_to_list. exact Ek.
    + destruct (bool_decide _); reflexivity.
  - rewrite bool_decide_eq_false_2; [reflexivity|].
    intros Hin. apply list_elem_of_In, filter_In in Hin. destruct Hin as [_ Hin].
    congruence.
Qed.

Lemma cancelled_frame reminder_id w :
  let w' := cancelled reminder_id w in
  halt_after w' = halt_after w
  /\ admins w' = admins w
  /\ reminders w' = reminders w
  /\ blocked w' = blocked w
  /\ pending_deletes w' = pending_deletes w
  /\ user_requests w' = user_requests w
  /\ trace w' = trace w ++ EvGetJobs
                  :: List.map EvRemoveJob (jobs_of reminder_id (scheduler w)).
Proof.
  unfold cancelled.
  destruct (fold_unschedule_frame (jobs_of reminder_id (scheduler w))
              (set_trace (trace w ++ [EvGetJobs]) w))
    as (H1 & H2 & H3 & H4 & H5 & H6 & H7 & _).
  cbn zeta. rewrite H1, H2, H3, H4, H5, H6, H7. fields.
  rewrite <- app_assoc. repeat split.
Qed.

Lemma prefix_append s t : String.prefix s (s +:+ t) = true.
Proof.
  induction s as [|c s IH].
  - destruct t; reflexivity.
  - change (String.prefix (String c s) (String c (s +:+ t)) = true).
    cbn [String.prefix]. destruct (Ascii.ascii_dec c c); [exact IH|congruence].
Qed.

Lemma append_assoc s t v : (s +:+ t) +:+ v = s +:+ t +:+ v.
Proof.
  induction s as [|c s IH]; [reflexivity|].
  change (String c ((s +:+ t) +:+ v) = String c (s +:+ t +:+ v)).
  rewrite IH. reflexivity.
Qed.

Lemma prefix_job_id_of reminder_id i :
  String.prefix (reminder_id +:+ "_") (job_id_of reminder_id i) = true.
Proof. unfold job_id_of. rewrite <- append_assoc. apply prefix_append. Qed.

(** ** The deletion workflow *)

Lemma superadmin_has_entry user_id l :
  has_superadmin_entry user_id l = true -> has_entry user_id l = true.
Proof.
  unfold has_superadmin_entry, has_entry. induction l as [|d l IH]; cbn; [auto|].
  intros H. apply orb_true_iff in H. apply orb_true_iff. destruct H as [H|H].
  - left. unfold by_user_role in H. apply andb_true_iff in H. apply H.
  - right. auto.
Qed.

Lemma arg0_run u w s rest : args u = s :: rest -> arg 0 u w = (Ok s, w).
Proof. intros H. unfold arg. rewrite H. reflexivity. Qed.

Lemma arg0_missing u w : args u = [] -> arg 0 u w = (Raise IndexError, w).
Proof. intros H. unfold arg. rewrite H. reflexivity. Qed.

Lemma ObjectId_printed s w : printed_oid s = true -> ObjectId s w = (Ok s, w).
Proof.
  unfold printed_oid, ObjectId. destruct (oid_of_string s) as [o|]; [|discriminate].
  intros H. apply String.eqb_eq in H. subst o. reflexivity.
Qed.

Lemma delete_one_run {D} c (get : world -> list D) set f w :
  halt_after w = None ->
  let w1 := set_trace (trace w ++ [EvDelete c]) w in
  delete_one c get set f w
  = (Ok (if is_some (List.find f (get w1)) then 1%nat else 0%nat),
     set (delete_first f (get w1)) w1).
Proof.
  intros H w1. unfold delete_one.
  rewrite (bind_ok _ _ _ _ _ (io_run _ _ H)).
  rewrite (bind_ok _ _ _ _ _ (gets_run _ _)).
  rewrite (bind_ok _ _ _ _ _ (modify_run _ _)). reflexivity.
Qed.

Lemma replies_app t1 t2 : replies (t1 ++ t2) = replies t1 ++ replies t2.
Proof. apply omap_app. Qed.

Lemma sends_app t1 t2 : sends (t1 ++ t2) = sends t1 ++ sends t2.
Proof. apply omap_app. Qed.

Lemma replies_remove_jobs l : replies (List.map EvRemoveJob l) = [].
Proof. induction l; [reflexivity|exact IHl]. Qed.

Lemma sends_remove_jobs l : sends (List.map EvRemoveJob l) = [].
Proof. induction l; [reflexivity|exact IHl]. Qed.

Lemma find_delete_first_unique {D} (key : D -> string) (x : string) (l : list D) :
  NoDup (List.map key l) ->
  List.find (fun d => String.eqb (key d) x)
            (delete_first (fun d => String.eqb (key d) x) l) = None.
Proof.
  induction l as [|d l IH]; intros Hnd; [reflexivity|].
  cbn [List.map] in Hnd. apply NoDup_cons in Hnd. destruct Hnd as [Hd Hnd].
  cbn [delete_first]. destruct (String.eqb (key d) x) eqn:E.
  - apply find_none_existsb. apply not_true_is_false. intros Hex.
    apply existsb_exists in Hex. destruct Hex as (y & Hy & Hkey).
    apply String.eqb_eq in E, Hkey.
    apply Hd. rewrite E, <- Hkey. apply list_elem_of_In, in_map. exact Hy.
  - cbn [List.find]. rewrite E. apply IH. exact Hnd.
Qed.

(** Without a pending request the superadmin's approve only answers. *)
Lemma approve_delete_not_found u w rid rest :
  halt_after w = None ->
  has_superadmin_entry (id (effective_user u)) (admins w) = true ->
  args u = rid :: rest ->
  List.find (by_rid rid) (pending_deletes w) = None ->
  approve_delete u w
  = (Ok tt,
     set_trace (trace w ++ [EvFind Admins; EvFind Admins; EvFind PendingDeletes;
                            EvReply "❌ No pending request." None]) w).
Proof.
  intros H Hsa Hargs Hnone. unfold approve_delete.
  rewrite (bind_ok _ _ _ _ _ (check_spam_operator _ _ H (superadmin_has_entry _ _ Hsa))).
  cbn [negb].
  erewrite bind_ok by (apply is_superadmin_run; exact H). fields.
  rewrite Hsa. cbn [negb].
  rewrite (bind_ok _ _ _ _ _ (arg0_run _ _ _ _ Hargs)).
  erewrite bind_ok by (apply find_one_run; exact H). fields.
  rewrite Hnone. unfold reply_text. rewrite io_run by exact H. fields.
  rewrite <- !app_assoc. reflexivity.
Qed.

(** With a pending request the superadmin's approve deletes the reminder
    record, cancels the timers, deletes the request and notifies. *)
Lemma approve_delete_found u w rid rest req :
  halt_after w = None ->
  has_superadmin_entry (id (effective_user u)) (admins w) = true ->
  args u = rid :: rest ->
  List.find (by_rid rid) (pending_deletes w) = Some req ->
  printed_oid rid = true ->
  let r := approve_delete u w in
  fst r = Ok tt
  /\ halt_after (snd r) = None
  /\ admins (snd r) = admins w
  /\ blocked (snd r) = blocked w
  /\ reminders (snd r) = delete_first (by_id rid) (reminders w)
  /\ (forall k, scheduler (snd r) !! k
                = if String.prefix (rid +:+ "_") k then None else scheduler w !! k)
  /\ pending_deletes (snd r) = delete_first (by_rid rid) (pending_deletes w)
  /\ replies (trace (snd r))
     = replies (trace w) ++ ["✅ Reminder " +:+ rid +:+ " deleted after approval."]
  /\ sends (trace (snd r))
     = sends (trace w)
       ++ [(Chat (p_requested_by req),
            "✅ Your deletion request for " +:+ rid +:+ " was approved.")].
Proof.
  intros H Hsa Hargs Hreq Hoid r. subst r. unfold approve_delete.
  rewrite (bind_ok _ _ _ _ _ (check_spam_operator _ _ H (superadmin_has_entry _ _ Hsa))).
  cbn [negb].
  erewrite bind_ok by (apply is_superadmin_run; exact H). fields.
  rewrite Hsa. cbn [negb].
  rewrite (bind_ok _ _ _ _ _ (arg0_run _ _ _ _ Hargs)).
  erewrite bind_ok by (apply find_one_run; exact H). fields.
  rewrite Hreq.
  rewrite (bind_ok _ _ _ _ _ (ObjectId_printed _ _ Hoid)).
  erewrite bind_ok by (apply delete_one_run; exact H). fields.
  erewrite bind_ok by (apply remove_reminder_jobs_run; exact H).
  erewrite bind_ok
    by (apply delete_one_run; rewrite (proj1 (cancelled_frame _ _)); exact H).
  unfold reply_text, send_message.
  erewrite bind_ok
    by (apply io_run; fields; rewrite (proj1 (cancelled_frame _ _)); exact H).
  rewrite io_run
    by (fields; rewrite (proj1 (cancelled_frame _ _)); exact H).
  match goal with |- context [cancelled rid ?w1] =>
    pose proof (cancelled_frame rid w1) as Hc;
    pose proof (cancelled_scheduler rid w1) as Hs
  end.
  cbn zeta in Hc. destruct Hc as (C1 & C2 & C3 & C4 & C5 & C6 & C7).
  fields. rewrite C1, C2, C3, C4, C5, C7. fields.
  repeat split; try assumption; try reflexivity.
  - rewrite !replies_app.
    change (replies (EvGetJobs :: ?l)) with (replies l).
    rewrite replies_remove_jobs. cbn. rewrite !app_nil_r. reflexivity.
  - rewrite !sends_app.
    change (sends (EvGetJobs :: ?l)) with (sends l).
    rewrite sends_remove_jobs. cbn. rewrite !app_nil_r. reflexivity.
Qed.

Lemma map_update_first {D K} (key : D -> K) f g (l : list D) :
  (forall d, key (g d) = key d) ->
  List.map key (update_first f g l) = List.map key l.
Proof.
  intros H. induction l as [|d l IH]; [reflexivity|]. cbn.
  destruct (f d); cbn; [rewrite H|rewrite IH]; reflexivity.
Qed.

Lemma NoDup_delete_first {D K} (key : D -> K) f (l : list D) :
  NoDup (List.map key l) -> NoDup (List.map key (delete_first f l)).
Proof.
  induction l as [|d l IH]; intros Hnd; [exact Hnd|].
  cbn [List.map] in Hnd. apply NoDup_cons in Hnd. destruct Hnd as [Hd Hnd].
  cbn [delete_first]. destruct (f d); [exact Hnd|].
  cbn [List.map]. apply NoDup_cons. split; [|apply IH; exact Hnd].
  intros Hin. apply Hd. clear -Hin.
  induction l as [|y l IH]; [exact Hin|]. cbn in *.
  destruct (f y).
  - apply elem_of_cons. right. exact Hin.
  - apply elem_of_cons in Hin. apply elem_of_cons.
    destruct Hin as [Hin|Hin]; [left; exact Hin|right; apply IH; exact Hin].
Qed.

Lemma stable_one_request : stable one_request_per_reminder.
Proof. split; intros; assumption. Qed.

(** Every command keeps at most one pending request per reminder id: the
    only insertion is the upsert keyed by the id. *)
Lemma dispatch_keeps_one_request SUPERADMIN_ID lib c u :
  preserves one_request_per_reminder (dispatch SUPERADMIN_ID lib c u).
Proof.
  pose proof stable_one_request as HI.
  destruct c; frame HI.
  all: try (intros w Hw; unfold one_request_per_reminder in *; fields;
            try destruct (List.find _ (blocked _)); exact Hw).
  - intros w Hw. unfold one_request_per_reminder in *.
    destruct (List.find _ _) eqn:E; fields.
    + rewrite map_update_first; [exact Hw|reflexivity].
    + rewrite List.map_app. cbn [List.map]. apply NoDup_app. split; [exact Hw|].
      split; [|apply NoDup_singleton].
      intros x Hx Hx'. apply list_elem_of_singleton in Hx'. subst x.
      apply list_elem_of_In, in_map_iff in Hx. destruct Hx as (d & Hd & Hin).
      apply (find_none _ _ E) in Hin. unfold by_rid in Hin.
      apply String.eqb_neq in Hin. apply Hin. exact Hd.
  - intros w Hw. unfold one_request_per_reminder in *. fields.
    apply NoDup_delete_first. exact Hw.
  - intros w Hw. unfold one_request_per_reminder in *. fields.
    apply NoDup_delete_first. exact Hw.
Qed.

(** X26.  For a superadmin calling approve with an id: without a pending
    request for the id the call answers "No pending request." and changes
    nothing.  With one, and the id in the form the bot prints it, the call
    deletes the reminder record, cancels every timer of the reminder (and no
    other job), deletes the pending request and notifies the requester; as
    the store holds at most one request per reminder, approving again right
    away answers "No pending request." and changes nothing. *)
Theorem approve_delete_workflow u w rid rest :
  halt_after w = None ->
  has_superadmin_entry (id (effective_user u)) (admins w) = true ->
  args u = rid :: rest ->
  let r := approve_delete u w in
  (List.find (by_rid rid) (pending_deletes w) = None ->
   fst r = Ok tt
   /\ replies (trace (snd r)) = replies (trace w) ++ ["❌ No pending request."]
   /\ sends (trace (snd r)) = sends (trace w)
   /\ reminders (snd r) = reminders w
   /\ scheduler (snd r) = scheduler w
   /\ pending_deletes (snd r) = pending_deletes w)
  /\ (forall req,
      List.find (by_rid rid) (pending_deletes w) = Some req ->
      printed_oid rid = true ->
      fst r = Ok tt
      /\ reminders (snd r) = delete_first (by_id rid) (reminders w)
      /\ (NoDup (List.map r_id (reminders w)) ->
          existsb (by_id rid) (reminders (snd r)) = false)
      /\ (forall i, scheduler (snd r) !! job_id_of rid i = None)
      /\ (forall k, String.prefix (rid +:+ "_") k = false ->
                    scheduler (snd r) !! k = scheduler w !! k)
      /\ pending_deletes (snd r) = delete_first (by_rid rid) (pending_deletes w)
      /\ replies (trace (snd r))
         = replies (trace w) ++ ["✅ Reminder " +:+ rid +:+ " deleted after approval."]
      /\ sends (trace (snd r))
         = sends (trace w)
           ++ [(Chat (p_requested_by req),
                "✅ Your deletion request for " +:+ rid +:+ " was approved.")]
      /\ (one_request_per_reminder w ->
          let r2 := approve_delete u (snd r) in
          fst r2 = Ok tt
          /\ replies (trace (snd r2))
             = replies (trace (snd r)) ++ ["❌ No pending request."]
          /\ sends (trace (snd r2)) = sends (trace (snd r))
          /\ reminders (snd r2) = reminders (snd r)
          /\ scheduler (snd r2) = scheduler (snd r)
          /\ pending_deletes (snd r2) = pending_deletes (snd r))).
Proof.
  intros H Hsa Hargs r.
  assert (Hnf : forall w0, halt_after w0 = None ->
            has_superadmin_entry (id (effective_user u)) (admins w0) = true ->
            List.find (by_rid rid) (pending_deletes w0) = None ->
            let r0 := approve_delete u w0 in
            fst r0 = Ok tt
            /\ replies (trace (snd r0)) = replies (trace w0) ++ ["❌ No pending request."]
            /\ sends (trace (snd r0)) = sends (trace w0)
            /\ reminders (snd r0) = reminders w0
            /\ scheduler (snd r0) = scheduler w0
            /\ pending_deletes (snd r0) = pending_deletes w0).
  { intros w0 H0 Hsa0 Hnone r0. subst r0.
    rewrite (approve_delete_not_found u w0 rid rest H0 Hsa0 Hargs Hnone).
    fields. rewrite replies_app, sends_app. cbn. rewrite app_nil_r.
    repeat split. }
  split; [apply Hnf; assumption|].
  intros req Hreq Hoid.
  destruct (approve_delete_found u w rid rest req H Hsa Hargs Hreq Hoid)
    as (R1 & R2 & R3 & R4 & R5 & R6 & R7 & R8 & R9).
  fold r in R1, R2, R3, R4, R5, R6, R7, R8, R9.
  split; [exact R1|]. split; [exact R5|].
  split.
  { intros Hnd. rewrite R5. unfold by_id.
    rewrite <- find_existsb, (find_delete_first_unique r_id rid _ Hnd). reflexivity. }
  split; [intros i; rewrite R6, prefix_job_id_of; reflexivity|].
  split; [intros k Hk; rewrite R6, Hk; reflexivity|].
  split; [exact R7|]. split; [exact R8|]. split; [exact R9|].
  intros Hone. apply Hnf; [exact R2|rewrite R3; exact Hsa|].
  rewrite R7. apply (find_delete_first_unique p_rid rid _ Hone).
Qed.

Lemma approve_delete_workflow_witness :
  let u := Update (User 500 None) [sample_rid] in
  let r := approve_delete u busy_world in
  halt_after busy_world = None
  /\ has_superadmin_entry 500 (admins busy_world) = true
  /\ List.find (by_rid sample_rid) (pending_deletes busy_world)
     = Some (PendingDoc sample_rid 501 2)
  /\ printed_oid sample_rid = true
  /\ one_request_per_reminder busy_world
  /\ reminders (snd r) = []
  /\ (forall i, scheduler (snd r) !! job_id_of sample_rid i = None)
  /\ pending_deletes (snd r) = []
  /\ replies (trace (snd (approve_delete u (snd r))))
     = replies (trace (snd r)) ++ ["❌ No pending request."].
Proof.
  intros u r.
  assert (Hone : one_request_per_reminder busy_world).
  { unfold one_request_per_reminder. cbn. apply NoDup_cons.
    split; [apply not_elem_of_nil|apply NoDup_nil_2]. }
  destruct (approve_delete_workflow u busy_world sample_rid [] eq_refl eq_refl eq_refl)
    as [_ Hfound].
  destruct (Hfound (PendingDoc sample_rid 501 2) eq_refl eq_refl)
    as (_ & F2 & _ & F4 & _ & F6 & _ & _ & F9).
  destruct (F9 Hone) as (_ & G2 & _).
  repeat split; first [assumption|reflexivity].
Defined.

(** C5.  The claim fails for an id typed with upper-case digits, which
    ObjectId accepts and every handler stores and echoes as typed: the admin
    501 asks for the deletion of the stored reminder under that spelling,
    the superadmin is told to approve it under the same spelling and does;
    the approval returns, deletes the record and the request and tells both
    that the reminder was deleted, and all five timers of the reminder are
    still scheduled, since their ids start with the id in lower case. *)
Lemma approve_uppercase_id_leaves_timers :
  let typed := "65A1B2C3D4E5F60718293A4B" in
  let ua := Update (User 501 None) [typed] in
  let us := Update (User 500 None) [typed] in
  let w := set_pending_deletes [] busy_world in
  let w1 := snd (delete_reminder 500 sample_lib ua w) in
  let r := approve_delete us w1 in
  oid_of_string typed = Some sample_rid
  /\ List.map r_id (reminders w) = [sample_rid]
  /\ List.map p_rid (pending_deletes w1) = [typed]
  /\ sends (trace w1) = [(Chat 500, request_notice 501 typed)]
  /\ fst r = Ok tt
  /\ reminders (snd r) = []
  /\ pending_deletes (snd r) = []
  /\ List.map (fun i => is_some (scheduler (snd r) !! job_id_of sample_rid i))
              [0; 1; 2; 3; 4]%nat = [true; true; true; true; true]
  /\ replies (trace (snd r))
     = replies (trace w1) ++ ["✅ Reminder " +:+ typed +:+ " deleted after approval."]
  /\ sends (trace (snd r))
     = sends (trace w1)
       ++ [(Chat 501, "✅ Your deletion request for " +:+ typed +:+ " was approved.")].
Proof. vm_compute. repeat split. Qed.

(** The job ids are built from the printed id, the record is looked up by
    the parsed one: an id typed in upper case names the same record and none
    of its jobs. *)
Example uppercase_id_keeps_timers :
  let u := Update (User 500 None) ["65A1B2C3D4E5F60718293A4B"] in
  let r := delete_reminder 500 sample_lib u busy_world in
  oid_of_string "65A1B2C3D4E5F60718293A4B" = Some sample_rid
  /\ printed_oid "65A1B2C3D4E5F60718293A4B" = false
  /\ fst r = Ok tt
  /\ reminders (snd r) = []
  /\ scheduler (snd r) = scheduler busy_world.
Proof. vm_compute. repeat split. Qed.

(** *** Reject *)

Lemma reject_delete_not_found u w rid rest :
  halt_after w = None ->
  has_superadmin_entry (id (effective_user u)) (admins w) = true ->
  args u = rid :: rest ->
  List.find (by_rid rid) (pending_deletes w) = None ->
  reject_delete u w
  = (Ok tt,
     set_trace (trace w ++ [EvFind Admins; EvFind Admins; EvFind PendingDeletes;
                            EvReply "❌ No pending request." None]) w).
Proof.
  intros H Hsa Hargs Hnone. unfold reject_delete.
  rewrite (bind_ok _ _ _ _ _ (check_spam_operator _ _ H (superadmin_has_entry _ _ Hsa))).
  cbn [negb].
  erewrite bind_ok by (apply is_superadmin_run; exact H). fields.
  rewrite Hsa. cbn [negb].
  rewrite (bind_ok _ _ _ _ _ (arg0_run _ _ _ _ Hargs)).
  erewrite bind_ok by (apply find_one_run; exact H). fields.
  rewrite Hnone. unfold reply_text. rewrite io_run by exact H. fields.
  rewrite <- !app_assoc. reflexivity.
Qed.

Lemma reject_delete_found u w rid rest req :
  halt_after w = None ->
  has_superadmin_entry (id (effective_user u)) (admins w) = true ->
  args u = rid :: rest ->
  List.find (by_rid rid) (pending_deletes w) = Some req ->
  reject_delete u w
  = (Ok tt,
     set_trace (trace w ++ [EvFind Admins; EvFind Admins; EvFind PendingDeletes;
                            EvDelete PendingDeletes;
                            EvReply ("🚫 Deletion of " +:+ rid +:+ " rejected.") None;
                            EvSend (Chat (p_requested_by req))
                              ("🚫 Your deletion request for " +:+ rid +:+
                               " was rejected.") None])
       (set_pending_deletes (delete_first (by_rid rid) (pending_deletes w)) w)).
Proof.
  intros H Hsa Hargs Hreq. unfold reject_delete.
  rewrite (bind_ok _ _ _ _ _ (check_spam_operator _ _ H (superadmin_has_entry _ _ Hsa))).
  cbn [negb].
  erewrite bind_ok by (apply is_superadmin_run; exact H). fields.
  rewrite Hsa. cbn [negb].
  rewrite (bind_ok _ _ _ _ _ (arg0_run _ _ _ _ Hargs)).
  erewrite bind_ok by (apply find_one_run; exact H). fields.
  rewrite Hreq.
  erewrite bind_ok by (apply delete_one_run; exact H). fields.
  unfold reply_text, send_message.
  erewrite bind_ok by (apply io_run; exact H).
  rewrite io_run by exact H. fields. rewrite <- !app_assoc. reflexivity.
Qed.

(** C6.  For a superadmin calling reject with an id: with a pending request
    the call deletes that request and nothing else - role entries, block
    list, reminder records and every scheduled job are as before - answers
    the caller and notifies the requester; without one it answers
    "No pending request." and changes nothing. *)
Theorem reject_delete_frame u w rid rest :
  halt_after w = None ->
  has_superadmin_entry (id (effective_user u)) (admins w) = true ->
  args u = rid :: rest ->
  let r := reject_delete u w in
  fst r = Ok tt
  /\ reminders (snd r) = reminders w
  /\ scheduler (snd r) = scheduler w
  /\ admins (snd r) = admins w
  /\ blocked (snd r) = blocked w
  /\ added_jobs (trace (snd r)) = added_jobs (trace w)
  /\ (List.find (by_rid rid) (pending_deletes w) = None ->
      pending_deletes (snd r) = pending_deletes w
      /\ replies (trace (snd r)) = replies (trace w) ++ ["❌ No pending request."]
      /\ sends (trace (snd r)) = sends (trace w))
  /\ (forall req,
      List.find (by_rid rid) (pending_deletes w) = Some req ->
      pending_deletes (snd r) = delete_first (by_rid rid) (pending_deletes w)
      /\ (one_request_per_reminder w ->
          List.find (by_rid rid) (pending_deletes (snd r)) = None)
      /\ replies (trace (snd r))
         = replies (trace w) ++ ["🚫 Deletion of " +:+ rid +:+ " rejected."]
      /\ sends (trace (snd r))
         = sends (trace w)
           ++ [(Chat (p_requested_by req),
                "🚫 Your deletion request for " +:+ rid +:+ " was rejected.")]).
Proof.
  intros H Hsa Hargs r. subst r.
  assert (Hadd : forall l, added_jobs (trace w ++ l)
                           = added_jobs (trace w) ++ added_jobs l)
    by (intros; apply omap_app).
  destruct (List.find (by_rid rid) (pending_deletes w)) as [req|] eqn:E.
  - rewrite (reject_delete_found u w rid rest req H Hsa Hargs E). fields.
    rewrite Hadd. cbn [added_jobs omap]. rewrite app_nil_r.
    do 6 (split; [reflexivity|]). split; [discriminate|].
    intros req' Hreq'. injection Hreq' as <-.
    split; [reflexivity|]. split.
    + intros Hone. apply (find_delete_first_unique p_rid rid _ Hone).
    + rewrite replies_app, sends_app. split; reflexivity.
  - rewrite (reject_delete_not_found u w rid rest H Hsa Hargs E). fields.
    rewrite Hadd. cbn [added_jobs omap]. rewrite app_nil_r.
    do 6 (split; [reflexivity|]). split; [|discriminate].
    intros _. rewrite replies_app, sends_app. cbn. rewrite app_nil_r.
    repeat split.
Qed.

Lemma reject_delete_frame_witness :
  let u := Update (User 500 None) [sample_rid] in
  let r := reject_delete u busy_world in
  halt_after busy_world = None
  /\ has_superadmin_entry 500 (admins busy_world) = true
  /\ reminders (snd r) = reminders busy_world
  /\ scheduler (snd r) = scheduler busy_world
  /\ pending_deletes (snd r) = [].
Proof.
  intros u r.
  destruct (reject_delete_frame u busy_world sample_rid [] eq_refl eq_refl eq_refl)
    as (_ & F2 & F3 & _ & _ & _ & _ & F8).
  destruct (F8 (PendingDoc sample_rid 501 2) eq_refl) as (G1 & _).
  repeat split; first [assumption|reflexivity].
Defined.

(** ** Callers without the needed role *)

Lemma try_ok {A} (m : M A) h w a w' :
  m w = (Ok a, w') -> try_except m h w = (Ok a, w').
Proof. intros H. unfold try_except. rewrite H. reflexivity. Qed.


Lemma no_entry_no_superadmin user_id l :
  has_entry user_id l = false -> has_superadmin_entry user_id l = false.
Proof.
  intros H. destruct (has_superadmin_entry user_id l) eqn:E; [|reflexivity].
  apply superadmin_has_entry in E. congruence.
Qed.

(** What an uninterrupted run of the guard can do: it returns, touches no
    collection but the block list, no job and sends no message; when it lets
    the caller through it leaves the block list alone and replies nothing,
    when it refuses it replies with one of its two refusals. *)
Lemma check_spam_frame u w :
  halt_after w = None ->
  exists b w',
    check_spam u w = (Ok b, w')
    /\ halt_after w' = None
    /\ admins w' = admins w
    /\ reminders w' = reminders w
    /\ pending_deletes w' = pending_deletes w
    /\ scheduler w' = scheduler w
    /\ sends (trace w') = sends (trace w)
    /\ added_jobs (trace w') = added_jobs (trace w)
    /\ (b = true ->
        blocked w' = blocked w /\ replies (trace w') = replies (trace w))
    /\ (b = false ->
        has_entry (id (effective_user u)) (admins w) = false
        /\ exists m, replies (trace w') = replies (trace w) ++ [m]
                     /\ (m = blocked_text \/ m = spam_text)).
Proof.
  intros H.
  assert (Hadd : forall l, added_jobs (trace w ++ l)
                           = added_jobs (trace w) ++ added_jobs l)
    by (intros; apply omap_app).
  destruct (has_entry (id (effective_user u)) (admins w)) eqn:Hop.
  - exists true, (set_trace (trace w ++ [EvFind Admins]) w).
    split; [apply check_spam_operator; assumption|]. fields.
    rewrite sends_app, replies_app, Hadd. cbn. rewrite !app_nil_r.
    repeat split; try assumption; congruence.
  - destruct (blocked_entry (id (effective_user u)) (blocked w)) eqn:Hbl.
    + eexists false, _. split; [apply check_spam_blocked; assumption|]. fields.
      rewrite sends_app, replies_app, Hadd. cbn. rewrite !app_nil_r.
      repeat split; try assumption; try congruence.
      exists blocked_text. split; [reflexivity|left; reflexivity].
    + eexists _, _. split; [apply check_spam_guest; assumption|].
      destruct (REQUEST_LIMIT <? length _)%nat; cbn [negb]; fields;
        rewrite sends_app, replies_app, Hadd; cbn; rewrite !app_nil_r;
        repeat split; try assumption; try congruence.
      exists spam_text. split; [reflexivity|right; reflexivity].
Qed.

(** A caller who is not the superadmin gets nothing out of approve or
    reject beyond the guard: the run returns in the world the guard left,
    one more role lookup apart. *)
Lemma superadmin_only_silent (rest : update -> M unit) u w :
  halt_after w = None ->
  has_superadmin_entry (id (effective_user u)) (admins w) = false ->
  let r := (let! ok := check_spam u in
            if negb ok then ret tt else
            let! sa := is_superadmin (id (effective_user u)) in
            if negb sa then ret tt else rest u) w in
  fst r = Ok tt
  /\ admins (snd r) = admins w
  /\ reminders (snd r) = reminders w
  /\ pending_deletes (snd r) = pending_deletes w
  /\ scheduler (snd r) = scheduler w
  /\ added_jobs (trace (snd r)) = added_jobs (trace w)
  /\ sends (trace (snd r)) = sends (trace w)
  /\ (fst (check_spam u w) = Ok true ->
      blocked (snd r) = blocked w
      /\ replies (trace (snd r)) = replies (trace w)).
Proof.
  intros H Hsa r. subst r.
  destruct (check_spam_frame u w H)
    as (b & w' & Hrun & Hh & Had & Hrm & Hpd & Hsc & Hse & Haj & Htrue & Hfalse).
  rewrite (bind_ok _ _ _ _ _ Hrun), Hrun. cbn [fst].
  destruct b; cbn [negb].
  - rewrite (bind_ok _ _ _ _ _ (is_superadmin_run _ _ Hh)).
    rewrite Had, Hsa. cbn [negb]. rewrite ret_run. fields.
    destruct (Htrue eq_refl) as [Hbl Hrep].
    rewrite replies_app, sends_app, Hrep, Hse. unfold added_jobs in *.
    rewrite omap_app, Haj. cbn. rewrite !app_nil_r.
    repeat split; assumption.
  - rewrite ret_run. fields. repeat split; try assumption; discriminate.
Qed.

(** A caller without a role entry gets no deletion and no deletion request
    out of deletereminder; when the guard lets the caller through and the
    reminder exists, there is no reply either. *)
Lemma delete_reminder_no_role SUPERADMIN_ID lib u w :
  halt_after w = None ->
  has_entry (id (effective_user u)) (admins w) = false ->
  let r := delete_reminder SUPERADMIN_ID lib u w in
  fst r = Ok tt
  /\ admins (snd r) = admins w
  /\ reminders (snd r) = reminders w
  /\ pending_deletes (snd r) = pending_deletes w
  /\ scheduler (snd r) = scheduler w
  /\ added_jobs (trace (snd r)) = added_jobs (trace w)
  /\ sends (trace (snd r)) = sends (trace w)
  /\ (fst (check_spam u w) = Ok true ->
      blocked (snd r) = blocked w
      /\ forall rid rest o,
           args u = rid :: rest ->
           oid_of_string rid = Some o ->
           existsb (by_id o) (reminders w) = true ->
           replies (trace (snd r)) = replies (trace w)).
Proof.
  intros H Hop r. subst r.
  destruct (check_spam_frame u w H)
    as (b & w' & Hrun & Hh & Had & Hrm & Hpd & Hsc & Hse & Haj & Htrue & Hfalse).
  unfold delete_reminder. rewrite (bind_ok _ _ _ _ _ Hrun), Hrun. cbn [fst].
  destruct b; cbn [negb];
    [|rewrite ret_run; fields; repeat split; try assumption; discriminate].
  destruct (Htrue eq_refl) as [Hbl Hrep]. clear Htrue Hfalse.
  assert (Hadd : forall l, added_jobs l = [] ->
                           added_jobs (trace w' ++ l) = added_jobs (trace w))
    by (intros l Hl; unfold added_jobs in *; rewrite omap_app, Haj, Hl;
        apply app_nil_r).
  unfold try_except, reply_text.
  destruct (args u) as [|rid rest] eqn:Hargs.
  - rewrite (bind_raise _ _ _ _ _ (arg0_missing _ _ Hargs)).
    rewrite io_run by exact Hh. fields. rewrite <- ?app_assoc.
    rewrite sends_app, Hse, Hadd by reflexivity. cbn. rewrite app_nil_r. repeat split; try assumption. discriminate.
  - rewrite (bind_ok _ _ _ _ _ (arg0_run _ _ _ _ Hargs)).
    unfold ObjectId. destruct (oid_of_string rid) as [o|] eqn:Hoid.
    + rewrite (bind_ok _ _ _ _ _ (ret_run _ _)).
      rewrite (bind_ok _ _ _ _ _ (find_one_run _ _ _ _ Hh)). fields.
      rewrite Hrm.
      destruct (List.find (by_id o) (reminders w)) as [rem|] eqn:Hfind;
        cbn [is_some negb].
      * erewrite bind_ok by (apply is_superadmin_run; exact Hh). fields.
        rewrite Had, (no_entry_no_superadmin _ _ Hop).
        erewrite bind_ok by (apply is_admin_or_superadmin_run; exact Hh). fields.
        rewrite Had, Hop. rewrite ret_run. fields.
        rewrite <- ?app_assoc.
        rewrite replies_app, sends_app, Hrep, Hse, Hadd by reflexivity.
        cbn. rewrite !app_nil_r. repeat split; assumption.
      * rewrite io_run by exact Hh. fields. rewrite <- ?app_assoc.
        rewrite sends_app, Hse, Hadd by reflexivity. cbn. rewrite app_nil_r.
        repeat split; try assumption.
        intros rid' rest' o' Hargs' Hoid' Hex. injection Hargs' as <- <-.
        rewrite Hoid in Hoid'. injection Hoid' as <-.
        rewrite <- find_existsb, Hfind in Hex. discriminate.
    + rewrite (bind_raise (raise (InvalidId rid)) _ w' _ w' eq_refl).
      rewrite io_run by exact Hh. fields. rewrite <- ?app_assoc.
      rewrite sends_app, Hse, Hadd by reflexivity. cbn. rewrite app_nil_r.
      repeat split; try assumption. intros; congruence.
Qed.

Lemma approve_delete_silent u w :
  halt_after w = None ->
  has_superadmin_entry (id (effective_user u)) (admins w) = false ->
  let r := approve_delete u w in
  fst r = Ok tt
  /\ admins (snd r) = admins w
  /\ reminders (snd r) = reminders w
  /\ pending_deletes (snd r) = pending_deletes w
  /\ scheduler (snd r) = scheduler w
  /\ added_jobs (trace (snd r)) = added_jobs (trace w)
  /\ sends (trace (snd r)) = sends (trace w)
  /\ (fst (check_spam u w) = Ok true ->
      blocked (snd r) = blocked w
      /\ replies (trace (snd r)) = replies (trace w)).
Proof.
  intros H Hsa. unfold approve_delete.
  apply (superadmin_only_silent (fun u => let! rid := arg 0 u in _) u w H Hsa).
Qed.

Lemma reject_delete_silent u w :
  halt_after w = None ->
  has_superadmin_entry (id (effective_user u)) (admins w) = false ->
  let r := reject_delete u w in
  fst r = Ok tt
  /\ admins (snd r) = admins w
  /\ reminders (snd r) = reminders w
  /\ pending_deletes (snd r) = pending_deletes w
  /\ scheduler (snd r) = scheduler w
  /\ added_jobs (trace (snd r)) = added_jobs (trace w)
  /\ sends (trace (snd r)) = sends (trace w)
  /\ (fst (check_spam u w) = Ok true ->
      blocked (snd r) = blocked w
      /\ replies (trace (snd r)) = replies (trace w)).
Proof.
  intros H Hsa. unfold reject_delete.
  apply (superadmin_only_silent (fun u => let! rid := arg 0 u in _) u w H Hsa).
Qed.

(** C9 (amended).  A caller whose role is insufficient changes nothing:
    approve and reject from a caller who is not the superadmin, and
    deletereminder from a caller without a role entry, return with the role,
    reminder and request collections and the job store unchanged and no
    message sent.  No authorization error is reported: once the guard has let
    the caller through, approve and reject return without any reply and
    leave the block list alone, and so does deletereminder for an existing
    reminder. *)
Theorem insufficient_role_changes_nothing SUPERADMIN_ID lib u w :
  halt_after w = None ->
  (has_superadmin_entry (id (effective_user u)) (admins w) = false ->
   leaves_stores w (approve_delete u w)
   /\ leaves_stores w (reject_delete u w)
   /\ (fst (check_spam u w) = Ok true ->
       blocked (snd (approve_delete u w)) = blocked w
       /\ replies (trace (snd (approve_delete u w))) = replies (trace w)
       /\ blocked (snd (reject_delete u w)) = blocked w
       /\ replies (trace (snd (reject_delete u w))) = replies (trace w)))
  /\ (has_entry (id (effective_user u)) (admins w) = false ->
      leaves_stores w (delete_reminder SUPERADMIN_ID lib u w)
      /\ (fst (check_spam u w) = Ok true ->
          blocked (snd (delete_reminder SUPERADMIN_ID lib u w)) = blocked w
          /\ forall rid rest o,
               args u = rid :: rest ->
               oid_of_string rid = Some o ->
               existsb (by_id o) (reminders w) = true ->
               replies (trace (snd (delete_reminder SUPERADMIN_ID lib u w)))
               = replies (trace w))).
Proof.
  intros H. split.
  - intros Hsa.
    pose proof (approve_delete_silent u w H Hsa) as Ha.
    pose proof (reject_delete_silent u w H Hsa) as Hr.
    cbn zeta in Ha, Hr.
    destruct Ha as (A1 & A2 & A3 & A4 & A5 & A6 & A7 & A8).
    destruct Hr as (R1 & R2 & R3 & R4 & R5 & R6 & R7 & R8).
    unfold leaves_stores.
    split; [repeat split; assumption|]. split; [repeat split; assumption|].
    intros Hg. destruct (A8 Hg). destruct (R8 Hg). repeat split; assumption.
  - intros Hop.
    destruct (delete_reminder_no_role SUPERADMIN_ID lib u w H Hop)
      as (D1 & D2 & D3 & D4 & D5 & D6 & D7 & D8).
    unfold leaves_stores. split; [repeat split; assumption|exact D8].
Qed.

Lemma insufficient_role_changes_nothing_witness :
  let u := Update (User 501 None) [sample_rid] in
  let g := Update (User 900 None) [sample_rid] in
  halt_after busy_world = None
  /\ has_superadmin_entry 501 (admins busy_world) = false
  /\ has_entry 900 (admins busy_world) = false
  /\ leaves_stores busy_world (approve_delete u busy_world)
  /\ leaves_stores busy_world (reject_delete u busy_world)
  /\ leaves_stores busy_world (delete_reminder 500 sample_lib g busy_world).
Proof.
  intros u g.
  destruct (insufficient_role_changes_nothing 500 sample_lib u busy_world eq_refl)
    as [Hu _].
  destruct (insufficient_role_changes_nothing 500 sample_lib g busy_world eq_refl)
    as [_ Hg].
  destruct (Hu eq_refl) as (Ha & Hr & _).
  destruct (Hg eq_refl) as (Hd & _).
  repeat split; try reflexivity; first [apply Ha|apply Hr|apply Hd].
Defined.

(** C9, as stated, fails on the report: an admin who is not the superadmin
    calls approve for a pending request and gets no reply at all, and a
    caller without a role entry who asks to delete an existing reminder gets
    none either. *)
Lemma unauthorized_approve_is_silent :
  let r := approve_delete (Update (User 501 None) [sample_rid]) busy_world in
  let d := delete_reminder 500 sample_lib (Update (User 900 None) [sample_rid])
             busy_world in
  has_superadmin_entry 501 (admins busy_world) = false
  /\ fst r = Ok tt
  /\ trace (snd r) = [EvFind Admins; EvFind Admins]
  /\ replies (trace (snd r)) = []
  /\ has_entry 900 (admins busy_world) = false
  /\ fst d = Ok tt
  /\ replies (trace (snd d)) = [].
Proof. vm_compute. repeat split. Qed.

(** C10.  A caller without a role entry cannot create a reminder: remind
    returns without inserting a record, registering a timer or sending a
    message, and answers with exactly one refusal - "You are not an admin."
    when the guard has let the caller through, else the guard's own
    refusal. *)
Theorem remind_requires_role lib u w :
  halt_after w = None ->
  has_entry (id (effective_user u)) (admins w) = false ->
  let r := remind lib u w in
  leaves_stores w r
  /\ exists m,
       replies (trace (snd r)) = replies (trace w) ++ [m]
       /\ (m = "❌ You are not an admin." \/ m = blocked_text \/ m = spam_text)
       /\ (fst (check_spam u w) = Ok true -> m = "❌ You are not an admin.").
Proof.
  intros H Hop r. subst r.
  destruct (check_spam_frame u w H)
    as (b & w' & Hrun & Hh & Had & Hrm & Hpd & Hsc & Hse & Haj & Htrue & Hfalse).
  unfold remind, leaves_stores. rewrite (bind_ok _ _ _ _ _ Hrun), Hrun. cbn [fst].
  destruct b; cbn [negb].
  - destruct (Htrue eq_refl) as [Hbl Hrep].
    rewrite (bind_ok _ _ _ _ _ (is_admin_or_superadmin_run _ _ Hh)).
    rewrite Had, Hop. cbn [negb]. unfold reply_text.
    rewrite io_run by exact Hh. fields. rewrite <- app_assoc.
    rewrite replies_app, sends_app, Hrep, Hse. unfold added_jobs in *.
    rewrite omap_app, Haj. cbn. rewrite !app_nil_r.
    split; [repeat split; assumption|].
    exists "❌ You are not an admin.". repeat split. left. reflexivity.
  - rewrite ret_run. fields. split; [repeat split; assumption|].
    destruct (Hfalse eq_refl) as (_ & m & Hm & Hcases).
    exists m. split; [exact Hm|]. split; [right; exact Hcases|discriminate].
Qed.

Lemma remind_requires_role_witness :
  let u := Update (User 900 (Some "guest")) ["2025-01-10"; "14:00"; "Submit"; "resume"] in
  halt_after busy_world = None
  /\ has_entry 900 (admins busy_world) = false
  /\ leaves_stores busy_world (remind sample_lib u busy_world)
  /\ replies (trace (snd (remind sample_lib u busy_world)))
     = ["❌ You are not an admin."].
Proof.
  intros u.
  destruct (remind_requires_role sample_lib u busy_world eq_refl eq_refl)
    as (Hl & _).
  repeat split; try reflexivity; apply Hl.
Defined.

(** ** Order of the two deletion steps *)

Lemma hoare_frame {A} (I J : world -> Prop) (m : M A) :
  preserves I m -> (forall w, I w -> J w) -> hoare I m (fun _ => I) J.
Proof.
  intros Hm HJ. eapply hoare_conseq; [exact Hm|auto|auto|exact HJ].
Qed.

Lemma hoare_frame_end {A} (I J : world -> Prop) (m : M A) :
  preserves I m -> (forall w, I w -> J w) -> hoare I m (fun _ => J) J.
Proof.
  intros Hm HJ. eapply hoare_conseq; [exact Hm|auto|intros ?; exact HJ|exact HJ].
Qed.

Lemma hoare_bind_ret {A B} (P I : world -> Prop) (a : A) (k : A -> M B) Q :
  hoare P (k a) Q I -> hoare P (bind (ret a) k) Q I.
Proof. intros H w Hw. exact (H w Hw). Qed.

Lemma hoare_bind_raise {A B} (P I : world -> Prop) e (k : A -> M B) Q :
  (forall w, P w -> I w) -> hoare P (bind (raise e) k) Q I.
Proof. intros H w Hw. cbn. auto. Qed.

Section RecordFirst.
Variables (u : update) (w0 : world).

Lemma stable_untouched : stable (untouched w0).
Proof. split; intros; assumption. Qed.

Lemma stable_record_deleted o : stable (record_deleted w0 o).
Proof. split; intros; assumption. Qed.

Lemma stable_record_first : stable (record_first u w0).
Proof. split; intros; assumption. Qed.

Lemma untouched_record_first w : untouched w0 w -> record_first u w0 w.
Proof. intros [H _]. left. exact H. Qed.

Lemma record_deleted_record_first rid o w :
  nth_error (args u) 0 = Some rid -> oid_of_string rid = Some o ->
  record_deleted w0 o w -> record_first u w0 w.
Proof. intros Hrid Ho H. right. exists rid, o. auto. Qed.

Lemma check_spam_untouched : preserves (untouched w0) (check_spam u).
Proof.
  pose proof stable_untouched as HI. frame HI.
  all: intros w Hw; unfold untouched in *; fields;
       try destruct (List.find _ _); exact Hw.
Qed.

(** [reminders.delete_one] followed by [remove_reminder_jobs] and whatever
    leaves the reminder collection alone: once the deletion call has gone
    through the record is gone, and before that nothing was touched. *)
Lemma delete_then_cancel rid o (rest : M unit) :
  nth_error (args u) 0 = Some rid -> oid_of_string rid = Some o ->
  preserves (record_deleted w0 o) rest ->
  hoare (untouched w0)
        (delete_one Reminders reminders set_reminders (by_id o) >>
         remove_reminder_jobs rid >> rest)
        (fun _ => record_first u w0) (record_first u w0).
Proof.
  intros Hrid Ho Hrest.
  eapply hoare_bind with (Q1 := fun _ => record_deleted w0 o).
  - unfold delete_one.
    eapply hoare_bind with (Q1 := fun _ => untouched w0).
    { apply hoare_io.
      - apply untouched_record_first.
      - intros w h Hw. exact Hw. }
    intros _. eapply hoare_bind with (Q1 := fun _ => untouched w0).
    { apply hoare_gets. auto. }
    intros found. eapply hoare_bind with (Q1 := fun _ => record_deleted w0 o).
    { apply hoare_modify. intros w [_ Hw]. unfold record_deleted. fields.
      rewrite Hw. reflexivity. }
    intros _. apply hoare_ret. auto.
  - intros _.
    apply hoare_frame_end;
      [|intros w Hw; exact (record_deleted_record_first rid o w Hrid Ho Hw)].
    apply preserves_bind; [|intros _; exact Hrest].
    pose proof (stable_record_deleted o) as HI. frame HI.
    intros w Hw. exact Hw.
Qed.

Lemma delete_reminder_record_first SUPERADMIN_ID lib :
  hoare (untouched w0) (delete_reminder SUPERADMIN_ID lib u)
        (fun _ => record_first u w0) (record_first u w0).
Proof.
  pose proof stable_untouched as HU. pose proof stable_record_first as HF.
  unfold delete_reminder.
  eapply hoare_bind with (Q1 := fun _ => untouched w0).
  { apply hoare_frame; [apply check_spam_untouched|apply untouched_record_first]. }
  intros [|]; cbn [negb]; [|apply hoare_ret; apply untouched_record_first].
  apply hoare_try; [|intros e; unfold reply_text; apply (preserves_io _ HF)].
  unfold arg. destruct (nth_error (args u) 0) as [rid|] eqn:Hrid;
    [apply hoare_bind_ret|apply hoare_bind_raise; apply untouched_record_first].
  unfold ObjectId. destruct (oid_of_string rid) as [o|] eqn:Ho;
    [apply hoare_bind_ret|apply hoare_bind_raise; apply untouched_record_first].
  eapply hoare_bind with (Q1 := fun _ => untouched w0).
  { apply hoare_frame; [frame HU|apply untouched_record_first]. }
  intros reminder. destruct (negb (is_some reminder)).
  { apply hoare_frame_end; [frame HU|apply untouched_record_first]. }
  eapply hoare_bind with (Q1 := fun _ => untouched w0).
  { apply hoare_frame; [frame HU|apply untouched_record_first]. }
  intros [|].
  - apply (delete_then_cancel rid o); [exact Hrid|exact Ho|].
    pose proof (stable_record_deleted o) as HI. frame HI.
  - apply hoare_frame_end; [|apply untouched_record_first].
    frame HU. intros w Hw. unfold untouched in *. fields.
    destruct (List.find _ _); exact Hw.
Qed.

Lemma approve_delete_record_first :
  hoare (untouched w0) (approve_delete u)
        (fun _ => record_first u w0) (record_first u w0).
Proof.
  pose proof stable_untouched as HU. pose proof stable_record_first as HF.
  unfold approve_delete.
  eapply hoare_bind with (Q1 := fun _ => untouched w0).
  { apply hoare_frame; [apply check_spam_untouched|apply untouched_record_first]. }
  intros [|]; cbn [negb]; [|apply hoare_ret; apply untouched_record_first].
  eapply hoare_bind with (Q1 := fun _ => untouched w0).
  { apply hoare_frame; [frame HU|apply untouched_record_first]. }
  intros [|]; cbn [negb]; [|apply hoare_ret; apply untouched_record_first].
  unfold arg. destruct (nth_error (args u) 0) as [rid|] eqn:Hrid;
    [apply hoare_bind_ret|apply hoare_bind_raise; apply untouched_record_first].
  eapply hoare_bind with (Q1 := fun _ => untouched w0).
  { apply hoare_frame; [frame HU|apply untouched_record_first]. }
  intros [req|].
  - unfold ObjectId. destruct (oid_of_string rid) as [o|] eqn:Ho;
      [apply hoare_bind_ret|apply hoare_bind_raise; apply untouched_record_first].
    apply (delete_then_cancel rid o); [exact Hrid|exact Ho|].
    pose proof (stable_record_deleted o) as HI. frame HI.
    intros w Hw. exact Hw.
  - apply hoare_frame_end; [frame HU|apply untouched_record_first].
Qed.
End RecordFirst.

(** *** Both steps, and the state between them *)

Lemma printed_oid_parses rid : printed_oid rid = true -> oid_of_string rid = Some rid.
Proof.
  unfold printed_oid. destruct (oid_of_string rid) as [o|]; [|discriminate].
  intros E. apply String.eqb_eq in E. rewrite E. reflexivity.
Qed.

Lemma io_run_budget e w n :
  halt_after w = Some (S n) ->
  io e w = (Ok tt, set_halt_after (Some n) (set_trace (trace w ++ [e]) w)).
Proof. intros H. unfold io. rewrite H. reflexivity. Qed.

Lemma io_halted e w : halt_after w = Some O -> io e w = (Halted, w).
Proof. intros H. unfold io. rewrite H. reflexivity. Qed.

Lemma try_halted {A} (m : M A) h w w' :
  m w = (Halted, w') -> try_except m h w = (Halted, w').
Proof. intros H. unfold try_except. rewrite H. reflexivity. Qed.

Lemma find_one_run_budget {D} c (get : world -> list D) f w n :
  halt_after w = Some (S n) ->
  find_one c get f w
  = (Ok (List.find f (get (set_halt_after (Some n)
                             (set_trace (trace w ++ [EvFind c]) w)))),
     set_halt_after (Some n) (set_trace (trace w ++ [EvFind c]) w)).
Proof.
  intros H. unfold find_one. rewrite (bind_ok _ _ _ _ _ (io_run_budget _ _ _ H)).
  reflexivity.
Qed.

(** The superadmin's deletereminder for a stored reminder, run to its end. *)
Lemma delete_reminder_direct_full SUPERADMIN_ID lib u w rid rest o :
  halt_after w = None ->
  has_superadmin_entry (id (effective_user u)) (admins w) = true ->
  args u = rid :: rest ->
  oid_of_string rid = Some o ->
  existsb (by_id o) (reminders w) = true ->
  let r := delete_reminder SUPERADMIN_ID lib u w in
  fst r = Ok tt
  /\ record_deleted w o (snd r)
  /\ (forall k, scheduler (snd r) !! k
                = if String.prefix (rid +:+ "_") k then None else scheduler w !! k)
  /\ trace (snd r)
     = trace w
       ++ [EvFind Admins; EvFind Reminders; EvFind Admins; EvDelete Reminders;
           EvGetJobs]
       ++ List.map EvRemoveJob (jobs_of rid (scheduler w))
       ++ [EvReply ("✅ Reminder " +:+ rid +:+ " deleted.") None].
Proof.
  intros H Hsa Hargs Hoid Hex r. subst r.
  pose proof (superadmin_has_entry _ _ Hsa) as Hop.
  unfold delete_reminder.
  rewrite (bind_ok _ _ _ _ _ (check_spam_operator _ _ H Hop)). cbn [negb].
  erewrite try_ok.
  2:{ rewrite (bind_ok _ _ _ _ _ (arg0_run _ _ _ _ Hargs)).
      unfold ObjectId. rewrite Hoid. rewrite (bind_ok _ _ _ _ _ (ret_run _ _)).
      erewrite bind_ok by (apply find_one_run; exact H). fields.
      pose proof (find_existsb (by_id o) (reminders w)) as Hfe. rewrite Hex in Hfe.
      rewrite Hfe. cbn [negb].
      erewrite bind_ok by (apply is_superadmin_run; exact H). fields.
      rewrite Hsa.
      rewrite ?bind_assoc.
      erewrite bind_ok by (apply delete_one_run; exact H). fields.
      erewrite bind_ok by (apply remove_reminder_jobs_run; exact H).
      unfold reply_text.
      rewrite io_run
        by (fields; rewrite (proj1 (cancelled_frame _ _)); exact H).
      reflexivity. }
  match goal with |- context [cancelled rid ?w1] =>
    pose proof (cancelled_frame rid w1) as Hc;
    pose proof (cancelled_scheduler rid w1) as Hs
  end.
  cbn zeta in Hc. destruct Hc as (C1 & C2 & C3 & C4 & C5 & C6 & C7).
  unfold record_deleted. fields. rewrite C3, C7. fields.
  split; [reflexivity|]. split; [reflexivity|]. split; [exact Hs|].
  rewrite <- !app_assoc. reflexivity.
Qed.

(** The approval of a pending request, run to its end. *)
Lemma approve_delete_full u w rid rest req o :
  halt_after w = None ->
  has_superadmin_entry (id (effective_user u)) (admins w) = true ->
  args u = rid :: rest ->
  List.find (by_rid rid) (pending_deletes w) = Some req ->
  oid_of_string rid = Some o ->
  let r := approve_delete u w in
  fst r = Ok tt
  /\ record_deleted w o (snd r)
  /\ (forall k, scheduler (snd r) !! k
                = if String.prefix (rid +:+ "_") k then None else scheduler w !! k)
  /\ trace (snd r)
     = trace w
       ++ [EvFind Admins; EvFind Admins; EvFind PendingDeletes; EvDelete Reminders;
           EvGetJobs]
       ++ List.map EvRemoveJob (jobs_of rid (scheduler w))
       ++ [EvDelete PendingDeletes;
           EvReply ("✅ Reminder " +:+ rid +:+ " deleted after approval.") None;
           EvSend (Chat (p_requested_by req))
                  ("✅ Your deletion request for " +:+ rid +:+ " was approved.") None].
Proof.
  intros H Hsa Hargs Hreq Hoid r. subst r. unfold approve_delete.
  rewrite (bind_ok _ _ _ _ _ (check_spam_operator _ _ H (superadmin_has_entry _ _ Hsa))).
  cbn [negb].
  erewrite bind_ok by (apply is_superadmin_run; exact H). fields.
  rewrite Hsa. cbn [negb].
  rewrite (bind_ok _ _ _ _ _ (arg0_run _ _ _ _ Hargs)).
  erewrite bind_ok by (apply find_one_run; exact H). fields.
  rewrite Hreq.
  unfold ObjectId. rewrite Hoid. rewrite (bind_ok _ _ _ _ _ (ret_run _ _)).
  erewrite bind_ok by (apply delete_one_run; exact H). fields.
  erewrite bind_ok by (apply remove_reminder_jobs_run; exact H).
  erewrite bind_ok
    by (apply delete_one_run; rewrite (proj1 (cancelled_frame _ _)); exact H).
  unfold reply_text, send_message.
  erewrite bind_ok
    by (apply io_run; fields; rewrite (proj1 (cancelled_frame _ _)); exact H).
  rewrite io_run
    by (fields; rewrite (proj1 (cancelled_frame _ _)); exact H).
  match goal with |- context [cancelled rid ?w1] =>
    pose proof (cancelled_frame rid w1) as Hc;
    pose proof (cancelled_scheduler rid w1) as Hs
  end.
  cbn zeta in Hc. destruct Hc as (C1 & C2 & C3 & C4 & C5 & C6 & C7).
  unfold record_deleted. fields. rewrite C3, C7. fields.
  split; [reflexivity|]. split; [reflexivity|]. split; [exact Hs|].
  rewrite <- !app_assoc. reflexivity.
Qed.

(** Cut short between the two steps: the record is gone, no job is. *)
Lemma delete_reminder_cut SUPERADMIN_ID lib u w rid rest o :
  has_superadmin_entry (id (effective_user u)) (admins w) = true ->
  args u = rid :: rest ->
  oid_of_string rid = Some o ->
  existsb (by_id o) (reminders w) = true ->
  let r := delete_reminder SUPERADMIN_ID lib u (set_halt_after (Some 4%nat) w) in
  fst r = Halted
  /\ record_deleted w o (snd r)
  /\ scheduler (snd r) = scheduler w.
Proof.
  intros Hsa Hargs Hoid Hex r. subst r.
  pose proof (superadmin_has_entry _ _ Hsa) as Hop.
  unfold delete_reminder, check_spam, is_admin_or_superadmin.
  rewrite ?bind_assoc.
  erewrite bind_ok by (apply find_one_run_budget; reflexivity). fields.
  rewrite (bind_ok _ _ _ _ _ (ret_run _ _)).
  rewrite find_existsb. fold (has_entry (id (effective_user u)) (admins w)).
  rewrite Hop. rewrite (bind_ok _ _ _ _ _ (ret_run _ _)). cbn [negb].
  erewrite try_halted.
  2:{
    rewrite (bind_ok _ _ _ _ _ (arg0_run _ _ _ _ Hargs)).
    unfold ObjectId. rewrite Hoid. rewrite (bind_ok _ _ _ _ _ (ret_run _ _)).
    erewrite bind_ok by (apply find_one_run_budget; reflexivity). fields.
    pose proof (find_existsb (by_id o) (reminders w)) as Hfe. rewrite Hex in Hfe.
    rewrite Hfe. cbn [negb].
    unfold is_superadmin. rewrite ?bind_assoc.
    erewrite bind_ok by (apply find_one_run_budget; reflexivity). fields.
    rewrite (bind_ok _ _ _ _ _ (ret_run _ _)).
    rewrite find_existsb.
    fold (has_superadmin_entry (id (effective_user u)) (admins w)). rewrite Hsa.
    unfold delete_one. rewrite ?bind_assoc.
    erewrite bind_ok by (apply io_run_budget; reflexivity).
    rewrite ?bind_assoc. rewrite (bind_ok _ _ _ _ _ (gets_run _ _)).
    rewrite ?bind_assoc. rewrite (bind_ok _ _ _ _ _ (modify_run _ _)).
    rewrite ?bind_assoc. rewrite (bind_ok _ _ _ _ _ (ret_run _ _)). fields.
    unfold remove_reminder_jobs, get_jobs. rewrite ?bind_assoc.
    erewrite bind_halted by (apply io_halted; reflexivity).
    reflexivity.
  }
  repeat split; reflexivity.
Qed.

Lemma approve_delete_cut u w rid rest req o :
  has_superadmin_entry (id (effective_user u)) (admins w) = true ->
  args u = rid :: rest ->
  List.find (by_rid rid) (pending_deletes w) = Some req ->
  oid_of_string rid = Some o ->
  let r := approve_delete u (set_halt_after (Some 4%nat) w) in
  fst r = Halted
  /\ record_deleted w o (snd r)
  /\ scheduler (snd r) = scheduler w.
Proof.
  intros Hsa Hargs Hreq Hoid r. subst r.
  pose proof (superadmin_has_entry _ _ Hsa) as Hop.
  unfold approve_delete, check_spam, is_admin_or_superadmin.
  rewrite ?bind_assoc.
  erewrite bind_ok by (apply find_one_run_budget; reflexivity). fields.
  rewrite (bind_ok _ _ _ _ _ (ret_run _ _)).
  rewrite find_existsb. fold (has_entry (id (effective_user u)) (admins w)).
  rewrite Hop. rewrite (bind_ok _ _ _ _ _ (ret_run _ _)). cbn [negb].
  unfold is_superadmin. rewrite ?bind_assoc.
  erewrite bind_ok by (apply find_one_run_budget; reflexivity). fields.
  rewrite (bind_ok _ _ _ _ _ (ret_run _ _)).
  rewrite find_existsb.
  fold (has_superadmin_entry (id (effective_user u)) (admins w)). rewrite Hsa.
  cbn [negb].
  rewrite (bind_ok _ _ _ _ _ (arg0_run _ _ _ _ Hargs)).
  erewrite bind_ok by (apply find_one_run_budget; reflexivity). fields.
  rewrite Hreq.
  unfold ObjectId. rewrite Hoid. rewrite (bind_ok _ _ _ _ _ (ret_run _ _)).
  unfold delete_one. rewrite ?bind_assoc.
  erewrite bind_ok by (apply io_run_budget; reflexivity).
  rewrite ?bind_assoc. rewrite (bind_ok _ _ _ _ _ (gets_run _ _)).
  rewrite ?bind_assoc. rewrite (bind_ok _ _ _ _ _ (modify_run _ _)).
  rewrite ?bind_assoc. rewrite (bind_ok _ _ _ _ _ (ret_run _ _)). fields.
  unfold remove_reminder_jobs, get_jobs. rewrite ?bind_assoc.
  erewrite bind_halted by (apply io_halted; reflexivity).
  repeat split; reflexivity.
Qed.

(** C2 (amended).  In both deletion paths - the superadmin's deletereminder
    and the approval of a pending request - the reminder record is deleted
    first and the timers are cancelled afterwards.  Wherever the run is cut
    short, and whoever calls, either no job has been touched or the record
    has already been deleted; so, ids being unique in the collection, as long
    as the record is in the store every one of its timers is still
    scheduled.  For the superadmin and an id in the form the bot prints it,
    a run to the end deletes the record and then cancels every timer of the
    reminder and no other job, in this order of outside calls; a run cut
    short between the two steps has deleted the record and left every job
    in place: live timers without a record. *)
Theorem record_deleted_before_timers SUPERADMIN_ID lib u w h :
  let d := delete_reminder SUPERADMIN_ID lib u (set_halt_after h w) in
  let a := approve_delete u (set_halt_after h w) in
  record_first u w (snd d)
  /\ record_first u w (snd a)
  /\ (NoDup (List.map r_id (reminders w)) ->
      forall rid o,
        nth_error (args u) 0 = Some rid ->
        oid_of_string rid = Some o ->
        (existsb (by_id o) (reminders (snd d)) = true ->
         scheduler (snd d) = scheduler w)
        /\ (existsb (by_id o) (reminders (snd a)) = true ->
            scheduler (snd a) = scheduler w))
  /\ (has_superadmin_entry (id (effective_user u)) (admins w) = true ->
      forall rid rest,
        args u = rid :: rest ->
        printed_oid rid = true ->
        let full_d := delete_reminder SUPERADMIN_ID lib u (set_halt_after None w) in
        let cut_d :=
          delete_reminder SUPERADMIN_ID lib u (set_halt_after (Some 4%nat) w) in
        let full_a := approve_delete u (set_halt_after None w) in
        let cut_a := approve_delete u (set_halt_after (Some 4%nat) w) in
        (existsb (by_id rid) (reminders w) = true ->
         (fst full_d = Ok tt
          /\ record_deleted w rid (snd full_d)
          /\ (forall i, scheduler (snd full_d) !! job_id_of rid i = None)
          /\ (forall k, scheduler (snd full_d) !! k
                        = if String.prefix (rid +:+ "_") k then None
                          else scheduler w !! k)
          /\ trace (snd full_d)
             = trace w
               ++ [EvFind Admins; EvFind Reminders; EvFind Admins;
                   EvDelete Reminders; EvGetJobs]
               ++ List.map EvRemoveJob (jobs_of rid (scheduler w))
               ++ [EvReply ("✅ Reminder " +:+ rid +:+ " deleted.") None])
         /\ (fst cut_d = Halted
             /\ record_deleted w rid (snd cut_d)
             /\ scheduler (snd cut_d) = scheduler w))
        /\ (forall req,
            List.find (by_rid rid) (pending_deletes w) = Some req ->
            (fst full_a = Ok tt
             /\ record_deleted w rid (snd full_a)
             /\ (forall i, scheduler (snd full_a) !! job_id_of rid i = None)
             /\ (forall k, scheduler (snd full_a) !! k
                           = if String.prefix (rid +:+ "_") k then None
                             else scheduler w !! k)
             /\ trace (snd full_a)
                = trace w
                  ++ [EvFind Admins; EvFind Admins; EvFind PendingDeletes;
                      EvDelete Reminders; EvGetJobs]
                  ++ List.map EvRemoveJob (jobs_of rid (scheduler w))
                  ++ [EvDelete PendingDeletes;
                      EvReply ("✅ Reminder " +:+ rid +:+ " deleted after approval.")
                              None;
                      EvSend (Chat (p_requested_by req))
                             ("✅ Your deletion request for " +:+ rid +:+
                              " was approved.") None])
            /\ (fst cut_a = Halted
                /\ record_deleted w rid (snd cut_a)
                /\ scheduler (snd cut_a) = scheduler w))).
Proof.
  intros d a.
  assert (Hd : record_first u w (snd d)).
  { pose proof (delete_reminder_record_first u (set_halt_after h w)
                  SUPERADMIN_ID lib (set_halt_after h w) (conj eq_refl eq_refl)) as H.
    fold d in H. destruct d as [[[]|e|] w']; exact H. }
  assert (Ha : record_first u w (snd a)).
  { pose proof (approve_delete_record_first u (set_halt_after h w)
                  (set_halt_after h w) (conj eq_refl eq_refl)) as H.
    fold a in H. destruct a as [[[]|e|] w']; exact H. }
  split; [exact Hd|]. split; [exact Ha|].
  split.
  { intros Hnd rid o Hrid Ho.
  assert (Hgone : forall w', record_first u w w' ->
            existsb (by_id o) (reminders w') = true -> scheduler w' = scheduler w).
  { intros w' [Hs|(rid' & o' & Hrid' & Ho' & Hrm)] Hex; [exact Hs|].
    rewrite Hrid in Hrid'. injection Hrid' as <-.
    rewrite Ho in Ho'. injection Ho' as <-.
    rewrite Hrm in Hex. unfold by_id in Hex.
    rewrite <- find_existsb, (find_delete_first_unique r_id o _ Hnd) in Hex.
    discriminate. }
  split; apply Hgone; assumption. }
  intros Hsa rid rest Hargs Hprinted full_d cut_d full_a cut_a.
  pose proof (printed_oid_parses rid Hprinted) as Hoid.
  split.
  - intros Hex. split.
    + destruct (delete_reminder_direct_full SUPERADMIN_ID lib u (set_halt_after None w)
                  rid rest rid eq_refl Hsa Hargs Hoid Hex) as (F1 & F2 & F3 & F4).
      split; [exact F1|]. split; [exact F2|].
      split; [intros i; rewrite F3, prefix_job_id_of; reflexivity|].
      split; [exact F3|exact F4].
    + exact (delete_reminder_cut SUPERADMIN_ID lib u w rid rest rid Hsa Hargs Hoid Hex).
  - intros req Hreq. split.
    + destruct (approve_delete_full u (set_halt_after None w) rid rest req rid
                  eq_refl Hsa Hargs Hreq Hoid) as (F1 & F2 & F3 & F4).
      split; [exact F1|]. split; [exact F2|].
      split; [intros i; rewrite F3, prefix_job_id_of; reflexivity|].
      split; [exact F3|exact F4].
    + exact (approve_delete_cut u w rid rest req rid Hsa Hargs Hreq Hoid).
Qed.

Lemma record_deleted_before_timers_witness :
  let u := Update (User 500 None) [sample_rid] in
  let d := delete_reminder 500 sample_lib u (set_halt_after (Some 3%nat) busy_world) in
  let full := delete_reminder 500 sample_lib u (set_halt_after None busy_world) in
  NoDup (List.map r_id (reminders busy_world))
  /\ oid_of_string sample_rid = Some sample_rid
  /\ existsb (by_id sample_rid) (reminders (snd d)) = true
  /\ scheduler (snd d) = scheduler busy_world
  /\ has_superadmin_entry 500 (admins busy_world) = true
  /\ printed_oid sample_rid = true
  /\ existsb (by_id sample_rid) (reminders busy_world) = true
  /\ reminders (snd full) = []
  /\ (forall i, scheduler (snd full) !! job_id_of sample_rid i = None).
Proof.
  intros u d full.
  assert (Hnd : NoDup (List.map r_id (reminders busy_world))).
  { cbn. apply NoDup_cons. split; [apply not_elem_of_nil|apply NoDup_nil_2]. }
  destruct (record_deleted_before_timers 500 sample_lib u busy_world (Some 3%nat))
    as (_ & _ & H & Hfull).
  destruct (H Hnd sample_rid sample_rid eq_refl eq_refl) as [Hd _].
  destruct (Hfull eq_refl sample_rid [] eq_refl eq_refl) as [Hdirect _].
  destruct (Hdirect eq_refl) as ((_ & Hrec & Hjobs & _) & _).
  split; [exact Hnd|]. split; [reflexivity|]. split; [reflexivity|].
  split; [apply Hd; reflexivity|].
  split; [reflexivity|]. split; [reflexivity|]. split; [reflexivity|].
  split; [exact Hrec|exact Hjobs].
Defined.

(** C2, as stated, fails in both paths: cut short right after the fourth
    outside call, the superadmin's deletereminder and approve have deleted
    the record while all five timers are still scheduled; and a full run
    issues the record deletion before the first job removal. *)
Lemma timers_outlive_the_record :
  let u := Update (User 500 None) [sample_rid] in
  let d := delete_reminder 500 sample_lib u (set_halt_after (Some 4%nat) busy_world) in
  let a := approve_delete u (set_halt_after (Some 4%nat) busy_world) in
  let full := delete_reminder 500 sample_lib u busy_world in
  fst d = Halted
  /\ reminders (snd d) = []
  /\ List.map (fun i => is_some (scheduler (snd d) !! job_id_of sample_rid i))
              [0; 1; 2; 3; 4]%nat = [true; true; true; true; true]
  /\ fst a = Halted
  /\ reminders (snd a) = []
  /\ List.map (fun i => is_some (scheduler (snd a) !! job_id_of sample_rid i))
              [0; 1; 2; 3; 4]%nat = [true; true; true; true; true]
  /\ fst full = Ok tt
  /\ List.filter (fun e => match e with
                           | EvDelete Reminders | EvRemoveJob _ => true
                           | _ => false
                           end) (trace (snd full))
     = EvDelete Reminders
       :: List.map EvRemoveJob (jobs_of sample_rid (scheduler busy_world)).
Proof. vm_compute. repeat split. Qed.

(** * Further properties of the handlers *)

(** ** Blocked callers *)

Lemma dispatch_blocked SUPERADMIN_ID lib c u w :
  c <> CmdPing ->
  halt_after w = None ->
  has_entry (id (effective_user u)) (admins w) = false ->
  blocked_entry (id (effective_user u)) (blocked w) = true ->
  dispatch SUPERADMIN_ID lib c u w
  = (Ok tt, set_trace (trace w ++ blocked_calls) w).
Proof.
  intros Hc H Hop Hbl.
  destruct c; try contradiction; cbn [dispatch];
    unfold start, add_admin, remove_admin, list_admins, unblock_cmd,
      list_blocked, broadcast, remind, list_reminders, delete_reminder,
      approve_delete, reject_delete;
    rewrite (bind_ok _ _ _ _ _ (check_spam_blocked _ _ H Hop Hbl));
    reflexivity.
Qed.

(** X1.  A caller who sits in the block list and holds no role entry gets the
    blocked reply from every command but ping, however often it asks, and
    nothing else happens: no collection, no job and not even the caller's
    request history changes. *)
Theorem blocked_caller_only_refused SUPERADMIN_ID lib c u w n :
  c <> CmdPing ->
  halt_after w = None ->
  has_entry (id (effective_user u)) (admins w) = false ->
  blocked_entry (id (effective_user u)) (blocked w) = true ->
  repeat_call n (dispatch SUPERADMIN_ID lib c u) w
  = (Ok (List.repeat tt n),
     set_trace (trace w ++ List.concat (List.repeat blocked_calls n)) w).
Proof.
  intros Hc H Hop Hbl. revert w H Hop Hbl.
  induction n as [|n IH]; intros w H Hop Hbl.
  - cbn. rewrite app_nil_r. destruct w; reflexivity.
  - cbn [repeat_call].
    rewrite (bind_ok _ _ _ _ _ (dispatch_blocked _ _ _ _ _ Hc H Hop Hbl)).
    erewrite bind_ok by (apply IH; [exact H|exact Hop|exact Hbl]).
    unfold ret. fields. cbn [List.repeat List.concat].
    rewrite <- app_assoc. reflexivity.
Qed.

Lemma blocked_caller_only_refused_witness :
  let u := Update (User 777 None) ["2025-01-10"; "14:00"; "Submit"; "resume"] in
  let r := repeat_call 3 (dispatch 500 sample_lib CmdRemind u) busy_world in
  CmdRemind <> CmdPing
  /\ halt_after busy_world = None
  /\ has_entry 777 (admins busy_world) = false
  /\ blocked_entry 777 (blocked busy_world) = true
  /\ reminders (snd r) = reminders busy_world
  /\ replies (trace (snd r)) = [blocked_text; blocked_text; blocked_text].
Proof.
  intros u r.
  assert (Hc : CmdRemind <> CmdPing) by discriminate.
  pose proof (blocked_caller_only_refused 500 sample_lib CmdRemind u busy_world 3
                Hc eq_refl eq_refl eq_refl) as H.
  fold r in H. rewrite H.
  repeat split; first [assumption|reflexivity].
Defined.

(** ** Commands of the superadmin, called by someone else *)

Lemma superadmin_only_refusal (msg : string) (rest : update -> M unit) u w :
  halt_after w = None ->
  has_superadmin_entry (id (effective_user u)) (admins w) = false ->
  let r := (let! ok := check_spam u in
            if negb ok then ret tt else
            let! sa := is_superadmin (id (effective_user u)) in
            if negb sa then reply_text msg None else rest u) w in
  leaves_stores w r
  /\ (fst (check_spam u w) = Ok true ->
      blocked (snd r) = blocked w
      /\ replies (trace (snd r)) = replies (trace w) ++ [msg])
  /\ (fst (check_spam u w) = Ok false ->
      exists m, replies (trace (snd r)) = replies (trace w) ++ [m]
                /\ (m = blocked_text \/ m = spam_text)).
Proof.
  intros H Hsa r. subst r. unfold leaves_stores.
  destruct (check_spam_frame u w H)
    as (b & w' & Hrun & Hh & Had & Hrm & Hpd & Hsc & Hse & Haj & Htrue & Hfalse).
  rewrite (bind_ok _ _ _ _ _ Hrun), Hrun. cbn [fst].
  destruct b; cbn [negb].
  - rewrite (bind_ok _ _ _ _ _ (is_superadmin_run _ _ Hh)).
    rewrite Had, Hsa. cbn [negb]. unfold reply_text.
    rewrite io_run by exact Hh. fields.
    destruct (Htrue eq_refl) as [Hbl Hrep].
    rewrite <- app_assoc, replies_app, sends_app, Hrep, Hse. unfold added_jobs in *.
    rewrite omap_app, Haj. cbn. rewrite !app_nil_r.
    split; [repeat split; assumption|]. split; [|discriminate].
    intros _. split; [assumption|reflexivity].
  - rewrite ret_run. fields. split; [repeat split; assumption|].
    split; [discriminate|]. intros _. apply (Hfalse eq_refl).
Qed.

(** X2.  addadmin, removeadmin, listadmins, unblock, listblocked and
    broadcast from a caller who is not the superadmin change nothing and send
    nothing; once the guard has let the caller through, the only thing that
    happens is the reply that the command is for the superadmin. *)
Theorem superadmin_commands_refuse_others SUPERADMIN_ID lib c msg u w :
  superadmin_only c = Some msg ->
  halt_after w = None ->
  has_superadmin_entry (id (effective_user u)) (admins w) = false ->
  let r := dispatch SUPERADMIN_ID lib c u w in
  leaves_stores w r
  /\ (fst (check_spam u w) = Ok true ->
      blocked (snd r) = blocked w
      /\ replies (trace (snd r)) = replies (trace w) ++ [msg])
  /\ (fst (check_spam u w) = Ok false ->
      exists m, replies (trace (snd r)) = replies (trace w) ++ [m]
                /\ (m = blocked_text \/ m = spam_text)).
Proof.
  intros Hc H Hsa.
  destruct c; cbn in Hc; try discriminate; injection Hc as <-; cbn [dispatch];
    unfold add_admin, remove_admin, list_admins, unblock_cmd, list_blocked,
      broadcast.
  - apply (superadmin_only_refusal _ (fun u => try_except (A:=unit) _ _) u w H Hsa).
  - apply (superadmin_only_refusal _ (fun u => try_except (A:=unit) _ _) u w H Hsa).
  - apply (superadmin_only_refusal _ (fun u => bind (A:=list admin_doc) (B:=unit) _ _) u w H Hsa).
  - apply (superadmin_only_refusal _ (fun u => if String.eqb _ _ then _ else _) u w H Hsa).
  - apply (superadmin_only_refusal _ (fun u => try_except (A:=unit) _ _) u w H Hsa).
  - apply (superadmin_only_refusal _ (fun u => bind (A:=list blocked_doc) (B:=unit) _ _) u w H Hsa).
Qed.

Lemma superadmin_commands_refuse_others_witness :
  let u := Update (User 501 None) ["777"] in
  let r := dispatch 500 sample_lib CmdUnblock u busy_world in
  superadmin_only CmdUnblock = Some "❌ Only superadmin can unblock users."
  /\ halt_after busy_world = None
  /\ has_superadmin_entry 501 (admins busy_world) = false
  /\ blocked (snd r) = blocked busy_world
  /\ replies (trace (snd r)) = ["❌ Only superadmin can unblock users."].
Proof.
  intros u r.
  destruct (superadmin_commands_refuse_others 500 sample_lib CmdUnblock _ u
              busy_world eq_refl eq_refl eq_refl) as (_ & Ht & _).
  destruct (Ht eq_refl) as [Hb Hr].
  repeat split; first [assumption|reflexivity].
Defined.

(** ** Commands that only read *)

Lemma stable_stores A R P S :
  stable (fun w => admins w = A /\ reminders w = R
                   /\ pending_deletes w = P /\ scheduler w = S).
Proof. split; intros; assumption. Qed.

(** X3.  start, ping, listreminders, listadmins, listblocked and broadcast
    never change the role, reminder or request collection or the job store,
    whoever calls them, with whatever arguments and wherever the run is cut
    short. *)
Theorem read_only_commands_keep_stores SUPERADMIN_ID lib c u w :
  read_only c = true ->
  let r := dispatch SUPERADMIN_ID lib c u w in
  admins (snd r) = admins w
  /\ reminders (snd r) = reminders w
  /\ pending_deletes (snd r) = pending_deletes w
  /\ scheduler (snd r) = scheduler w.
Proof.
  intros Hc r. subst r.
  assert (Hp : preserves (fun w' => admins w' = admins w /\ reminders w' = reminders w
                            /\ pending_deletes w' = pending_deletes w
                            /\ scheduler w' = scheduler w)
                 (dispatch SUPERADMIN_ID lib c u)).
  { pose proof (stable_stores (admins w) (reminders w) (pending_deletes w)
                  (scheduler w)) as HI.
    destruct c; try discriminate; frame HI;
      intros w' Hw'; fields; try destruct (List.find _ _); exact Hw'. }
  specialize (Hp w (conj eq_refl (conj eq_refl (conj eq_refl eq_refl)))).
  destruct (dispatch _ _ _ _ _) as [[[]|e|] w']; exact Hp.
Qed.

Lemma read_only_commands_keep_stores_witness :
  let r := dispatch 500 sample_lib CmdListReminders (Update (User 900 None) [])
             (set_halt_after (Some 2%nat) busy_world) in
  read_only CmdListReminders = true
  /\ reminders (snd r) = reminders busy_world
  /\ scheduler (snd r) = scheduler busy_world.
Proof.
  intros r.
  destruct (read_only_commands_keep_stores 500 sample_lib CmdListReminders
              (Update (User 900 None) []) (set_halt_after (Some 2%nat) busy_world)
              eq_refl) as (_ & Hr & _ & Hs).
  split; [reflexivity|]. split; [exact Hr|exact Hs].
Defined.

(** ** Managing admins and blocks *)

Lemma parsed_int_ok lib u n w (k : Z -> M unit) :
  parsed_int_arg lib u = inr n ->
  (let! user_id := int_arg0 lib u in bson_int user_id >> k user_id) w = k n w.
Proof.
  unfold parsed_int_arg, int_arg0, arg, bson_int, bind, ret, raise. intros H.
  destruct (args u) as [|s rest]; [discriminate|]. cbn [nth_error].
  destruct (py_int lib s) as [m|]; [|discriminate].
  destruct ((- 2 ^ 63 <=? m) && (m <? 2 ^ 63)); [|discriminate].
  injection H as <-. destruct (k m w) as [[a|e|] w']; reflexivity.
Qed.

Lemma parsed_int_bad lib u e w (k : Z -> M unit) :
  parsed_int_arg lib u = inl e ->
  (let! user_id := int_arg0 lib u in bson_int user_id >> k user_id) w
  = (Raise e, w).
Proof.
  unfold parsed_int_arg, int_arg0, arg, bson_int, bind, ret, raise. intros H.
  destruct (args u) as [|s rest]; cbn [nth_error].
  - injection H as <-. reflexivity.
  - destruct (py_int lib s) as [m|].
    + destruct ((- 2 ^ 63 <=? m) && (m <? 2 ^ 63)); [discriminate|].
      injection H as <-. reflexivity.
    + injection H as <-. reflexivity.
Qed.

(** The superadmin has passed the guard and the role check. *)
Lemma superadmin_enters (rest : update -> M unit) (msg : string) u w :
  halt_after w = None ->
  has_superadmin_entry (id (effective_user u)) (admins w) = true ->
  (let! ok := check_spam u in
   if negb ok then ret tt else
   let! sa := is_superadmin (id (effective_user u)) in
   if negb sa then reply_text msg None else rest u) w
  = rest u (set_trace (trace w ++ [EvFind Admins; EvFind Admins]) w).
Proof.
  intros H Hsa.
  rewrite (bind_ok _ _ _ _ _ (check_spam_operator _ _ H (superadmin_has_entry _ _ Hsa))).
  cbn [negb].
  erewrite bind_ok by (apply is_superadmin_run; exact H). fields.
  rewrite Hsa. cbn [negb]. rewrite <- app_assoc. reflexivity.
Qed.

(** X4.  addadmin, removeadmin and unblock from the superadmin with a missing
    argument, one that is not an integer, or an integer beyond 64 bits: the
    handler answers with its usage line and the error, and nothing in the
    world changes. *)
Theorem bad_user_id_changes_nothing SUPERADMIN_ID lib c usage e u w :
  int_usage c = Some usage ->
  parsed_int_arg lib u = inl e ->
  halt_after w = None ->
  has_superadmin_entry (id (effective_user u)) (admins w) = true ->
  dispatch SUPERADMIN_ID lib c u w
  = (Ok tt,
     set_trace (trace w ++ [EvFind Admins; EvFind Admins;
                            EvReply (usage +:+ nl +:+ "Error: " +:+ exn_str lib e)
                                    None]) w).
Proof.
  intros Hc He H Hsa.
  destruct c; cbn in Hc; try discriminate; injection Hc as <-; cbn [dispatch];
    unfold add_admin, remove_admin, unblock_cmd.
  all: rewrite (superadmin_enters (fun u => try_except (A:=unit) _ _) _ u w H Hsa);
    unfold try_except; rewrite (parsed_int_bad _ _ _ _ _ He);
    unfold reply_text; rewrite io_run by exact H; fields;
    rewrite <- app_assoc; reflexivity.
Qed.

Lemma bad_user_id_changes_nothing_witness :
  let u := Update (User 500 None) ["99999999999999999999"] in
  int_usage CmdAddAdmin = Some "Usage: /addadmin <user_id>"
  /\ parsed_int_arg sample_lib u = inl OverflowError
  /\ halt_after busy_world = None
  /\ has_superadmin_entry 500 (admins busy_world) = true
  /\ admins (snd (dispatch 500 sample_lib CmdAddAdmin u busy_world))
     = admins busy_world.
Proof.
  intros u.
  rewrite (bad_user_id_changes_nothing 500 sample_lib CmdAddAdmin _ _ u busy_world
             eq_refl eq_refl eq_refl eq_refl).
  repeat split.
Defined.

Lemma insert_one_run {D} c (get : world -> list D) set d w :
  halt_after w = None ->
  insert_one c get set d w
  = (Ok tt, let w1 := set_trace (trace w ++ [EvInsert c]) w in
            set (get w1 ++ [d]) w1).
Proof.
  intros H. unfold insert_one. rewrite (bind_ok _ _ _ _ _ (io_run _ _ H)).
  reflexivity.
Qed.

Lemma existsb_delete_first_unique {D} (key : D -> Z) (f : D -> bool) x (l : list D) :
  (forall d, f d = true -> key d = x) ->
  NoDup (List.map key l) ->
  existsb f l = true ->
  existsb (fun d => key d =? x) (delete_first f l) = false.
Proof.
  intros Hf. induction l as [|d l IH]; intros Hnd Hex; [discriminate|].
  cbn [List.map] in Hnd. apply NoDup_cons in Hnd. destruct Hnd as [Hd Hnd].
  cbn [delete_first]. destruct (f d) eqn:E.
  - apply not_true_is_false. intros Hin. apply existsb_exists in Hin.
    destruct Hin as (y & Hy & Hk). apply Z.eqb_eq in Hk.
    apply Hd. rewrite (Hf d E), <- Hk. apply list_elem_of_In, in_map. exact Hy.
  - cbn in Hex. rewrite E in Hex. cbn in Hex. cbn [existsb].
    rewrite (IH Hnd Hex), orb_false_r.
    apply Z.eqb_neq. intros Hk. apply Hd.
    apply existsb_exists in Hex. destruct Hex as (y & Hy & Hfy).
    rewrite Hk, <- (Hf y Hfy). apply list_elem_of_In, in_map. exact Hy.
Qed.

Lemma delete_first_app_new {D} (f : D -> bool) (l : list D) d :
  existsb f l = false -> f d = true -> delete_first f (l ++ [d]) = l.
Proof.
  intros Hl Hd. induction l as [|x l IH]; cbn.
  - rewrite Hd. reflexivity.
  - cbn in Hl. apply orb_false_iff in Hl. destruct Hl as [Hx Hl].
    rewrite Hx, (IH Hl). reflexivity.
Qed.

Lemma add_admin_outcome lib u w n :
  halt_after w = None ->
  has_superadmin_entry (id (effective_user u)) (admins w) = true ->
  parsed_int_arg lib u = inr n ->
  let r := add_admin lib u w in
  fst r = Ok tt
  /\ halt_after (snd r) = None
  /\ reminders (snd r) = reminders w
  /\ blocked (snd r) = blocked w
  /\ pending_deletes (snd r) = pending_deletes w
  /\ scheduler (snd r) = scheduler w
  /\ (has_entry n (admins w) = false ->
      admins (snd r) = admins w ++ [AdminDoc n "admin"]
      /\ has_entry n (admins (snd r)) = true
      /\ has_superadmin_entry n (admins (snd r)) = false
      /\ replies (trace (snd r))
         = replies (trace w) ++ ["✅ Added " +:+ pretty n +:+ " as admin."])
  /\ (has_entry n (admins w) = true ->
      admins (snd r) = admins w
      /\ replies (trace (snd r))
         = replies (trace w) ++ ["⚠️ That user is already an admin."]).
Proof.
  intros H Hsa Hn r. subst r. unfold add_admin.
  rewrite (superadmin_enters (fun u => try_except (A:=unit) _ _) _ u w H Hsa).
  unfold try_except. rewrite (parsed_int_ok _ _ _ _ _ Hn).
  erewrite bind_ok by (apply find_one_run; exact H). fields.
  assert (Hfe : is_some (List.find (by_user n) (admins w)) = has_entry n (admins w))
    by apply find_existsb.
  destruct (List.find (by_user n) (admins w)) as [d|]; cbn [is_some negb] in *.
  - unfold reply_text. rewrite io_run by exact H. fields.
    rewrite <- Hfe, <- !app_assoc, replies_app. cbn.
    repeat split; try reflexivity; try exact H; discriminate.
  - erewrite bind_ok by (apply insert_one_run; exact H). fields.
    unfold reply_text. rewrite io_run by exact H. fields.
    rewrite <- Hfe, <- !app_assoc, replies_app. cbn.
    split; [reflexivity|]. split; [exact H|].
    do 4 (split; [reflexivity|]). split; [|discriminate].
    intros _. split; [reflexivity|]. split; [|split; [|reflexivity]].
    + unfold has_entry. rewrite existsb_app. cbn. unfold by_user at 2. cbn.
      rewrite Z.eqb_refl. apply orb_true_iff. right. reflexivity.
    + unfold has_superadmin_entry. rewrite existsb_app. cbn.
      unfold by_user_role at 2. cbn. rewrite andb_false_r, orb_false_r.
      apply not_true_is_false. intros Hex.
      apply (superadmin_has_entry n (admins w)) in Hex.
      rewrite <- Hfe in Hex. discriminate.
Qed.

(** X5.  addadmin from the superadmin with a proper user id: a user without
    any role entry gets one with role "admin", appended to the collection,
    and from then on counts as an operator; a user who has an entry already
    (the superadmin included) is left as is.  Either way the caller is told
    which, and no other collection and no job changes. *)
Theorem add_admin_effect lib u w n :
  halt_after w = None ->
  has_superadmin_entry (id (effective_user u)) (admins w) = true ->
  parsed_int_arg lib u = inr n ->
  let r := add_admin lib u w in
  fst r = Ok tt
  /\ halt_after (snd r) = None
  /\ reminders (snd r) = reminders w
  /\ blocked (snd r) = blocked w
  /\ pending_deletes (snd r) = pending_deletes w
  /\ scheduler (snd r) = scheduler w
  /\ (has_entry n (admins w) = false ->
      admins (snd r) = admins w ++ [AdminDoc n "admin"]
      /\ has_entry n (admins (snd r)) = true
      /\ has_superadmin_entry n (admins (snd r)) = false
      /\ replies (trace (snd r))
         = replies (trace w) ++ ["✅ Added " +:+ pretty n +:+ " as admin."])
  /\ (has_entry n (admins w) = true ->
      admins (snd r) = admins w
      /\ replies (trace (snd r))
         = replies (trace w) ++ ["⚠️ That user is already an admin."]).
Proof. exact (add_admin_outcome lib u w n). Qed.

Lemma add_admin_effect_witness :
  let u := Update (User 500 None) ["502"] in
  let r := add_admin sample_lib u busy_world in
  halt_after busy_world = None
  /\ has_superadmin_entry 500 (admins busy_world) = true
  /\ parsed_int_arg sample_lib u = inr 502
  /\ has_entry 502 (admins busy_world) = false
  /\ admins (snd r) = admins busy_world ++ [AdminDoc 502 "admin"]
  /\ replies (trace (snd r)) = ["✅ Added 502 as admin."].
Proof.
  intros u r.
  destruct (add_admin_effect sample_lib u busy_world 502 eq_refl eq_refl eq_refl)
    as (_ & _ & _ & _ & _ & _ & Hnew & _).
  destruct (Hnew eq_refl) as (Ha & _ & _ & Hr).
  repeat split; first [assumption|reflexivity].
Defined.

Lemma remove_admin_outcome lib u w n :
  halt_after w = None ->
  has_superadmin_entry (id (effective_user u)) (admins w) = true ->
  parsed_int_arg lib u = inr n ->
  let r := remove_admin lib u w in
  fst r = Ok tt
  /\ reminders (snd r) = reminders w
  /\ blocked (snd r) = blocked w
  /\ pending_deletes (snd r) = pending_deletes w
  /\ scheduler (snd r) = scheduler w
  /\ admins (snd r) = delete_first (by_user_role n "admin") (admins w)
  /\ (existsb (by_user_role n "admin") (admins w) = true ->
      replies (trace (snd r))
      = replies (trace w) ++ ["✅ Removed " +:+ pretty n +:+ " from admins."]
      /\ (NoDup (List.map a_user_id (admins w)) ->
          has_entry n (admins (snd r)) = false))
  /\ (existsb (by_user_role n "admin") (admins w) = false ->
      admins (snd r) = admins w
      /\ replies (trace (snd r)) = replies (trace w) ++ ["⚠️ User is not an admin."]).
Proof.
  intros H Hsa Hn r. subst r. unfold remove_admin.
  rewrite (superadmin_enters (fun u => try_except (A:=unit) _ _) _ u w H Hsa).
  unfold try_except. rewrite (parsed_int_ok _ _ _ _ _ Hn).
  erewrite bind_ok by (apply delete_one_run; exact H). fields.
  rewrite find_existsb.
  destruct (existsb (by_user_role n "admin") (admins w)) eqn:E; cbn [Nat.ltb Nat.leb].
  - unfold reply_text. rewrite io_run by exact H. fields.
    rewrite <- !app_assoc, replies_app. cbn.
    do 6 (split; [reflexivity|]). split; [|discriminate].
    intros _. split; [reflexivity|]. intros Hnd.
    apply (existsb_delete_first_unique a_user_id); [|exact Hnd|exact E].
    intros d Hd. unfold by_user_role in Hd. apply andb_true_iff in Hd.
    apply Z.eqb_eq. apply Hd.
  - unfold reply_text. rewrite io_run by exact H. fields.
    rewrite <- !app_assoc, replies_app. cbn.
    do 6 (split; [reflexivity|]). split; [discriminate|].
    intros _. split; [|reflexivity].
    clear -E. induction (admins w) as [|d l IH]; [reflexivity|].
    cbn in *. apply orb_false_iff in E. destruct E as [Ed El].
    rewrite Ed, (IH El). reflexivity.
Qed.

(** X6.  removeadmin from the superadmin with a proper user id: when the user
    has an entry with role "admin", the first such entry is deleted and, user
    ids being unique in the collection, the user holds no role afterwards;
    when there is none - as for the superadmin's own id - the collection
    stays as it is and the caller is told that the user is not an admin. *)
Theorem remove_admin_effect lib u w n :
  halt_after w = None ->
  has_superadmin_entry (id (effective_user u)) (admins w) = true ->
  parsed_int_arg lib u = inr n ->
  let r := remove_admin lib u w in
  fst r = Ok tt
  /\ reminders (snd r) = reminders w
  /\ blocked (snd r) = blocked w
  /\ pending_deletes (snd r) = pending_deletes w
  /\ scheduler (snd r) = scheduler w
  /\ admins (snd r) = delete_first (by_user_role n "admin") (admins w)
  /\ (existsb (by_user_role n "admin") (admins w) = true ->
      replies (trace (snd r))
      = replies (trace w) ++ ["✅ Removed " +:+ pretty n +:+ " from admins."]
      /\ (NoDup (List.map a_user_id (admins w)) ->
          has_entry n (admins (snd r)) = false))
  /\ (existsb (by_user_role n "admin") (admins w) = false ->
      admins (snd r) = admins w
      /\ replies (trace (snd r)) = replies (trace w) ++ ["⚠️ User is not an admin."]).
Proof. exact (remove_admin_outcome lib u w n). Qed.

Lemma remove_admin_effect_witness :
  let u := Update (User 500 None) ["501"] in
  let r := remove_admin sample_lib u busy_world in
  halt_after busy_world = None
  /\ has_superadmin_entry 500 (admins busy_world) = true
  /\ parsed_int_arg sample_lib u = inr 501
  /\ existsb (by_user_role 501 "admin") (admins busy_world) = true
  /\ NoDup (List.map a_user_id (admins busy_world))
  /\ admins (snd r) = [AdminDoc 500 "superadmin"]
  /\ has_entry 501 (admins (snd r)) = false.
Proof.
  intros u r.
  assert (Hnd : NoDup (List.map a_user_id (admins busy_world))).
  { cbn. apply NoDup_cons. split.
    - intros Hin. apply elem_of_cons in Hin. destruct Hin as [Hin|Hin];
        [discriminate|apply elem_of_nil in Hin; exact Hin].
    - apply NoDup_cons. split; [apply not_elem_of_nil|apply NoDup_nil_2]. }
  destruct (remove_admin_effect sample_lib u busy_world 501 eq_refl eq_refl eq_refl)
    as (_ & _ & _ & _ & _ & Ha & Hrm & _).
  destruct (Hrm eq_refl) as (_ & Hgone).
  repeat split; first [assumption|reflexivity|apply Hgone; exact Hnd].
Defined.

(** X7.  Adding a user who has no role entry and removing the same user
    again brings the role collection back to what it was. *)
Theorem add_then_remove_admin lib u w n :
  halt_after w = None ->
  has_superadmin_entry (id (effective_user u)) (admins w) = true ->
  parsed_int_arg lib u = inr n ->
  has_entry n (admins w) = false ->
  admins (snd (remove_admin lib u (snd (add_admin lib u w)))) = admins w.
Proof.
  intros H Hsa Hn Hnew.
  destruct (add_admin_outcome lib u w n H Hsa Hn)
    as (_ & H1 & _ & _ & _ & _ & A6 & _).
  destruct (A6 Hnew) as (Ha & _).
  assert (Hsa1 : has_superadmin_entry (id (effective_user u))
                   (admins (snd (add_admin lib u w))) = true).
  { rewrite Ha. unfold has_superadmin_entry in *. rewrite existsb_app, Hsa.
    reflexivity. }
  destruct (remove_admin_outcome lib u _ n H1 Hsa1 Hn)
    as (_ & _ & _ & _ & _ & R6 & _).
  rewrite R6, Ha. apply delete_first_app_new; [|unfold by_user_role; cbn;
    rewrite Z.eqb_refl; reflexivity].
  apply not_true_is_false. intros Hex. apply existsb_exists in Hex.
  destruct Hex as (d & Hd & Hf). unfold by_user_role in Hf.
  apply andb_true_iff in Hf. destruct Hf as [Hf _].
  unfold has_entry in Hnew.
  assert (Ht : existsb (by_user n) (admins w) = true)
    by (apply existsb_exists; exists d; split; assumption).
  congruence.
Qed.

Lemma add_then_remove_admin_witness :
  let u := Update (User 500 None) ["502"] in
  halt_after busy_world = None
  /\ has_superadmin_entry 500 (admins busy_world) = true
  /\ parsed_int_arg sample_lib u = inr 502
  /\ has_entry 502 (admins busy_world) = false
  /\ admins (snd (remove_admin sample_lib u (snd (add_admin sample_lib u busy_world))))
     = admins busy_world.
Proof.
  intros u.
  pose proof (add_then_remove_admin sample_lib u busy_world 502
                eq_refl eq_refl eq_refl eq_refl) as H.
  repeat split; first [assumption|reflexivity].
Defined.

Lemma delete_first_none {D} (f : D -> bool) (l : list D) :
  existsb f l = false -> delete_first f l = l.
Proof.
  induction l as [|d l IH]; [reflexivity|]. cbn. intros E.
  apply orb_false_iff in E. destruct E as [Ed El].
  rewrite Ed, (IH El). reflexivity.
Qed.

Lemma unblock_outcome lib u w n :
  halt_after w = None ->
  has_superadmin_entry (id (effective_user u)) (admins w) = true ->
  parsed_int_arg lib u = inr n ->
  let r := unblock_cmd lib u w in
  fst r = Ok tt
  /\ halt_after (snd r) = None
  /\ admins (snd r) = admins w
  /\ reminders (snd r) = reminders w
  /\ pending_deletes (snd r) = pending_deletes w
  /\ scheduler (snd r) = scheduler w
  /\ user_requests (snd r) = user_requests w
  /\ clock (snd r) = clock w
  /\ reads (snd r) = reads w
  /\ blocked (snd r) = delete_first (blocked_by_user n) (blocked w)
  /\ (blocked_entry n (blocked w) = true ->
      replies (trace (snd r))
      = replies (trace w) ++ ["✅ User " +:+ pretty n +:+ " has been unblocked."]
      /\ (NoDup (List.map b_user_id (blocked w)) ->
          blocked_entry n (blocked (snd r)) = false))
  /\ (blocked_entry n (blocked w) = false ->
      blocked (snd r) = blocked w
      /\ replies (trace (snd r))
         = replies (trace w) ++ ["⚠️ That user is not blocked."]).
Proof.
  intros H Hsa Hn r. subst r. unfold unblock_cmd.
  rewrite (superadmin_enters (fun u => try_except (A:=unit) _ _) _ u w H Hsa).
  unfold try_except. rewrite (parsed_int_ok _ _ _ _ _ Hn).
  erewrite bind_ok by (apply is_blocked_run; exact H). fields.
  destruct (blocked_entry n (blocked w)) eqn:E.
  - unfold unblock_user.
    erewrite bind_ok by (apply delete_one_run; exact H). fields.
    unfold reply_text. rewrite io_run by exact H. fields.
    rewrite <- !app_assoc, replies_app. cbn.
    split; [reflexivity|]. split; [exact H|].
    do 8 (split; [reflexivity|]). split; [|discriminate].
    intros _. split; [reflexivity|]. intros Hnd.
    apply (existsb_delete_first_unique b_user_id); [|exact Hnd|exact E].
    intros d Hd. apply Z.eqb_eq. exact Hd.
  - unfold reply_text. rewrite io_run by exact H. fields.
    rewrite <- !app_assoc, replies_app. cbn.
    rewrite (delete_first_none _ _ E).
    split; [reflexivity|]. split; [exact H|].
    do 8 (split; [reflexivity|]). split; [discriminate|].
    intros _. split; reflexivity.
Qed.

(** X8.  unblock from the superadmin with a proper user id: a blocked user's
    first block entry is deleted and, user ids being unique in the block
    list, the user is no longer blocked; a user who is not blocked stays so
    and the caller is told.  The user's request history is not touched
    either way, nor is any other collection or job. *)
Theorem unblock_effect lib u w n :
  halt_after w = None ->
  has_superadmin_entry (id (effective_user u)) (admins w) = true ->
  parsed_int_arg lib u = inr n ->
  let r := unblock_cmd lib u w in
  fst r = Ok tt
  /\ halt_after (snd r) = None
  /\ admins (snd r) = admins w
  /\ reminders (snd r) = reminders w
  /\ pending_deletes (snd r) = pending_deletes w
  /\ scheduler (snd r) = scheduler w
  /\ user_requests (snd r) = user_requests w
  /\ clock (snd r) = clock w
  /\ reads (snd r) = reads w
  /\ blocked (snd r) = delete_first (blocked_by_user n) (blocked w)
  /\ (blocked_entry n (blocked w) = true ->
      replies (trace (snd r))
      = replies (trace w) ++ ["✅ User " +:+ pretty n +:+ " has been unblocked."]
      /\ (NoDup (List.map b_user_id (blocked w)) ->
          blocked_entry n (blocked (snd r)) = false))
  /\ (blocked_entry n (blocked w) = false ->
      blocked (snd r) = blocked w
      /\ replies (trace (snd r))
         = replies (trace w) ++ ["⚠️ That user is not blocked."]).
Proof. exact (unblock_outcome lib u w n). Qed.

Lemma unblock_effect_witness :
  let u := Update (User 500 None) ["777"] in
  let r := unblock_cmd sample_lib u busy_world in
  halt_after busy_world = None
  /\ has_superadmin_entry 500 (admins busy_world) = true
  /\ parsed_int_arg sample_lib u = inr 777
  /\ blocked_entry 777 (blocked busy_world) = true
  /\ NoDup (List.map b_user_id (blocked busy_world))
  /\ blocked (snd r) = [BlockedDoc 501 "Spam detected" 0]
  /\ blocked_entry 777 (blocked (snd r)) = false.
Proof.
  intros u r.
  assert (Hnd : NoDup (List.map b_user_id (blocked busy_world))).
  { cbn. apply NoDup_cons. split.
    - intros Hin. apply elem_of_cons in Hin. destruct Hin as [Hin|Hin];
        [discriminate|apply elem_of_nil in Hin; exact Hin].
    - apply NoDup_cons. split; [apply not_elem_of_nil|apply NoDup_nil_2]. }
  destruct (unblock_effect sample_lib u busy_world 777 eq_refl eq_refl eq_refl)
    as (_ & _ & _ & _ & _ & _ & _ & _ & _ & Hb & Hbl & _).
  destruct (Hbl eq_refl) as (_ & Hgone).
  repeat split; first [assumption|reflexivity|apply Hgone; exact Hnd].
Defined.

(** X9.  Unblocking does not clear the window: when the user's recorded
    requests still count more than four inside the window at the user's next
    request, that request is refused with the spam reply and the user is in
    the block list again. *)
Theorem unblock_keeps_window lib u v w g :
  halt_after w = None ->
  has_superadmin_entry (id (effective_user u)) (admins w) = true ->
  parsed_int_arg lib u = inr g ->
  id (effective_user v) = g ->
  has_entry g (admins w) = false ->
  blocked_entry g (blocked w) = true ->
  NoDup (List.map b_user_id (blocked w)) ->
  (4 < length (List.filter (in_window (o_time (clock w) (reads w)))
                           (requests_of g (user_requests w))))%nat ->
  let w1 := snd (unblock_cmd lib u w) in
  let r := check_spam v w1 in
  blocked_entry g (blocked w1) = false
  /\ fst r = Ok false
  /\ blocked_entry g (blocked (snd r)) = true
  /\ replies (trace (snd r)) = replies (trace w1) ++ [spam_text].
Proof.
  intros H Hsa Hn Hv Hop Hbl Hnd Hlen w1 r. subst r w1.
  destruct (unblock_outcome lib u w g H Hsa Hn)
    as (_ & U1 & U2 & _ & _ & _ & U3 & U4 & U5 & U6 & U7 & _).
  destruct (U7 Hbl) as (_ & Hgone). specialize (Hgone Hnd).
  split; [exact Hgone|].
  assert (Hop1 : has_entry (id (effective_user v))
                   (admins (snd (unblock_cmd lib u w))) = false)
    by (rewrite Hv, U2; exact Hop).
  assert (Hbl1 : blocked_entry (id (effective_user v))
                   (blocked (snd (unblock_cmd lib u w))) = false)
    by (rewrite Hv; exact Hgone).
  rewrite (check_spam_guest v _ U1 Hop1 Hbl1). cbn [fst snd].
  rewrite Hv, U3, U4, U5. unfold window_history.
  assert (Hlim : (REQUEST_LIMIT <?
                  length (List.filter (in_window (o_time (clock w) (reads w)))
                            (requests_of g (user_requests w))
                          ++ [o_time (clock w) (reads w)]))%nat = true).
  { apply Nat.ltb_lt. rewrite length_app. unfold REQUEST_LIMIT. cbn. lia. }
  rewrite Hlim. cbn [negb]. fields.
  split; [reflexivity|]. split.
  - rewrite <- Hv at 1. rewrite Hv. rewrite (upsert_block_fresh _ _ _ _ Hgone).
    apply blocked_entry_app. reflexivity.
  - rewrite replies_app. reflexivity.
Qed.

Lemma unblock_keeps_window_witness :
  let u := Update (User 500 None) ["900"] in
  let v := Update (User 900 None) [] in
  let w1 := snd (unblock_cmd sample_lib u blocked_guest_world) in
  halt_after blocked_guest_world = None
  /\ has_superadmin_entry 500 (admins blocked_guest_world) = true
  /\ parsed_int_arg sample_lib u = inr 900
  /\ has_entry 900 (admins blocked_guest_world) = false
  /\ blocked_entry 900 (blocked blocked_guest_world) = true
  /\ blocked_entry 900 (blocked w1) = false
  /\ fst (check_spam v w1) = Ok false
  /\ blocked_entry 900 (blocked (snd (check_spam v w1))) = true.
Proof.
  intros u v w1.
  assert (Hnd : NoDup (List.map b_user_id (blocked blocked_guest_world))).
  { cbn. apply NoDup_cons. split; [apply not_elem_of_nil|apply NoDup_nil_2]. }
  assert (Hlen : (4 < length (List.filter
                     (in_window (o_time (clock blocked_guest_world)
                                        (reads blocked_guest_world)))
                     (requests_of 900 (user_requests blocked_guest_world))))%nat)
    by (vm_compute; lia).
  destruct (unblock_keeps_window sample_lib u v blocked_guest_world 900
              eq_refl eq_refl eq_refl eq_refl eq_refl eq_refl Hnd Hlen)
    as (H1 & H2 & H3 & _).
  repeat split; first [assumption|reflexivity].
Defined.

(** ** Keys stay unique *)

Lemma stable_unique_users : stable (fun w => NoDup (List.map a_user_id (admins w))).
Proof. split; intros; assumption. Qed.

Lemma stable_unique_blocks : stable (fun w => NoDup (List.map b_user_id (blocked w))).
Proof. split; intros; assumption. Qed.

Lemma NoDup_app_new {D} (key : D -> Z) (f : D -> bool) (l : list D) d :
  (forall x, key x = key d -> f x = true) ->
  List.find f l = None ->
  NoDup (List.map key l) -> NoDup (List.map key (l ++ [d])).
Proof.
  intros Hf Hnone Hnd. rewrite List.map_app. cbn [List.map].
  apply NoDup_app. split; [exact Hnd|]. split; [|apply NoDup_singleton].
  intros k Hk Hk'. apply list_elem_of_singleton in Hk'. subst k.
  apply list_elem_of_In, in_map_iff in Hk. destruct Hk as (x & Hx & Hin).
  apply (find_none _ _ Hnone) in Hin. rewrite (Hf x Hx) in Hin. discriminate.
Qed.

Lemma dispatch_keeps_unique_blocks SUPERADMIN_ID lib c u :
  preserves (fun w => NoDup (List.map b_user_id (blocked w)))
            (dispatch SUPERADMIN_ID lib c u).
Proof.
  pose proof stable_unique_blocks as HI.
  destruct c; frame HI.
  all: try (intros w Hw; fields; try destruct (List.find _ (pending_deletes _));
            exact Hw).
  all: try (intros w Hw; fields; apply NoDup_delete_first; exact Hw).
  all: intros w Hw; destruct (List.find _ _) eqn:E; fields;
    [rewrite map_update_first; [exact Hw|reflexivity]
    |apply (NoDup_app_new b_user_id (blocked_by_user (id (effective_user u))));
       [intros x Hx; apply Z.eqb_eq; exact Hx|exact E|exact Hw]].
Qed.

Lemma add_admin_keeps_unique_users lib u :
  preserves (fun w => NoDup (List.map a_user_id (admins w))) (add_admin lib u).
Proof.
  pose proof stable_unique_users as HI. unfold add_admin.
  apply preserves_bind.
  { frame HI. all: intros w Hw; fields; try destruct (List.find _ _); exact Hw. }
  intros ok. destruct (negb ok); [apply preserves_ret|].
  apply preserves_bind; [frame HI|].
  intros sa. destruct (negb sa); [frame HI|].
  apply preserves_try; [|intros e; frame HI].
  apply preserves_bind; [frame HI|]. intros n.
  apply preserves_bind; [frame HI|]. intros _.
  eapply hoare_bind with
    (Q1 := fun d w => d = List.find (by_user n) (admins w)
                      /\ NoDup (List.map a_user_id (admins w))).
  { unfold find_one.
    eapply hoare_bind with
      (Q1 := fun _ w => NoDup (List.map a_user_id (admins w))).
    - apply hoare_io; [auto|]. intros w h Hw. exact Hw.
    - intros _. apply hoare_gets. auto. }
  intros [d|]; cbn [is_some negb].
  - unfold reply_text. apply hoare_io; [intros w [_ Hw]; exact Hw|].
    intros w h [_ Hw]. exact Hw.
  - unfold insert_one, reply_text.
    eapply hoare_bind with
      (Q1 := fun _ w => NoDup (List.map a_user_id (admins w))).
    + eapply hoare_bind with
        (Q1 := fun _ w => None = List.find (by_user n) (admins w)
                          /\ NoDup (List.map a_user_id (admins w))).
      * apply hoare_io; [intros w [_ Hw]; exact Hw|]. intros w h Hw. exact Hw.
      * intros _. apply hoare_modify. intros w [Hnone Hw]. fields.
        apply (NoDup_app_new a_user_id (by_user n)); [|auto|exact Hw].
        intros x Hx. apply Z.eqb_eq. exact Hx.
    + intros _. apply (preserves_io _ HI).
Qed.

Lemma dispatch_keeps_unique_users SUPERADMIN_ID lib c u :
  preserves (fun w => NoDup (List.map a_user_id (admins w)))
            (dispatch SUPERADMIN_ID lib c u).
Proof.
  pose proof stable_unique_users as HI.
  destruct c; try (cbn [dispatch]; apply add_admin_keeps_unique_users); frame HI.
  all: try (intros w Hw; fields; try destruct (List.find _ _); exact Hw).
  all: intros w Hw; fields; apply NoDup_delete_first; exact Hw.
Qed.

(** X10.  No command ever puts a second document under a key that is taken:
    when user ids are unique in the role collection and in the block list
    and reminder ids are unique among the pending requests, they still are
    after any command, from any caller, with any arguments, cut short
    anywhere. *)
Theorem commands_keep_keys_unique SUPERADMIN_ID lib c u w :
  keys_unique w -> keys_unique (snd (dispatch SUPERADMIN_ID lib c u w)).
Proof.
  intros (Ha & Hb & Hp). unfold keys_unique.
  pose proof (dispatch_keeps_unique_users SUPERADMIN_ID lib c u w Ha) as Ha'.
  pose proof (dispatch_keeps_unique_blocks SUPERADMIN_ID lib c u w Hb) as Hb'.
  pose proof (dispatch_keeps_one_request SUPERADMIN_ID lib c u w Hp) as Hp'.
  unfold one_request_per_reminder in Hp'.
  destruct (dispatch _ _ _ _ _) as [[[]|e|] w']; auto.
Qed.

Lemma commands_keep_keys_unique_witness :
  keys_unique busy_world
  /\ keys_unique (snd (dispatch 500 sample_lib CmdAddAdmin
                         (Update (User 500 None) ["501"]) busy_world)).
Proof.
  assert (H : keys_unique busy_world).
  { unfold keys_unique. cbn. repeat split; repeat constructor;
      rewrite ?elem_of_cons, ?elem_of_nil; intuition discriminate. }
  split; [exact H|]. apply commands_keep_keys_unique. exact H.
Defined.

(** ** Deleting a reminder *)

Lemma find_update_first {D} (f : D -> bool) (g : D -> D) (l : list D) d :
  (forall x, f x = true -> f (g x) = true) ->
  List.find f l = Some d -> List.find f (update_first f g l) = Some (g d).
Proof.
  intros Hg. induction l as [|x l IH]; [discriminate|]. cbn.
  destruct (f x) eqn:E.
  - intros Hd. injection Hd as <-. cbn. rewrite (Hg x E). reflexivity.
  - intros Hd. cbn. rewrite E. apply IH. exact Hd.
Qed.

Lemma find_app_new {D} (f : D -> bool) (l : list D) d :
  List.find f l = None -> f d = true -> List.find f (l ++ [d]) = Some d.
Proof.
  intros Hl Hd. induction l as [|x l IH]; cbn.
  - rewrite Hd. reflexivity.
  - cbn in Hl. destruct (f x); [discriminate|]. apply IH. exact Hl.
Qed.

Lemma length_update_first {D} (f : D -> bool) (g : D -> D) (l : list D) :
  length (update_first f g l) = length l.
Proof.
  induction l as [|x l IH]; [reflexivity|]. cbn.
  destruct (f x); cbn; [reflexivity|rewrite IH; reflexivity].
Qed.

Lemma upsert_request_find rid user_id t l :
  List.find (by_rid rid) (upsert_request rid user_id t l)
  = Some (PendingDoc rid user_id t).
Proof.
  unfold upsert_request. destruct (List.find (by_rid rid) l) as [d|] eqn:E.
  - rewrite (find_update_first _ _ _ d); [|auto|exact E].
    apply find_some in E. destruct E as [_ E]. unfold by_rid in E.
    apply String.eqb_eq in E. rewrite E. reflexivity.
  - apply find_app_new; [exact E|]. unfold by_rid. cbn. apply String.eqb_refl.
Qed.

Lemma update_one_upsert_run {D} c (get : world -> list D) set f g fresh w :
  halt_after w = None ->
  update_one_upsert c get set f g fresh w
  = (Ok tt,
     let w1 := set_trace (trace w ++ [EvUpdate c]) w in
     match List.find f (get w1) with
     | Some _ => set (update_first f g (get w1)) w1
     | None => set (get w1 ++ [fresh]) w1
     end).
Proof.
  intros H. unfold update_one_upsert.
  rewrite (bind_ok _ _ _ _ _ (io_run _ _ H)). reflexivity.
Qed.

(** The operator has passed the guard and the handler has parsed the id. *)
Lemma delete_reminder_enters SUPERADMIN_ID lib u w :
  halt_after w = None ->
  has_entry (id (effective_user u)) (admins w) = true ->
  exists body,
    delete_reminder SUPERADMIN_ID lib u w
    = try_except body
        (fun e => reply_text ("Usage: /deletereminder <id>" +:+ nl +:+
                              "Error: " +:+ exn_str lib e) None)
        (set_trace (trace w ++ [EvFind Admins]) w)
    /\ body = (let! rid := arg 0 u in
               let! o := ObjectId rid in
               let! reminder := find_one Reminders reminders (by_id o) in
               if negb (is_some reminder) then
                 reply_text "❌ Reminder not found." None
               else
               let user_id := id (effective_user u) in
               let! sa := is_superadmin user_id in
               if sa then
                 delete_one Reminders reminders set_reminders (by_id o) >>
                 remove_reminder_jobs rid >>
                 reply_text ("✅ Reminder " +:+ rid +:+ " deleted.") None
               else
               let! op := is_admin_or_superadmin user_id in
               if op then
                 let! t := time_time in
                 update_one_upsert PendingDeletes pending_deletes set_pending_deletes
                   (by_rid rid)
                   (fun d => PendingDoc (p_rid d) user_id t)
                   (PendingDoc rid user_id t) >>
                 reply_text "⌛ Deletion request sent to superadmin." None >>
                 send_message (Chat SUPERADMIN_ID)
                   ("⚠️ Admin " +:+ pretty user_id +:+ " requested deletion of reminder `"
                    +:+ rid +:+ "`." +:+ nl +:+ "Use /approve " +:+ rid +:+
                    " or /reject " +:+ rid +:+ ".") (Some "Markdown")
               else ret tt).
Proof.
  intros H Hop. eexists. split; [|reflexivity].
  unfold delete_reminder.
  rewrite (bind_ok _ _ _ _ _ (check_spam_operator _ _ H Hop)). reflexivity.
Qed.

(** X11.  deletereminder from an operator with a missing argument, with an
    argument that is not a 24-digit hexadecimal id, or with the id of no
    stored reminder: the caller gets the usage line with the error, or
    "Reminder not found.", and nothing in the world changes. *)
Theorem delete_reminder_rejects SUPERADMIN_ID lib u w :
  halt_after w = None ->
  has_entry (id (effective_user u)) (admins w) = true ->
  let r := delete_reminder SUPERADMIN_ID lib u w in
  let usage e := "Usage: /deletereminder <id>" +:+ nl +:+ "Error: " +:+ exn_str lib e in
  (args u = [] ->
   r = (Ok tt, set_trace (trace w ++ [EvFind Admins; EvReply (usage IndexError) None]) w))
  /\ (forall rid rest,
      args u = rid :: rest -> oid_of_string rid = None ->
      r = (Ok tt, set_trace (trace w ++ [EvFind Admins;
                                         EvReply (usage (InvalidId rid)) None]) w))
  /\ (forall rid rest o,
      args u = rid :: rest -> oid_of_string rid = Some o ->
      existsb (by_id o) (reminders w) = false ->
      r = (Ok tt, set_trace (trace w ++ [EvFind Admins; EvFind Reminders;
                                         EvReply "❌ Reminder not found." None]) w)).
Proof.
  intros H Hop r usage. subst r usage.
  destruct (delete_reminder_enters SUPERADMIN_ID lib u w H Hop) as (body & -> & ->).
  unfold try_except, reply_text.
  split; [|split].
  - intros Hargs. rewrite (bind_raise _ _ _ _ _ (arg0_missing _ _ Hargs)).
    rewrite io_run by exact H. fields. rewrite <- app_assoc. reflexivity.
  - intros rid rest Hargs Hoid.
    rewrite (bind_ok _ _ _ _ _ (arg0_run _ _ _ _ Hargs)).
    unfold ObjectId. rewrite Hoid.
    match goal with |- context [bind (raise ?e) ?k ?w0] =>
      rewrite (bind_raise (raise e) k w0 e w0 eq_refl) end.
    rewrite io_run by exact H. fields. rewrite <- app_assoc. reflexivity.
  - intros rid rest o Hargs Hoid Hnone.
    rewrite (bind_ok _ _ _ _ _ (arg0_run _ _ _ _ Hargs)).
    unfold ObjectId. rewrite Hoid. rewrite (bind_ok _ _ _ _ _ (ret_run _ _)).
    erewrite bind_ok by (apply find_one_run; exact H). fields.
    rewrite (find_none_existsb _ _ Hnone). cbn [is_some negb].
    rewrite io_run by exact H. fields. rewrite <- !app_assoc. reflexivity.
Qed.

Lemma delete_reminder_rejects_witness :
  let u := Update (User 501 None) ["not-an-id"] in
  halt_after busy_world = None
  /\ has_entry 501 (admins busy_world) = true
  /\ oid_of_string "not-an-id" = None
  /\ snd (delete_reminder 500 sample_lib u busy_world)
     = set_trace [EvFind Admins;
                  EvReply ("Usage: /deletereminder <id>" +:+ nl +:+ "Error: error") None]
                 busy_world.
Proof.
  intros u.
  destruct (delete_reminder_rejects 500 sample_lib u busy_world eq_refl eq_refl)
    as (_ & H & _).
  rewrite (H "not-an-id" [] eq_refl eq_refl).
  repeat split.
Defined.

Lemma find_unique_key {D} (key : D -> string) (x : string) (l : list D) a d :
  NoDup (List.map key l) ->
  List.find (fun d => String.eqb (key d) x) l = Some a ->
  In d l -> key d = x -> d = a.
Proof.
  induction l as [|y l IH]; cbn; [intros _ ?; discriminate|].
  intros Hn Hf Hin Hk. apply NoDup_cons in Hn. destruct Hn as [Hy Hn].
  destruct (String.eqb (key y) x) eqn:E.
  - injection Hf as <-. destruct Hin as [->|Hin]; [reflexivity|].
    exfalso. apply Hy. apply String.eqb_eq in E. rewrite E, <- Hk.
    apply list_elem_of_In. apply in_map. exact Hin.
  - destruct Hin as [->|Hin].
    + rewrite Hk, String.eqb_refl in E. discriminate.
    + apply IH; assumption.
Qed.

Lemma upsert_request_unique rid user_id t l :
  NoDup (List.map p_rid l) ->
  NoDup (List.map p_rid (upsert_request rid user_id t l)).
Proof.
  intros Hn. unfold upsert_request.
  destruct (List.find (by_rid rid) l) eqn:E.
  - rewrite map_update_first; [exact Hn|reflexivity].
  - rewrite map_app. cbn. apply NoDup_app. split; [exact Hn|].
    split; [|apply NoDup_singleton].
    intros x Hx Hx'. apply list_elem_of_singleton in Hx'. subst x.
    apply list_elem_of_In, in_map_iff in Hx. destruct Hx as (d & Hd & Hin).
    pose proof (find_none _ _ E d Hin) as Hf. unfold by_rid in Hf.
    rewrite Hd, String.eqb_refl in Hf. discriminate.
Qed.

Lemma delete_reminder_request_run SUPERADMIN_ID lib u w rid rest o :
  halt_after w = None ->
  has_entry (id (effective_user u)) (admins w) = true ->
  has_superadmin_entry (id (effective_user u)) (admins w) = false ->
  args u = rid :: rest ->
  oid_of_string rid = Some o ->
  existsb (by_id o) (reminders w) = true ->
  delete_reminder SUPERADMIN_ID lib u w
  = (Ok tt,
     set_trace (trace w ++ [EvFind Admins; EvFind Reminders; EvFind Admins;
                            EvFind Admins; EvUpdate PendingDeletes;
                            EvReply "⌛ Deletion request sent to superadmin." None;
                            EvSend (Chat SUPERADMIN_ID)
                                   (request_notice (id (effective_user u)) rid)
                                   (Some "Markdown")])
       (set_pending_deletes
          (upsert_request rid (id (effective_user u)) (o_time (clock w) (reads w))
                          (pending_deletes w))
          (set_reads (S (reads w)) w))).
Proof.
  intros H Hop Hsa Hargs Hoid Hex.
  destruct (delete_reminder_enters SUPERADMIN_ID lib u w H Hop) as (body & -> & ->).
  apply try_ok.
  rewrite (bind_ok _ _ _ _ _ (arg0_run _ _ _ _ Hargs)).
  unfold ObjectId. rewrite Hoid. rewrite (bind_ok _ _ _ _ _ (ret_run _ _)).
  erewrite bind_ok by (apply find_one_run; exact H). fields.
  pose proof (find_existsb (by_id o) (reminders w)) as Hfe. rewrite Hex in Hfe.
  rewrite Hfe. cbn [negb].
  erewrite bind_ok by (apply is_superadmin_run; exact H). fields.
  rewrite Hsa.
  erewrite bind_ok by (apply is_admin_or_superadmin_run; exact H). fields.
  rewrite Hop.
  rewrite (bind_ok _ _ _ _ _ (time_time_run _)). fields.
  erewrite bind_ok by (apply update_one_upsert_run; exact H). fields.
  unfold reply_text, send_message, upsert_request, request_notice.
  destruct (List.find (by_rid rid) (pending_deletes w)) eqn:E.
  - erewrite bind_ok by (apply io_run; exact H).
    rewrite io_run by exact H. fields. rewrite <- !app_assoc. reflexivity.
  - erewrite bind_ok by (apply io_run; exact H).
    rewrite io_run by exact H. fields. rewrite <- !app_assoc. reflexivity.
Qed.

(** X12.  deletereminder from an admin who is not the superadmin, for a
    stored reminder: the reminder and its timers stay; the request
    collection gets the request for the id as typed, with this admin and the
    current time, replacing an earlier request for the same id, so that one
    request per id remains; the admin is told the request was sent and the
    superadmin gets the notice with the approve and reject commands. *)
Theorem admin_delete_files_request SUPERADMIN_ID lib u w rid rest o :
  halt_after w = None ->
  has_entry (id (effective_user u)) (admins w) = true ->
  has_superadmin_entry (id (effective_user u)) (admins w) = false ->
  args u = rid :: rest ->
  oid_of_string rid = Some o ->
  existsb (by_id o) (reminders w) = true ->
  let user_id := id (effective_user u) in
  let request := PendingDoc rid user_id (o_time (clock w) (reads w)) in
  let r := delete_reminder SUPERADMIN_ID lib u w in
  fst r = Ok tt
  /\ untouched w (snd r)
  /\ admins (snd r) = admins w
  /\ blocked (snd r) = blocked w
  /\ pending_deletes (snd r)
     = upsert_request rid user_id (o_time (clock w) (reads w)) (pending_deletes w)
  /\ List.find (by_rid rid) (pending_deletes (snd r)) = Some request
  /\ (one_request_per_reminder w ->
      forall d, In d (pending_deletes (snd r)) -> p_rid d = rid -> d = request)
  /\ replies (trace (snd r))
     = replies (trace w) ++ ["⌛ Deletion request sent to superadmin."]
  /\ sends (trace (snd r))
     = sends (trace w) ++ [(Chat SUPERADMIN_ID, request_notice user_id rid)].
Proof.
  intros H Hop Hsa Hargs Hoid Hex user_id request r. subst user_id request r.
  rewrite (delete_reminder_request_run SUPERADMIN_ID lib u w rid rest o
             H Hop Hsa Hargs Hoid Hex).
  fields. split; [reflexivity|]. split; [split; reflexivity|].
  do 3 (split; [reflexivity|]).
  split; [apply upsert_request_find|].
  split.
  - intros Hn d Hin Hk.
    apply (find_unique_key p_rid rid
             (upsert_request rid (id (effective_user u)) (o_time (clock w) (reads w))
                (pending_deletes w)));
      [apply upsert_request_unique; exact Hn|apply upsert_request_find
      |exact Hin|exact Hk].
  - rewrite replies_app, sends_app. split; reflexivity.
Qed.

Lemma admin_delete_files_request_witness :
  let u := Update (User 501 None) [sample_rid] in
  has_superadmin_entry 501 (admins busy_world) = false
  /\ existsb (by_id sample_rid) (reminders busy_world) = true
  /\ List.find (by_rid sample_rid)
       (pending_deletes (snd (delete_reminder 500 sample_lib u busy_world)))
     = Some (PendingDoc sample_rid 501 (o_time (clock busy_world) (reads busy_world))).
Proof.
  intros u. split; [reflexivity|]. split; [reflexivity|].
  destruct (admin_delete_files_request 500 sample_lib u busy_world
              sample_rid [] sample_rid
              eq_refl eq_refl eq_refl eq_refl eq_refl eq_refl)
    as (_ & _ & _ & _ & _ & Hf & _).
  exact Hf.
Defined.



(** ** Deciding a deletion request *)

(** X14.  approve and reject from the superadmin without an argument: the
    handler ends with IndexError before it looks at a request; nothing is
    stored, cancelled or sent, and the caller gets no reply. *)
Theorem decision_needs_argument u w :
  halt_after w = None ->
  has_superadmin_entry (id (effective_user u)) (admins w) = true ->
  args u = [] ->
  approve_delete u w
  = (Raise IndexError, set_trace (trace w ++ [EvFind Admins; EvFind Admins]) w)
  /\ reject_delete u w
     = (Raise IndexError, set_trace (trace w ++ [EvFind Admins; EvFind Admins]) w).
Proof.
  intros H Hsa Hargs.
  pose proof (superadmin_has_entry _ _ Hsa) as Hop.
  split.
  - unfold approve_delete.
    rewrite (bind_ok _ _ _ _ _ (check_spam_operator _ _ H Hop)). cbn [negb].
    erewrite bind_ok by (apply is_superadmin_run; exact H). fields.
    rewrite Hsa. cbn [negb].
    rewrite (bind_raise _ _ _ _ _ (arg0_missing _ _ Hargs)).
    fields. rewrite <- app_assoc. reflexivity.
  - unfold reject_delete.
    rewrite (bind_ok _ _ _ _ _ (check_spam_operator _ _ H Hop)). cbn [negb].
    erewrite bind_ok by (apply is_superadmin_run; exact H). fields.
    rewrite Hsa. cbn [negb].
    rewrite (bind_raise _ _ _ _ _ (arg0_missing _ _ Hargs)).
    fields. rewrite <- app_assoc. reflexivity.
Qed.

Lemma decision_needs_argument_witness :
  has_superadmin_entry 500 (admins busy_world) = true
  /\ fst (approve_delete (Update (User 500 None) []) busy_world) = Raise IndexError
  /\ fst (reject_delete (Update (User 500 None) []) busy_world) = Raise IndexError.
Proof.
  split; [reflexivity|].
  destruct (decision_needs_argument (Update (User 500 None) []) busy_world
              eq_refl eq_refl eq_refl) as [Ha Hr].
  rewrite Ha, Hr. split; reflexivity.
Defined.

(** X15.  An admin asks for the deletion of a stored reminder under its
    printed id and the superadmin approves: afterwards the record is gone,
    every timer of the reminder is cancelled and no other, no request for
    the id is pending, the superadmin was sent the notice and the admin the
    approval, in this order. *)
Theorem request_then_approve SUPERADMIN_ID lib ua us w rid :
  halt_after w = None ->
  one_request_per_reminder w ->
  has_entry (id (effective_user ua)) (admins w) = true ->
  has_superadmin_entry (id (effective_user ua)) (admins w) = false ->
  has_superadmin_entry (id (effective_user us)) (admins w) = true ->
  args ua = [rid] -> args us = [rid] ->
  printed_oid rid = true ->
  existsb (by_id rid) (reminders w) = true ->
  let r := (delete_reminder SUPERADMIN_ID lib ua >> approve_delete us) w in
  fst r = Ok tt
  /\ record_deleted w rid (snd r)
  /\ (forall k, scheduler (snd r) !! k
                = if String.prefix (rid +:+ "_") k then None else scheduler w !! k)
  /\ List.find (by_rid rid) (pending_deletes (snd r)) = None
  /\ admins (snd r) = admins w
  /\ sends (trace (snd r))
     = sends (trace w)
       ++ [(Chat SUPERADMIN_ID, request_notice (id (effective_user ua)) rid);
           (Chat (id (effective_user ua)),
            "✅ Your deletion request for " +:+ rid +:+ " was approved.")].
Proof.
  intros H Hn Hop Hnsa Hsa Hua Hus Hoid Hex r. subst r.
  rewrite (bind_ok _ _ _ _ _
             (delete_reminder_request_run SUPERADMIN_ID lib ua w rid [] rid
                H Hop Hnsa Hua (printed_oid_parses _ Hoid) Hex)).
  match goal with |- context [approve_delete us ?w1] =>
    pose proof (approve_delete_found us w1 rid []
                  (PendingDoc rid (id (effective_user ua)) (o_time (clock w) (reads w)))
                  H Hsa Hus (upsert_request_find _ _ _ _) Hoid) as Ha
  end.
  cbn zeta in Ha. fields.
  destruct Ha as (A1 & _ & A3 & _ & A5 & A6 & A7 & _ & A9).
  split; [exact A1|]. split; [exact A5|]. split; [exact A6|].
  split.
  - rewrite A7. apply (find_delete_first_unique p_rid rid).
    apply upsert_request_unique. exact Hn.
  - split; [exact A3|]. rewrite A9, sends_app, <- app_assoc. reflexivity.
Qed.

Lemma request_then_approve_witness :
  let ua := Update (User 501 None) [sample_rid] in
  let us := Update (User 500 None) [sample_rid] in
  (halt_after busy_world = None /\ one_request_per_reminder busy_world)
  /\ (has_entry 501 (admins busy_world) = true
      /\ has_superadmin_entry 501 (admins busy_world) = false
      /\ has_superadmin_entry 500 (admins busy_world) = true)
  /\ (printed_oid sample_rid = true
      /\ existsb (by_id sample_rid) (reminders busy_world) = true)
  /\ reminders (snd ((delete_reminder 500 sample_lib ua >> approve_delete us) busy_world))
     = [].
Proof.
  intros ua us.
  assert (Hn : one_request_per_reminder busy_world)
    by (apply NoDup_singleton).
  split; [split; [reflexivity|exact Hn]|].
  split; [repeat split|]. split; [repeat split|].
  destruct (request_then_approve 500 sample_lib ua us busy_world sample_rid
              eq_refl Hn eq_refl eq_refl eq_refl eq_refl eq_refl eq_refl eq_refl)
    as (_ & Hr & _).
  exact Hr.
Defined.

(** X16.  An admin asks for the deletion of a stored reminder for which no
    request is pending and the superadmin rejects: the reminder, its timers
    and the request collection are as before the request, and the admin is
    sent the rejection after the superadmin was sent the notice. *)
Theorem request_then_reject SUPERADMIN_ID lib ua us w rid o :
  halt_after w = None ->
  has_entry (id (effective_user ua)) (admins w) = true ->
  has_superadmin_entry (id (effective_user ua)) (admins w) = false ->
  has_superadmin_entry (id (effective_user us)) (admins w) = true ->
  args ua = [rid] -> args us = [rid] ->
  oid_of_string rid = Some o ->
  existsb (by_id o) (reminders w) = true ->
  existsb (by_rid rid) (pending_deletes w) = false ->
  let r := (delete_reminder SUPERADMIN_ID lib ua >> reject_delete us) w in
  fst r = Ok tt
  /\ untouched w (snd r)
  /\ pending_deletes (snd r) = pending_deletes w
  /\ admins (snd r) = admins w
  /\ sends (trace (snd r))
     = sends (trace w)
       ++ [(Chat SUPERADMIN_ID, request_notice (id (effective_user ua)) rid);
           (Chat (id (effective_user ua)),
            "🚫 Your deletion request for " +:+ rid +:+ " was rejected.")].
Proof.
  intros H Hop Hnsa Hsa Hua Hus Hoid Hex Hnone r. subst r.
  rewrite (bind_ok _ _ _ _ _
             (delete_reminder_request_run SUPERADMIN_ID lib ua w rid [] o
                H Hop Hnsa Hua Hoid Hex)).
  erewrite reject_delete_found;
    [|exact H|exact Hsa|exact Hus|fields; apply upsert_request_find].
  fields. split; [reflexivity|]. split; [split; reflexivity|].
  split.
  - unfold upsert_request. rewrite (find_none_existsb _ _ Hnone).
    apply delete_first_app_new; [exact Hnone|].
    unfold by_rid. cbn. apply String.eqb_refl.
  - split; [reflexivity|]. rewrite !sends_app. cbn. rewrite <- app_assoc. reflexivity.
Qed.

Lemma request_then_reject_witness :
  let ua := Update (User 501 None) [sample_rid] in
  let us := Update (User 500 None) [sample_rid] in
  let w := set_pending_deletes [] busy_world in
  (has_entry 501 (admins w) = true
   /\ has_superadmin_entry 501 (admins w) = false
   /\ has_superadmin_entry 500 (admins w) = true)
  /\ (oid_of_string sample_rid = Some sample_rid
      /\ existsb (by_id sample_rid) (reminders w) = true
      /\ existsb (by_rid sample_rid) (pending_deletes w) = false)
  /\ pending_deletes (snd ((delete_reminder 500 sample_lib ua >> reject_delete us) w))
     = [].
Proof.
  intros ua us w.
  split; [repeat split|]. split; [repeat split|].
  destruct (request_then_reject 500 sample_lib ua us w sample_rid sample_rid
              eq_refl eq_refl eq_refl eq_refl eq_refl eq_refl eq_refl eq_refl eq_refl)
    as (_ & _ & Hp & _).
  exact Hp.
Defined.

(** ** Setting a reminder *)

Lemma schedule_aware_raises rid t msg w :
  schedule_reminder_jobs rid (DateTime t true) msg w
  = (Raise TypeError, set_reads (S (reads w)) w).
Proof. reflexivity. Qed.

Lemma remind_enters lib u w :
  halt_after w = None ->
  has_entry (id (effective_user u)) (admins w) = true ->
  exists body,
    remind lib u w
    = try_except body (fun e => reply_text (remind_usage lib e) None)
        (set_trace (trace w ++ [EvFind Admins; EvFind Admins]) w)
    /\ body
       = (let! a0 := arg 0 u in
          let! a1 := arg 1 u in
          let dt_str := a0 +:+ " " +:+ a1 in
          let! naive_time :=
            match strptime lib dt_str with
            | Some t => ret t
            | None => raise (ValueError dt_str)
            end in
          let! instant :=
            match ist_to_server lib naive_time with
            | inr t => ret t
            | inl e => raise e
            end in
          let reminder_time := DateTime instant true in
          let server_time := reminder_time in
          let message := join " " (skipn 2 (args u)) in
          if String.eqb message "" then
            reply_text "⚠️ Reminder message cannot be empty." None
          else
          let user_fmt := format_user (effective_user u) in
          let! created_at := datetime_utcnow in
          let! inserted_id := new_ObjectId in
          insert_one Reminders reminders set_reminders
            (ReminderDoc inserted_id (bson_ms (micros server_time)) message
                         (id (effective_user u)) user_fmt
                         (bson_ms (micros created_at))) >>
          let rid := inserted_id in
          schedule_reminder_jobs rid server_time message >>
          let ist_str := strftime_ist lib reminder_time in
          reply_text ("✅ Reminder set (ID: `" +:+ rid +:+ "`)" +:+ nl +:+
                      "⏰ " +:+ ist_str +:+ nl +:+ "📌 " +:+ message +:+ nl +:+
                      "👤 Created by " +:+ user_fmt) (Some "Markdown") >>
          send_message Channel
                     ("📌 New reminder!" +:+ nl +:+ "🆔 `" +:+ rid +:+ "`" +:+ nl +:+
                      "⏰ " +:+ ist_str +:+ nl +:+ "📌 " +:+ message +:+ nl +:+
                      "👤 " +:+ user_fmt) (Some "Markdown")).
Proof.
  intros H Hop. eexists. split; [|reflexivity].
  unfold remind.
  rewrite (bind_ok _ _ _ _ _ (check_spam_operator _ _ H Hop)). cbn [negb].
  erewrite bind_ok by (apply is_admin_or_superadmin_run; exact H). fields.
  rewrite Hop. cbn [negb]. rewrite <- app_assoc. reflexivity.
Qed.

Lemma arg_run n u w s : nth_error (args u) n = Some s -> arg n u w = (Ok s, w).
Proof. intros E. unfold arg. rewrite E. reflexivity. Qed.

Lemma arg_missing n u w :
  nth_error (args u) n = None -> arg n u w = (Raise IndexError, w).
Proof. intros E. unfold arg. rewrite E. reflexivity. Qed.



(** X18.  remind from an admin or the superadmin with fewer than two
    arguments, with a date and time that do not parse, with a date and time
    whose conversion from IST raises, or - the conversion done - with no
    message: the caller gets the usage line with the error, or the notice
    that the message cannot be empty, and nothing in the world changes. *)
Theorem remind_rejects lib u w :
  halt_after w = None ->
  has_entry (id (effective_user u)) (admins w) = true ->
  let r := remind lib u w in
  let told s := (Ok tt, set_trace (trace w ++ [EvFind Admins; EvFind Admins;
                                               EvReply s None]) w) in
  ((length (args u) < 2)%nat -> r = told (remind_usage lib IndexError))
  /\ (forall a0 a1 rest,
      args u = a0 :: a1 :: rest -> strptime lib (a0 +:+ " " +:+ a1) = None ->
      r = told (remind_usage lib (ValueError (a0 +:+ " " +:+ a1))))
  /\ (forall a0 a1 rest t e,
      args u = a0 :: a1 :: rest -> strptime lib (a0 +:+ " " +:+ a1) = Some t ->
      ist_to_server lib t = inl e ->
      r = told (remind_usage lib e))
  /\ (forall a0 a1 rest t instant,
      args u = a0 :: a1 :: rest -> strptime lib (a0 +:+ " " +:+ a1) = Some t ->
      ist_to_server lib t = inr instant ->
      String.eqb (join " " rest) "" = true ->
      r = told "⚠️ Reminder message cannot be empty.").
Proof.
  intros H Hop r told. subst r told.
  destruct (remind_enters lib u w H Hop) as (body & -> & ->).
  unfold try_except, reply_text.
  split; [|split; [|split]].
  - intros Hlen. destruct (args u) as [|a0 [|a1 rest]] eqn:Hargs.
    + rewrite (bind_raise _ _ _ _ _ (arg_missing 0 _ _ ltac:(rewrite Hargs; reflexivity))).
      rewrite io_run by exact H. fields. rewrite <- app_assoc. reflexivity.
    + rewrite (bind_ok _ _ _ _ _ (arg_run 0 _ _ a0 ltac:(rewrite Hargs; reflexivity))).
      rewrite (bind_raise _ _ _ _ _ (arg_missing 1 _ _ ltac:(rewrite Hargs; reflexivity))).
      rewrite io_run by exact H. fields. rewrite <- app_assoc. reflexivity.
    + cbn in Hlen. lia.
  - intros a0 a1 rest Hargs Ht.
    rewrite (bind_ok _ _ _ _ _ (arg_run 0 _ _ a0 ltac:(rewrite Hargs; reflexivity))).
    rewrite (bind_ok _ _ _ _ _ (arg_run 1 _ _ a1 ltac:(rewrite Hargs; reflexivity))).
    cbn zeta. rewrite Ht.
    match goal with |- context [bind (raise ?e) ?k ?w0] =>
      rewrite (bind_raise (raise e) k w0 e w0 eq_refl) end.
    rewrite io_run by exact H. fields. rewrite <- app_assoc. reflexivity.
  - intros a0 a1 rest t e Hargs Ht Hconv.
    rewrite (bind_ok _ _ _ _ _ (arg_run 0 _ _ a0 ltac:(rewrite Hargs; reflexivity))).
    rewrite (bind_ok _ _ _ _ _ (arg_run 1 _ _ a1 ltac:(rewrite Hargs; reflexivity))).
    cbn zeta. rewrite Ht. rewrite (bind_ok _ _ _ _ _ (ret_run _ _)).
    rewrite Hconv.
    match goal with |- context [bind (raise ?e') ?k ?w0] =>
      rewrite (bind_raise (raise e') k w0 e' w0 eq_refl) end.
    rewrite io_run by exact H. fields. rewrite <- app_assoc. reflexivity.
  - intros a0 a1 rest t instant Hargs Ht Hconv Hmsg.
    rewrite (bind_ok _ _ _ _ _ (arg_run 0 _ _ a0 ltac:(rewrite Hargs; reflexivity))).
    rewrite (bind_ok _ _ _ _ _ (arg_run 1 _ _ a1 ltac:(rewrite Hargs; reflexivity))).
    cbn zeta. rewrite Ht. rewrite (bind_ok _ _ _ _ _ (ret_run _ _)).
    rewrite Hconv. rewrite (bind_ok _ _ _ _ _ (ret_run _ _)).
    cbn beta zeta. rewrite Hargs. change (skipn 2 (a0 :: a1 :: rest)) with rest.
    rewrite Hmsg.
    rewrite io_run by exact H. fields. rewrite <- app_assoc. reflexivity.
Qed.

Lemma remind_rejects_witness :
  let u := Update (User 501 None) ["2025-01-10"; "14:00"] in
  has_entry 501 (admins busy_world) = true
  /\ String.eqb (join " " []) "" = true
  /\ snd (remind sample_lib u busy_world)
     = set_trace [EvFind Admins; EvFind Admins;
                  EvReply "⚠️ Reminder message cannot be empty." None] busy_world.
Proof.
  intros u. split; [reflexivity|]. split; [reflexivity|].
  destruct (remind_rejects sample_lib u busy_world eq_refl eq_refl) as (_ & _ & _ & Hm).
  rewrite (Hm "2025-01-10" "14:00" [] 9000000000 (9000000000 - IST_OFFSET)
              eq_refl eq_refl eq_refl eq_refl).
  reflexivity.
Defined.

(** ** Timers *)

Lemma fold_register_frame rid d msg es w :
  let w' := fold_left (register rid d msg) es w in
  halt_after w' = halt_after w
  /\ admins w' = admins w
  /\ reminders w' = reminders w
  /\ blocked w' = blocked w
  /\ pending_deletes w' = pending_deletes w
  /\ user_requests w' = user_requests w
  /\ clock w' = clock w
  /\ reads w' = reads w
  /\ replies (trace w') = replies (trace w)
  /\ sends (trace w') = sends (trace w)
  /\ forall k, foreign rid k -> scheduler w' !! k = scheduler w !! k.
Proof.
  revert w. induction es as [|e es IH]; intros w; cbn zeta.
  - repeat split; reflexivity.
  - cbn [fold_left]. specialize (IH (register rid d msg w e)). cbn zeta in IH.
    destruct IH as (H1 & H2 & H3 & H4 & H5 & H6 & H7 & H8 & H9 & H10 & H11).
    rewrite H1, H2, H3, H4, H5, H6, H7, H8, H9, H10.
    do 10 (split; [unfold register; fields; rewrite ?replies_app, ?sends_app;
                   cbn; rewrite ?app_nil_r; reflexivity|]).
    intros k Hk. rewrite (H11 k Hk). unfold register. fields.
    apply lookup_insert_ne. intros <-.
    unfold foreign in Hk. rewrite prefix_job_id_of in Hk. discriminate.
Qed.

Lemma fold_register_miss rid d msg es w k :
  ~ k ∈ List.map (fun x => job_id_of rid (fst x)) es ->
  scheduler (fold_left (register rid d msg) es w) !! k = scheduler w !! k.
Proof.
  revert w. induction es as [|y es IH]; intros w Hy; [reflexivity|].
  cbn [fold_left]. rewrite IH.
  - unfold register. fields. apply lookup_insert_ne. intros E. apply Hy.
    cbn [List.map]. apply elem_of_cons. left. symmetry. exact E.
  - intros E. apply Hy. cbn [List.map]. apply elem_of_cons. right. exact E.
Qed.

Lemma fold_register_lookup rid d msg es w i e :
  NoDup (List.map (fun x => job_id_of rid (fst x)) es) ->
  In (i, e) es ->
  scheduler (fold_left (register rid d msg) es w) !! job_id_of rid i
  = Some (DateJob (dt_sub d (fst e)) (snd e +:+ " " +:+ msg)).
Proof.
  revert w. induction es as [|x es IH]; intros w Hn Hin; [destruct Hin|].
  cbn [List.map] in Hn. apply NoDup_cons in Hn. destruct Hn as [Hx Hn].
  cbn [fold_left]. destruct Hin as [->|Hin].
  - rewrite fold_register_miss by exact Hx.
    unfold register. fields. apply lookup_insert_eq.
  - apply IH; assumption.
Qed.

Lemma NoDup_map_filter {D K} (key : D -> K) (p : D -> bool) (l : list D) :
  NoDup (List.map key l) -> NoDup (List.map key (List.filter p l)).
Proof.
  induction l as [|x l IH]; intros Hn; [exact Hn|].
  cbn [List.map] in Hn. apply NoDup_cons in Hn. destruct Hn as [Hx Hn].
  cbn [List.filter]. destruct (p x); [|apply IH; exact Hn].
  cbn [List.map]. apply NoDup_cons. split; [|apply IH; exact Hn].
  intros E. apply Hx. apply list_elem_of_In in E. apply list_elem_of_In.
  apply in_map_iff in E. destruct E as (y & Hy & Hin).
  apply in_map_iff. exists y. split; [exact Hy|].
  apply filter_In in Hin. apply Hin.
Qed.

(** What scheduling a stored reminder leaves alone. *)
Lemma rescheduled_frame w r :
  halt_after w = None ->
  let w' := rescheduled w r in
  fst (schedule_reminder_jobs (r_id r) (DateTime (r_time r) false) (r_message r) w)
  = Ok tt
  /\ halt_after w' = None
  /\ admins w' = admins w
  /\ reminders w' = reminders w
  /\ blocked w' = blocked w
  /\ pending_deletes w' = pending_deletes w
  /\ user_requests w' = user_requests w
  /\ clock w' = clock w
  /\ replies (trace w') = replies (trace w)
  /\ sends (trace w') = sends (trace w)
  /\ forall k, foreign (r_id r) k -> scheduler w' !! k = scheduler w !! k.
Proof.
  intros H. unfold rescheduled. rewrite schedule_reminder_jobs_run by exact H.
  cbn [fst snd].
  match goal with |- context [fold_left ?f ?es ?w1] =>
    pose proof (fold_register_frame (r_id r) (DateTime (r_time r) false)
                  (r_message r) es w1) as Hf
  end.
  cbn zeta in Hf. fields.
  destruct Hf as (H1 & H2 & H3 & H4 & H5 & H6 & H7 & H8 & H9 & H10 & H11).
  split; [reflexivity|]. rewrite H1, H2, H3, H4, H5, H6, H7, H9, H10.
  repeat split; try assumption; try reflexivity.
Qed.

(** A ladder entry whose run time is still ahead gets its timer. *)
Lemma rescheduled_lookup w r i e :
  halt_after w = None ->
  nth_error _get_intervals i = Some e ->
  o_now (clock w) (reads w) < r_time r - fst e ->
  scheduler (rescheduled w r) !! job_id_of (r_id r) i
  = Some (ladder_job (r_time r) (r_message r) e).
Proof.
  intros H Hi Hlt. unfold rescheduled. rewrite schedule_reminder_jobs_run by exact H.
  cbn [snd]. unfold ladder_job.
  apply (fold_register_lookup (r_id r) (DateTime (r_time r) false) (r_message r)).
  - apply NoDup_map_filter. exact (job_ids_distinct (r_id r)).
  - apply filter_In. split.
    + do 5 (destruct i as [|i]; [injection Hi as <-; cbn; tauto|]).
      destruct i; discriminate.
    + unfold due_later. cbn [fst snd]. apply Z.ltb_lt. exact Hlt.
Qed.

(** The loop of [reload_reminders] over the reminders it found. *)
Lemma reload_loop_run l w :
  halt_after w = None ->
  for_each (fun r => schedule_reminder_jobs (r_id r) (DateTime (r_time r) false)
                       (r_message r)) l w
  = (Ok tt, fold_left rescheduled l w).
Proof.
  revert w. induction l as [|r l IH]; intros w H; [reflexivity|].
  cbn [for_each fold_left].
  destruct (rescheduled_frame w r H) as (Hok & Hh & _).
  rewrite (bind_ok _ _ _ tt (rescheduled w r)).
  - apply IH. exact Hh.
  - unfold rescheduled.
    destruct (schedule_reminder_jobs (r_id r) (DateTime (r_time r) false)
                (r_message r) w) as [o w1].
    cbn in Hok. subst o. reflexivity.
Qed.

Lemma fold_rescheduled_frame l w :
  halt_after w = None ->
  let w' := fold_left rescheduled l w in
  halt_after w' = None
  /\ admins w' = admins w
  /\ reminders w' = reminders w
  /\ blocked w' = blocked w
  /\ pending_deletes w' = pending_deletes w
  /\ user_requests w' = user_requests w
  /\ clock w' = clock w
  /\ replies (trace w') = replies (trace w)
  /\ sends (trace w') = sends (trace w)
  /\ forall k, (forall r, In r l -> foreign (r_id r) k) ->
               scheduler w' !! k = scheduler w !! k.
Proof.
  revert w. induction l as [|r l IH]; intros w H; cbn zeta.
  - repeat split; try assumption; reflexivity.
  - cbn [fold_left].
    destruct (rescheduled_frame w r H)
      as (_ & R1 & R2 & R3 & R4 & R5 & R6 & R7 & R8 & R9 & R10).
    destruct (IH (rescheduled w r) R1)
      as (H1 & H2 & H3 & H4 & H5 & H6 & H7 & H8 & H9 & H10).
    rewrite H2, H3, H4, H5, H6, H7, H8, H9, R2, R3, R4, R5, R6, R7, R8, R9.
    do 9 (split; [first [assumption|reflexivity]|]).
    intros k Hk. rewrite H10, R10; [reflexivity| |].
    + apply Hk. left. reflexivity.
    + intros r' Hr'. apply Hk. right. exact Hr'.
Qed.

Lemma reload_reminders_run w :
  halt_after w = None ->
  reload_reminders w
  = (Ok tt,
     fold_left rescheduled (reloaded w)
       (set_trace (trace w ++ [EvFind Reminders]) (set_reads (S (reads w)) w))).
Proof.
  intros H. unfold reload_reminders.
  rewrite (bind_ok _ _ _ _ _ (eq_refl : datetime_now w = (Ok _, _))).
  unfold find_all. rewrite ?bind_assoc.
  erewrite bind_ok by (apply io_run; exact H).
  rewrite (bind_ok _ _ _ _ _ (gets_run _ _)). fields.
  rewrite reload_loop_run by exact H. reflexivity.
Qed.

(** X19.  reload_reminders returns, changes no collection and writes to
    nobody; a job whose id is no timer id of a stored reminder that is not
    yet past, such as the keep-alive job or a timer of a past reminder with
    another id, is left as it was. *)
Theorem reload_reminders_frame w :
  halt_after w = None ->
  let r := reload_reminders w in
  fst r = Ok tt
  /\ admins (snd r) = admins w
  /\ reminders (snd r) = reminders w
  /\ blocked (snd r) = blocked w
  /\ pending_deletes (snd r) = pending_deletes w
  /\ user_requests (snd r) = user_requests w
  /\ replies (trace (snd r)) = replies (trace w)
  /\ sends (trace (snd r)) = sends (trace w)
  /\ forall k, (forall d, In d (reloaded w) -> foreign (r_id d) k) ->
               scheduler (snd r) !! k = scheduler w !! k.
Proof.
  intros H r. subst r. rewrite reload_reminders_run by exact H. cbn [fst snd].
  match goal with |- context [fold_left rescheduled ?l ?w1] =>
    destruct (fold_rescheduled_frame l w1 H)
      as (H1 & H2 & H3 & H4 & H5 & H6 & H7 & H8 & H9 & H10)
  end.
  fields. rewrite H2, H3, H4, H5, H6, H8, H9.
  rewrite replies_app, sends_app. cbn. rewrite !app_nil_r.
  do 8 (split; [reflexivity|]). exact H10.
Qed.

Lemma reload_reminders_frame_witness :
  halt_after busy_world = None
  /\ scheduler (snd (reload_reminders busy_world)) !! "ping_self_job"
     = Some (IntervalJob 2).
Proof.
  split; [reflexivity|].
  destruct (reload_reminders_frame busy_world eq_refl)
    as (_ & _ & _ & _ & _ & _ & _ & _ & Hk).
  rewrite Hk; [reflexivity|].
  intros d Hd. apply filter_In in Hd. destruct Hd as [Hd _].
  destruct Hd as [<-|[]]. reflexivity.
Defined.

Lemma prefix_length s k : String.prefix s k = true -> (String.length s <= String.length k)%nat.
Proof.
  revert k. induction s as [|c s IH]; intros k H; [cbn; lia|].
  destruct k as [|c' k]; [discriminate|].
  cbn [String.prefix] in H. destruct (Ascii.ascii_dec c c'); [|discriminate].
  cbn [String.length]. specialize (IH k H). lia.
Qed.

Lemma length_append s t :
  String.length (s +:+ t) = (String.length s + String.length t)%nat.
Proof.
  induction s as [|c s IH]; [reflexivity|].
  change (S (String.length (s +:+ t)) = S (String.length s + String.length t)).
  rewrite IH. reflexivity.
Qed.

Lemma prefix_same_length a b s t :
  String.length a = String.length b ->
  String.prefix (a +:+ s) (b +:+ t) = true -> a = b.
Proof.
  revert b. induction a as [|c a IH]; intros b Hl H.
  - destruct b; [reflexivity|discriminate].
  - destruct b as [|c' b]; [discriminate|].
    change (String.prefix (String c (a +:+ s)) (String c' (b +:+ t)) = true) in H.
    cbn [String.prefix] in H. destruct (Ascii.ascii_dec c c') as [->|]; [|discriminate].
    f_equal. apply IH; [|exact H]. cbn in Hl. lia.
Qed.

(** Timer ids of reminders with different ids of the same length do not
    collide, and the keep-alive job is no timer id of a 24-character id. *)
Lemma foreign_other_id rid rid' i :
  String.length rid = String.length rid' -> rid <> rid' ->
  foreign rid (job_id_of rid' i).
Proof.
  intros Hl Hne. unfold foreign.
  destruct (String.prefix (rid +:+ "_") (job_id_of rid' i)) eqn:E; [|reflexivity].
  exfalso. apply Hne. unfold job_id_of in E.
  apply (prefix_same_length _ _ _ _ Hl E).
Qed.

Lemma foreign_ping rid : String.length rid = 24%nat -> foreign rid "ping_self_job".
Proof.
  intros Hl. unfold foreign.
  destruct (String.prefix (rid +:+ "_") "ping_self_job") eqn:E; [|reflexivity].
  apply prefix_length in E. rewrite length_append, Hl in E. cbn in E. lia.
Qed.

Lemma fold_rescheduled_lookup l w d i e :
  halt_after w = None ->
  NoDup (List.map r_id l) ->
  (forall x, In x l -> String.length (r_id x) = 24%nat) ->
  In d l ->
  nth_error _get_intervals i = Some e ->
  (forall n, o_now (clock w) n < r_time d - fst e) ->
  scheduler (fold_left rescheduled l w) !! job_id_of (r_id d) i
  = Some (ladder_job (r_time d) (r_message d) e).
Proof.
  revert w. induction l as [|x l IH]; intros w H Hn Hlen Hin Hi Hlt; [destruct Hin|].
  cbn [List.map] in Hn. apply NoDup_cons in Hn. destruct Hn as [Hx Hn].
  cbn [fold_left].
  destruct (rescheduled_frame w x H) as (_ & R1 & _ & _ & _ & _ & _ & R7 & _).
  destruct Hin as [->|Hin].
  - destruct (fold_rescheduled_frame l (rescheduled w d) R1)
      as (_ & _ & _ & _ & _ & _ & _ & _ & _ & F).
    rewrite F.
    + apply rescheduled_lookup; [exact H|exact Hi|apply Hlt].
    + intros r Hr. apply foreign_other_id.
      * rewrite (Hlen r (or_intror Hr)), (Hlen d (or_introl eq_refl)). reflexivity.
      * intros E. apply Hx. rewrite <- E. apply list_elem_of_In, in_map. exact Hr.
  - apply IH; [exact R1|exact Hn| |exact Hin|exact Hi|].
    + intros y Hy. apply Hlen. right. exact Hy.
    + intros n. rewrite R7. apply Hlt.
Qed.

(** X20.  reload_reminders restores timers: for a stored reminder that is
    not yet past, with ids of 24 characters that are pairwise different,
    every entry of the ladder whose run time is ahead of every reading of
    the clock gets its timer, with the run time, the prefix and the stored
    message. *)
Theorem reload_restores_timers w d i e :
  halt_after w = None ->
  NoDup (List.map r_id (reminders w)) ->
  (forall x, In x (reminders w) -> String.length (r_id x) = 24%nat) ->
  In d (reminders w) ->
  bson_ms (o_now (clock w) (reads w)) <= r_time d ->
  nth_error _get_intervals i = Some e ->
  (forall n, o_now (clock w) n < r_time d - fst e) ->
  scheduler (snd (reload_reminders w)) !! job_id_of (r_id d) i
  = Some (ladder_job (r_time d) (r_message d) e).
Proof.
  intros H Hn Hlen Hin Hge Hi Hlt.
  rewrite reload_reminders_run by exact H. cbn [snd].
  apply fold_rescheduled_lookup.
  - exact H.
  - apply NoDup_map_filter. exact Hn.
  - intros x Hx. apply Hlen. apply filter_In in Hx. apply Hx.
  - apply filter_In. split; [exact Hin|]. apply Z.leb_le. exact Hge.
  - exact Hi.
  - exact Hlt.
Qed.

Lemma reload_restores_timers_witness :
  let d := ReminderDoc sample_rid 9000000000 "Infosys drive" 501 "@priya" 0 in
  let w := set_scheduler ∅ busy_world in
  In d (reminders w)
  /\ bson_ms (o_now (clock w) (reads w)) <= r_time d
  /\ scheduler (snd (reload_reminders w)) !! job_id_of sample_rid 0
     = Some (DateJob (DateTime 1800000000 false) "⏰ Reminder in 2 hours: Infosys drive").
Proof.
  intros d w.
  assert (Hin : In d (reminders w)) by (left; reflexivity).
  assert (Hge : bson_ms (o_now (clock w) (reads w)) <= r_time d) by (vm_compute; discriminate).
  split; [exact Hin|]. split; [exact Hge|].
  apply (reload_restores_timers w d 0 (hours 2, "⏰ Reminder in 2 hours:")).
  - reflexivity.
  - apply NoDup_singleton.
  - intros x [<-|[]]. reflexivity.
  - exact Hin.
  - exact Hge.
  - reflexivity.
  - intros n. vm_compute. reflexivity.
Defined.

(** ** Cancelling timers *)

(** X21.  remove_reminder_jobs for an id of 24 characters returns and leaves
    no timer of that id; the keep-alive job and the timers of every other
    24-character id are as before; no collection changes and nothing is
    sent; a second call changes nothing in the job store. *)
Theorem remove_reminder_jobs_isolated rid w :
  halt_after w = None ->
  String.length rid = 24%nat ->
  let r := remove_reminder_jobs rid w in
  fst r = Ok tt
  /\ (forall i, scheduler (snd r) !! job_id_of rid i = None)
  /\ scheduler (snd r) !! "ping_self_job" = scheduler w !! "ping_self_job"
  /\ (forall rid' i, String.length rid' = 24%nat -> rid' <> rid ->
        scheduler (snd r) !! job_id_of rid' i = scheduler w !! job_id_of rid' i)
  /\ scheduler (snd (remove_reminder_jobs rid (snd r))) = scheduler (snd r)
  /\ admins (snd r) = admins w
  /\ blocked (snd r) = blocked w
  /\ reminders (snd r) = reminders w
  /\ pending_deletes (snd r) = pending_deletes w
  /\ replies (trace (snd r)) = replies (trace w)
  /\ sends (trace (snd r)) = sends (trace w).
Proof.
  intros H Hl r. subst r.
  rewrite remove_reminder_jobs_run by exact H. cbn [fst snd].
  destruct (cancelled_frame rid w) as (C1 & C2 & C3 & C4 & C5 & C6 & C7).
  split; [reflexivity|]. split.
  { intros i. rewrite cancelled_scheduler, prefix_job_id_of. reflexivity. }
  split.
  { rewrite cancelled_scheduler. rewrite (foreign_ping rid Hl). reflexivity. }
  split.
  { intros rid' i Hl' Hne. rewrite cancelled_scheduler.
    rewrite (foreign_other_id rid rid' i); [reflexivity|congruence|congruence]. }
  split.
  { rewrite remove_reminder_jobs_run by (rewrite C1; exact H). cbn [snd].
    apply map_eq. intros k. rewrite !cancelled_scheduler.
    destruct (String.prefix (rid +:+ "_") k); reflexivity. }
  rewrite C2, C3, C4, C5, C7.
  do 4 (split; [reflexivity|]).
  rewrite replies_app, sends_app.
  change (replies (EvGetJobs :: ?l)) with (replies l).
  change (sends (EvGetJobs :: ?l)) with (sends l).
  rewrite replies_remove_jobs, sends_remove_jobs, !app_nil_r.
  split; reflexivity.
Qed.

Lemma remove_reminder_jobs_isolated_witness :
  String.length sample_rid = 24%nat
  /\ scheduler (snd (remove_reminder_jobs sample_rid busy_world)) !! "ping_self_job"
     = Some (IntervalJob 2)
  /\ scheduler (snd (remove_reminder_jobs sample_rid busy_world))
     !! job_id_of sample_rid 4 = None.
Proof.
  split; [reflexivity|].
  destruct (remove_reminder_jobs_isolated sample_rid busy_world eq_refl eq_refl)
    as (_ & Hi & Hp & _).
  split; [rewrite Hp; reflexivity|apply Hi].
Defined.

(** X22.  Scheduling the timers of a reminder and cancelling them again
    leaves the job store as it was, when no job id started with the
    reminder id and an underscore before. *)
Theorem schedule_then_cancel rid t msg w :
  halt_after w = None ->
  (forall k, String.prefix (rid +:+ "_") k = true -> scheduler w !! k = None) ->
  let r := (schedule_reminder_jobs rid (DateTime t false) msg >>
            remove_reminder_jobs rid) w in
  fst r = Ok tt /\ scheduler (snd r) = scheduler w.
Proof.
  intros H Hfree r. subst r.
  rewrite (bind_ok _ _ _ _ _ (schedule_reminder_jobs_run rid t msg w H)).
  match goal with |- context [fold_left ?f ?es ?w1] =>
    destruct (fold_register_frame rid (DateTime t false) msg es w1)
      as (F1 & _ & _ & _ & _ & _ & _ & _ & _ & _ & F11)
  end.
  rewrite remove_reminder_jobs_run by (rewrite F1; exact H). cbn [fst snd].
  split; [reflexivity|].
  apply map_eq. intros k. rewrite cancelled_scheduler.
  destruct (String.prefix (rid +:+ "_") k) eqn:E.
  - symmetry. apply Hfree. exact E.
  - rewrite F11 by exact E. reflexivity.
Qed.

Lemma schedule_then_cancel_witness :
  (forall k, String.prefix (sample_rid +:+ "_") k = true ->
             scheduler empty_world !! k = None)
  /\ scheduler (snd ((schedule_reminder_jobs sample_rid (DateTime 9000000000 false)
                        "Infosys drive" >>
                      remove_reminder_jobs sample_rid) empty_world))
     = ∅.
Proof.
  assert (Hfree : forall k, String.prefix (sample_rid +:+ "_") k = true ->
                            scheduler empty_world !! k = None)
    by (intros k _; apply lookup_empty).
  split; [exact Hfree|].
  exact (proj2 (schedule_then_cancel sample_rid 9000000000 "Infosys drive"
                  empty_world eq_refl Hfree)).
Defined.

(** ** Restart *)

Lemma ensure_superadmin_run SUPERADMIN_ID w :
  halt_after w = None ->
  exists w',
    ensure_superadmin SUPERADMIN_ID w = (Ok tt, w')
    /\ halt_after w' = None
    /\ reminders w' = reminders w
    /\ blocked w' = blocked w
    /\ pending_deletes w' = pending_deletes w
    /\ scheduler w' = scheduler w
    /\ user_requests w' = user_requests w
    /\ clock w' = clock w
    /\ reads w' = reads w
    /\ replies (trace w') = replies (trace w)
    /\ sends (trace w') = sends (trace w).
Proof.
  intros H. unfold ensure_superadmin.
  erewrite bind_ok by (apply find_one_run; exact H). fields.
  destruct (List.find (by_role "superadmin") (admins w)); cbn [is_some negb].
  - eexists. split; [reflexivity|]. fields.
    rewrite replies_app, sends_app. cbn. rewrite !app_nil_r.
    repeat split; first [assumption|reflexivity].
  - eexists. split; [apply insert_one_run; exact H|]. fields.
    rewrite !replies_app, !sends_app. cbn. rewrite !app_nil_r.
    repeat split; first [assumption|reflexivity].
Qed.

Lemma add_job_fresh_run k j w :
  halt_after w = None ->
  scheduler w !! k = None ->
  add_job k j w
  = (Ok tt, set_scheduler (<[k := j]> (scheduler w))
              (set_trace (trace w ++ [EvAddJob k]) w)).
Proof.
  intros H Hk. unfold add_job.
  rewrite (bind_ok _ _ _ _ _ (io_run _ _ H)).
  rewrite (bind_ok _ _ _ _ _ (gets_run _ _)). fields. rewrite Hk.
  reflexivity.
Qed.

(** X23.  A restart, on a store whose reminder ids have 24 characters:
    startup returns; the request histories are empty, while the block list,
    the reminders and the deletion requests are those of the store; the
    keep-alive job is registered; a job id that is no timer id of a stored
    reminder has no job, so timers of reminders that are gone do not come
    back; nobody is written to. *)
Theorem restart_state SUPERADMIN_ID w :
  halt_after w = None ->
  (forall x, In x (reminders w) -> String.length (r_id x) = 24%nat) ->
  let r := startup SUPERADMIN_ID w in
  fst r = Ok tt
  /\ user_requests (snd r) = ∅
  /\ blocked (snd r) = blocked w
  /\ reminders (snd r) = reminders w
  /\ pending_deletes (snd r) = pending_deletes w
  /\ scheduler (snd r) !! "ping_self_job" = Some (IntervalJob 2)
  /\ (forall k, k <> "ping_self_job" ->
        (forall d, In d (reminders w) -> foreign (r_id d) k) ->
        scheduler (snd r) !! k = None)
  /\ replies (trace (snd r)) = replies (trace w)
  /\ sends (trace (snd r)) = sends (trace w).
Proof.
  intros H Hlen r. subst r. unfold startup.
  rewrite ?bind_assoc.
  rewrite (bind_ok _ _ _ _ _ (modify_run _ _)).
  destruct (ensure_superadmin_run SUPERADMIN_ID (set_scheduler ∅ w) H)
    as (w1 & E & E1 & E2 & E3 & E4 & E5 & E6 & E7 & E8 & E9 & E10).
  fields.
  rewrite (bind_ok _ _ _ _ _ E).
  rewrite (bind_ok _ _ _ _ _ (modify_run _ _)).
  erewrite bind_ok
    by (apply add_job_fresh_run; fields; [exact E1|rewrite E5; apply lookup_empty]).
  fields.
  rewrite reload_reminders_run by exact E1. cbn [fst snd].
  match goal with |- context [fold_left rescheduled ?l ?w2] =>
    destruct (fold_rescheduled_frame l w2 E1)
      as (F1 & F2 & F3 & F4 & F5 & F6 & F7 & F8 & F9 & F10);
    assert (Hl : forall d, In d l -> In d (reminders w))
      by (intros d Hd; apply filter_In in Hd; destruct Hd as [Hd _];
          fields; rewrite E2 in Hd; exact Hd)
  end.
  fields. rewrite F3, F4, F5, F6, F8, F9, E2, E3, E4.
  rewrite !replies_app, !sends_app, E9, E10. cbn. rewrite !app_nil_r.
  split; [reflexivity|]. do 4 (split; [reflexivity|]).
  split.
  { rewrite F10.
    - rewrite E5. apply lookup_insert_eq.
    - intros d Hd. apply foreign_ping. apply Hlen. apply Hl. exact Hd. }
  split; [|split; reflexivity].
  intros k Hk Hf. rewrite F10.
  - rewrite E5. rewrite lookup_insert_ne by congruence. apply lookup_empty.
  - intros d Hd. apply Hf. apply Hl. exact Hd.
Qed.

Lemma restart_state_witness :
  (forall x, In x (reminders busy_world) -> String.length (r_id x) = 24%nat)
  /\ user_requests (snd (startup 500 busy_world)) = ∅
  /\ blocked (snd (startup 500 busy_world)) = blocked busy_world.
Proof.
  assert (Hlen : forall x, In x (reminders busy_world) ->
                           String.length (r_id x) = 24%nat)
    by (intros x [<-|[]]; reflexivity).
  split; [exact Hlen|].
  destruct (restart_state 500 busy_world eq_refl Hlen) as (_ & Hu & Hb & _).
  split; [exact Hu|exact Hb].
Defined.

(** ** Listing reminders *)

Lemma by_time_total : Total by_time.
Proof. intros a b. unfold by_time. lia. Qed.

Lemma reminder_lines_ok lib docs lines :
  reminder_lines lib docs = inr lines ->
  Forall2 (fun r line => exists stamp,
             strftime_stored lib (r_time r) = inr stamp
             /\ line = reminder_line stamp r) docs lines.
Proof.
  revert lines. induction docs as [|r docs IH]; intros lines; cbn [reminder_lines].
  - intros E. injection E as <-. constructor.
  - destruct (strftime_stored lib (r_time r)) as [e|stamp] eqn:Er; [discriminate|].
    destruct (reminder_lines lib docs) as [e|rest]; [discriminate|].
    intros E. injection E as <-. constructor.
    + exists stamp. split; [exact Er|reflexivity].
    + apply IH. reflexivity.
Qed.

Lemma reminder_lines_bad lib docs e :
  reminder_lines lib docs = inl e ->
  exists r, In r docs /\ strftime_stored lib (r_time r) = inl e.
Proof.
  induction docs as [|r docs IH]; cbn [reminder_lines]; [discriminate|].
  destruct (strftime_stored lib (r_time r)) as [e'|stamp] eqn:Er.
  - intros E. injection E as ->. exists r. split; [left; reflexivity|exact Er].
  - destruct (reminder_lines lib docs) as [e'|rest]; [|discriminate].
    intros E. injection E as ->. destruct (IH eq_refl) as (r' & Hin & Hr').
    exists r'. split; [right; exact Hin|exact Hr'].
Qed.

(** X24.  list_reminders from an admin or the superadmin goes through the
    stored reminders in the order of their times, each exactly once.  When
    every time can be rendered, it replies with one entry per reminder,
    joined by newlines and cut to 3900 characters; with no reminder the
    text is built from no entry and the notice that none is set goes into
    the parse mode.  When a time cannot be rendered, the handler ends with
    that error, without a reply.  Nothing else changes either way. *)
Theorem list_reminders_sorted lib u w :
  halt_after w = None ->
  has_entry (id (effective_user u)) (admins w) = true ->
  exists docs,
    docs ≡ₚ reminders w
    /\ Sorted by_time docs
    /\ (forall lines,
        reminder_lines lib docs = inr lines ->
        Forall2 (fun r line => exists stamp,
                   strftime_stored lib (r_time r) = inr stamp
                   /\ line = reminder_line stamp r) docs lines
        /\ list_reminders lib u w
           = (Ok tt,
              set_trace
                (trace w
                 ++ [EvFind Admins; EvFind Reminders;
                     EvReply (py_take lib 3900 (join nl lines))
                             (Some (match docs with
                                    | [] => "📭 No reminders set."
                                    | _ => "Markdown"
                                    end))]) w))
    /\ (forall e,
        reminder_lines lib docs = inl e ->
        (exists r, In r (reminders w) /\ strftime_stored lib (r_time r) = inl e)
        /\ list_reminders lib u w
           = (Raise e, set_trace (trace w ++ [EvFind Admins; EvFind Reminders]) w))
    /\ ((forall r, In r (reminders w) ->
                   exists stamp, strftime_stored lib (r_time r) = inr stamp) ->
        exists lines, reminder_lines lib docs = inr lines).
Proof.
  intros H Hop.
  pose (docs := @merge_sort _ by_time (@decide_rel _ _ by_time by_time_dec) (reminders w)).
  assert (Hperm : docs ≡ₚ reminders w) by apply merge_sort_Permutation.
  assert (Hrun : list_reminders lib u w
                 = match reminder_lines lib docs with
                   | inl e => raise e
                   | inr lines =>
                       reply_text (py_take lib 3900 (join nl lines))
                         (Some (match lines with
                                | [] => "📭 No reminders set."
                                | _ => "Markdown"
                                end))
                   end (set_trace (trace w ++ [EvFind Admins; EvFind Reminders]) w)).
  { unfold list_reminders.
    rewrite (bind_ok _ _ _ _ _ (check_spam_operator _ _ H Hop)). cbn [negb].
    unfold find_all. rewrite ?bind_assoc.
    erewrite bind_ok by (apply io_run; exact H).
    rewrite (bind_ok _ _ _ _ _ (gets_run _ _)). fields. cbn zeta.
    rewrite <- app_assoc. reflexivity. }
  exists docs. split; [exact Hperm|].
  split; [apply (@Sorted_merge_sort _ by_time (@decide_rel _ _ by_time by_time_dec)
                   by_time_total)|].
  split; [|split].
  - intros lines E. pose proof (reminder_lines_ok lib docs lines E) as Hl.
    split; [exact Hl|]. rewrite Hrun, E.
    unfold reply_text. rewrite io_run by exact H. fields.
    rewrite <- app_assoc. cbn [app].
    destruct Hl; reflexivity.
  - intros e E. split.
    + destruct (reminder_lines_bad lib docs e E) as (r & Hin & Hr).
      exists r. split; [|exact Hr].
      apply list_elem_of_In. rewrite <- Hperm. apply list_elem_of_In. exact Hin.
    + rewrite Hrun, E. reflexivity.
  - intros Hall. destruct (reminder_lines lib docs) as [e|lines] eqn:E.
    + destruct (reminder_lines_bad lib docs e E) as (r & Hin & Hr).
      assert (Hin' : In r (reminders w)).
      { apply list_elem_of_In. rewrite <- Hperm. apply list_elem_of_In. exact Hin. }
      destruct (Hall r Hin') as (stamp & Hs). congruence.
    + exists lines. reflexivity.
Qed.

Lemma list_reminders_sorted_witness :
  has_entry 501 (admins busy_world) = true
  /\ exists docs,
       docs ≡ₚ reminders busy_world
       /\ fst (list_reminders sample_lib (Update (User 501 None) []) busy_world) = Ok tt.
Proof.
  split; [reflexivity|].
  destruct (list_reminders_sorted sample_lib (Update (User 501 None) []) busy_world
              eq_refl eq_refl) as (docs & Hp & _ & Hok & _ & Hall).
  exists docs. split; [exact Hp|].
  destruct Hall as (lines & Hl).
  - intros r _. eexists. reflexivity.
  - rewrite (proj2 (Hok lines Hl)). reflexivity.
Defined.

(** ** Posts to the channel *)

Section Posts.
Variable K : world -> Prop.
Hypothesis HK : stable K.
Variable L : list string.

Lemma posts_io e :
  quiet e = true ->
  preserves (fun w => K w /\ channel_posts (trace w) = L) (io e).
Proof.
  intros He. apply hoare_io; [auto|]. intros w h [Hk Hw]. split.
  - apply (stable_io K HK). exact Hk.
  - fields. unfold channel_posts. rewrite omap_app. fold (channel_posts (trace w)).
    rewrite Hw. destruct e as [| | | | | | | |[|x] s p]; try discriminate;
      cbn; apply app_nil_r.
Qed.

Lemma posts_reads {A} (f : world -> A) :
  preserves (fun w => K w /\ channel_posts (trace w) = L)
            (fun w => (Ok (f w), set_reads (S (reads w)) w)).
Proof.
  intros w [Hk Hw]. split; [apply (stable_reads K HK); exact Hk|exact Hw].
Qed.

(** With a zone-aware time the scheduling raises before anything that
    follows it can run. *)
Lemma posts_schedule_aware {B} rid t msg (k : unit -> M B) :
  preserves (fun w => K w /\ channel_posts (trace w) = L)
            (bind (schedule_reminder_jobs rid (DateTime t true) msg) k).
Proof.
  intros w [Hk Hw]. unfold bind. rewrite schedule_aware_raises.
  split; [apply (stable_reads K HK); exact Hk|exact Hw].
Qed.
End Posts.

Ltac posts_step HK :=
  lazymatch goal with
  | |- preserves _ (bind (schedule_reminder_jobs _ (DateTime _ true) _) _) =>
      apply (posts_schedule_aware _ HK)
  | |- preserves _ (bind _ _) => apply preserves_bind; [|intros ?]
  | |- preserves _ (ret _) => apply preserves_ret
  | |- preserves _ (raise _) => apply preserves_raise
  | |- preserves _ (try_except _ _) => apply preserves_try; [|intros ?]
  | |- preserves _ (gets _) => apply preserves_gets
  | |- preserves _ (io _) => apply (posts_io _ HK); reflexivity
  | |- preserves _ time_time => apply (posts_reads _ HK)
  | |- preserves _ datetime_now => apply (posts_reads _ HK)
  | |- preserves _ datetime_utcnow => apply (posts_reads _ HK)
  | |- preserves _ new_ObjectId => apply (posts_reads _ HK)
  | |- preserves _ (for_each _ _) => apply preserves_for_each; intros ?
  | |- preserves _ (modify _) => apply preserves_modify
  | |- preserves _ (if ?b then _ else _) => destruct b
  | |- preserves _ (match ?x with _ => _ end) => destruct x
  end.

Lemma stable_true : stable (fun _ => True).
Proof. split; intros; exact Logic.I. Qed.

Lemma stable_admins A : stable (fun w => admins w = A).
Proof. split; intros; assumption. Qed.

Lemma posts_check_spam K L u :
  stable K ->
  (forall w f, K w -> K (set_user_requests f w)) ->
  (forall w f, K w -> K (set_blocked f w)) ->
  preserves (fun w => K w /\ channel_posts (trace w) = L) (check_spam u).
Proof.
  intros HK Hu Hb.
  unfold check_spam, rate_limit, block_user, is_blocked, is_admin_or_superadmin,
    find_one, update_one_upsert, reply_text.
  repeat posts_step HK.
  all: intros w [Hk Hw]; fields; try destruct (List.find _ _);
    (split; [|exact Hw]); auto.
Qed.

Lemma posts_remind L lib u :
  preserves (fun w => True /\ channel_posts (trace w) = L) (remind lib u).
Proof.
  pose proof stable_true as HK. unfold remind.
  apply preserves_bind; [apply posts_check_spam; auto|intros ok].
  unfold is_admin_or_superadmin, find_one, reply_text, arg, insert_one.
  repeat (cbn zeta; posts_step HK).
  intros w Hw. exact Hw.
Qed.

Lemma posts_broadcast L u w0 :
  has_superadmin_entry (id (effective_user u)) (admins w0) = false ->
  preserves (fun w => admins w = admins w0 /\ channel_posts (trace w) = L)
            (broadcast u).
Proof.
  intros Hsa. pose proof (stable_admins (admins w0)) as HK. unfold broadcast.
  apply preserves_bind; [apply posts_check_spam; auto|intros ok].
  destruct (negb ok); [apply preserves_ret|].
  eapply hoare_bind
    with (Q1 := fun b w => (admins w = admins w0 /\ channel_posts (trace w) = L)
                           /\ b = false).
  - unfold is_superadmin, find_one.
    eapply hoare_bind
      with (Q1 := fun d w => (admins w = admins w0 /\ channel_posts (trace w) = L)
                             /\ d = List.find (by_user_role (id (effective_user u))
                                                 "superadmin") (admins w0)).
    + eapply hoare_bind; [apply (posts_io _ HK); reflexivity|].
      intros []. apply hoare_gets. intros w Hw. split; [exact Hw|].
      destruct Hw as [-> _]. reflexivity.
    + intros d. apply hoare_ret. intros w [Hw ->]. split; [exact Hw|].
      rewrite find_existsb. exact Hsa.
  - intros b. destruct b.
    + intros w [_ Hb]. discriminate.
    + cbn [negb]. unfold reply_text.
      eapply hoare_conseq;
        [apply (posts_io _ HK L); reflexivity
        |intros w [Hw _]; exact Hw|intros ? w Hw; exact Hw|intros w Hw; exact Hw].
Qed.

Lemma posts_other SUPERADMIN_ID lib c u L :
  c <> CmdBroadcast ->
  preserves (fun w => True /\ channel_posts (trace w) = L)
            (dispatch SUPERADMIN_ID lib c u).
Proof.
  intros Hne. pose proof stable_true as HK.
  destruct c; try congruence; try apply posts_remind.
  all: open_bot; repeat posts_step HK.
  all: intros w' Hw'; fields; try destruct (List.find _ _); exact Hw'.
Qed.

Lemma preserves_snd {A} (I : world -> Prop) (m : M A) w :
  preserves I m -> I w -> I (snd (m w)).
Proof.
  intros Hp Hw. specialize (Hp w Hw). destruct (m w) as [[a|e|] w']; exact Hp.
Qed.

(** X25.  Only broadcast from the superadmin posts to the channel: every
    other command, and broadcast from anybody else, leaves the posts to the
    channel as they were, whoever calls, with whatever arguments and
    wherever the run is cut short.  In particular remind never announces
    the reminder it stored. *)
Theorem channel_posts_only_by_broadcast SUPERADMIN_ID lib c u w :
  (c = CmdBroadcast ->
   has_superadmin_entry (id (effective_user u)) (admins w) = false) ->
  channel_posts (trace (snd (dispatch SUPERADMIN_ID lib c u w)))
  = channel_posts (trace w).
Proof.
  intros Hc.
  assert (Hother : forall c', c' <> CmdBroadcast ->
            channel_posts (trace (snd (dispatch SUPERADMIN_ID lib c' u w)))
            = channel_posts (trace w)).
  { intros c' Hne.
    exact (proj2 (preserves_snd
                    (fun w' => True /\ channel_posts (trace w')
                                       = channel_posts (trace w)) _ w
                    (posts_other SUPERADMIN_ID lib c' u (channel_posts (trace w)) Hne)
                    (conj Logic.I eq_refl))). }
  destruct c; try (apply Hother; discriminate).
  exact (proj2 (preserves_snd
                  (fun w' => admins w' = admins w
                             /\ channel_posts (trace w') = channel_posts (trace w))
                  _ w
                  (posts_broadcast (channel_posts (trace w)) u w (Hc eq_refl))
                  (conj eq_refl eq_refl))).
Qed.

Lemma channel_posts_only_by_broadcast_witness :
  has_superadmin_entry 501 (admins busy_world) = false
  /\ channel_posts
       (trace (snd (dispatch 500 sample_lib CmdBroadcast
                      (Update (User 501 None) ["hello"]) busy_world)))
     = [].
Proof.
  split; [reflexivity|].
  exact (channel_posts_only_by_broadcast 500 sample_lib CmdBroadcast
           (Update (User 501 None) ["hello"]) busy_world (fun _ => eq_refl)).
Defined.
